(** * Experiment-matrix orchestrator and manifest rescanner

    A shallow embedding of [ns-3/scratch/run_matrix.py] (live mode) and
    [ns-3/scratch/generate_manifest.py] (rescan mode), with the properties
    of the pipeline stated and proved over it.

    Conventions.
    - A Python [str] is a Rocq [string] holding its UTF-8 bytes.  Substring
      search, splitting and comparison on UTF-8 bytes agree with the same
      operations on code points, so ['Latency (μs):' in line] is the byte
      search for the seven-bit text around the two bytes of U+03BC.
    - Python integers are [Z].
    - Effects (captured stdout of the engine, files, printed diagnostics,
      exceptions) are threaded through a state-and-exception monad [M] over
      an abstract [Platform]. *)

From Stdlib Require Import ZArith String Ascii List Lia DecimalString DecimalPos
  DecimalZ.
From stdpp Require Import base list sorting strings.

Local Open Scope Z_scope.

(** ** Exceptions

    The exception classes the two scripts can meet.  [SystemExit] is the
    only one that is not an [Exception]: [except Exception] lets it
    through. *)
Inductive exn : Type :=
| ValueError
| OverflowError
| IndexError
| KeyError
| TypeError
| OSError
| CalledProcessError (returncode : Z) (stdout stderr : string)
| SystemExit (code : Z).

Definition is_Exception (e : exn) : bool :=
  match e with
  | SystemExit _ => false
  | _ => true
  end.

(** ** Python built-ins used by the two scripts *)
Module Py.

(** [sub in s] *)
Fixpoint contains (sub s : string) : bool :=
  String.prefix sub s ||
  match s with
  | EmptyString => false
  | String _ s' => contains sub s'
  end.

(** [s.split(sep)] for a non-empty [sep]: non-overlapping occurrences,
    leftmost first.  [skip] counts the bytes of a matched separator that
    are still to be dropped. *)
Fixpoint split_from (sep : string) (skip : nat) (s : string) : list string :=
  match s with
  | EmptyString => [EmptyString]
  | String c s' =>
      match skip with
      | S k => split_from sep k s'
      | O =>
          if String.prefix sep s
          then EmptyString :: split_from sep (Nat.pred (String.length sep)) s'
          else match split_from sep O s' with
               | h :: t => String c h :: t
               | [] => [String c EmptyString]
               end
      end
  end.

Definition split (s sep : string) : list string := split_from sep O s.

(** White space.  [str.strip()] removes every code point for which
    [str.isspace] holds: in ASCII 9-13, 28-31 and 32; beyond ASCII
    U+0085, U+00A0, U+1680, U+2000-U+200A, U+2028, U+2029, U+202F,
    U+205F and U+3000, here as their UTF-8 byte sequences.  [int()] and
    [float()] skip the same set except 28-31. *)
Definition space1 (wide : bool) (a : ascii) : bool :=
  let n := nat_of_ascii a in
  ((9 <=? n) && (n <=? 13) || (n =? 32) || wide && (28 <=? n) && (n <=? 31))%nat.

Definition space2 (a b : ascii) : bool :=
  let '(x, y) := (nat_of_ascii a, nat_of_ascii b) in
  ((x =? 194) && ((y =? 133) || (y =? 160)))%nat.

Definition space3 (a b c : ascii) : bool :=
  let '(x, y, z) := (nat_of_ascii a, nat_of_ascii b, nat_of_ascii c) in
  ((x =? 225) && (y =? 154) && (z =? 128)
   || (x =? 226) && (y =? 128)
      && ((128 <=? z) && (z <=? 138) || (z =? 168) || (z =? 169) || (z =? 175))
   || (x =? 226) && (y =? 129) && (z =? 159)
   || (x =? 227) && (y =? 128) && (z =? 128))%nat.

(** Drop leading white space of a byte list; with [back] the list is a
    reversed string, so multi-byte sequences are met last byte first. *)
Fixpoint drop_space (wide back : bool) (l : list ascii) : list ascii :=
  match l with
  | a :: r1 =>
      if space1 wide a then drop_space wide back r1
      else match r1 with
           | b :: r2 =>
               if (if back then space2 b a else space2 a b)
               then drop_space wide back r2
               else match r2 with
                    | c :: r3 =>
                        if (if back then space3 c b a else space3 a b c)
                        then drop_space wide back r3
                        else l
                    | [] => l
                    end
           | [] => l
           end
  | [] => []
  end.

Definition strip_gen (wide : bool) (s : string) : string :=
  let front := drop_space wide false (list_ascii_of_string s) in
  string_of_list_ascii (rev (drop_space wide true (rev front))).

(** [s.strip()] *)
Definition strip : string -> string := strip_gen true.

Definition digit (a : ascii) : option Z :=
  let n := nat_of_ascii a in
  if ((48 <=? n) && (n <=? 57))%nat then Some (Z.of_nat n - 48) else None.

Definition is_digit (a : ascii) : bool :=
  match digit a with Some _ => true | None => false end.

(** Digits with single underscores between them (PEP 515).  [prev] tells
    whether the byte before was a digit. *)
Fixpoint digits_us (acc : Z) (prev : bool) (s : string) : option Z :=
  match s with
  | EmptyString => if prev then Some acc else None
  | String c r =>
      match digit c with
      | Some d => digits_us (10 * acc + d) true r
      | None =>
          if Ascii.eqb c "_" && prev
          then match r with
               | EmptyString => None
               | _ => digits_us acc false r
               end
          else None
      end
  end.

Definition signed (s : string) : bool * string :=
  match s with
  | String c r =>
      if Ascii.eqb c "-" then (true, r)
      else if Ascii.eqb c "+" then (false, r)
      else (false, s)
  | EmptyString => (false, s)
  end.

(** [int(s)] in base 10.  Decimal digits other than the ASCII ones,
    which CPython also accepts, are not modelled, nor is the bound that
    recent versions put on the number of digits. *)
Definition int (s : string) : exn + Z :=
  let '(neg, body) := signed (strip_gen false s) in
  match digits_us 0 false body with
  | Some n => inr (if neg then - n else n)
  | None => inl ValueError
  end.

(** *** [float(s)]

    A literal is read as an exact decimal [mant * 10 ^ exp10], then
    rounded to the nearest binary64 value, ties to even, as CPython's
    correctly rounded conversion does. *)
Inductive float_lit : Type :=
| FNan
| FInf (neg : bool)
| FDec (neg : bool) (mant exp10 : Z).

(** Underscores are allowed only between two digits; they are removed
    before the literal is read. *)
Fixpoint drop_us (prev : ascii) (s : string) : option string :=
  match s with
  | EmptyString => if Ascii.eqb prev "_" then None else Some EmptyString
  | String c r =>
      if Ascii.eqb c "_"
      then (if is_digit prev then drop_us c r else None)
      else if Ascii.eqb prev "_" && negb (is_digit c) then None
      else option_map (String c) (drop_us c r)
  end.

Fixpoint digits_run (acc : Z) (n : nat) (s : string) : Z * nat * string :=
  match s with
  | EmptyString => (acc, n, s)
  | String c r =>
      match digit c with
      | Some d => digits_run (10 * acc + d) (S n) r
      | None => (acc, n, s)
      end
  end.

Definition lower (a : ascii) : ascii :=
  let n := nat_of_ascii a in
  if ((65 <=? n) && (n <=? 90))%nat then ascii_of_nat (n + 32) else a.

Fixpoint lower_str (s : string) : string :=
  match s with
  | EmptyString => EmptyString
  | String c r => String (lower c) (lower_str r)
  end.

(** The exponent part: empty, or [e]/[E], an optional sign and at least
    one digit, up to the end of the literal. *)
Definition exponent (s : string) : option Z :=
  match s with
  | EmptyString => Some 0
  | String c r =>
      if Ascii.eqb (lower c) "e"
      then let '(neg, ds) := signed r in
           match digits_run 0 O ds with
           | (x, S _, EmptyString) => Some (if neg then - x else x)
           | _ => None
           end
      else None
  end.

Definition read_float (s : string) : option float_lit :=
  match drop_us zero (strip_gen false s) with
  | None => None
  | Some t =>
      let '(neg, body) := signed t in
      let low := lower_str body in
      if String.eqb low "inf" || String.eqb low "infinity" then Some (FInf neg)
      else if String.eqb low "nan" then Some FNan
      else
        let '(m1, n1, r1) := digits_run 0 O body in
        let '(m2, n2, r2) :=
          match r1 with
          | String c r =>
              if Ascii.eqb c "." then digits_run m1 O r else (m1, O, r1)
          | EmptyString => (m1, O, r1)
          end in
        match (n1 + n2)%nat, exponent r2 with
        | S _, Some x => Some (FDec neg m2 (x - Z.of_nat n2))
        | _, _ => None
        end
  end.

(** Nearest integer to [n / d], ties to even ([0 <= n], [0 < d]). *)
Definition round_half_even (n d : Z) : Z :=
  let q := n / d in
  match 2 * (n mod d) ?= d with
  | Lt => q
  | Gt => q + 1
  | Eq => if Z.even q then q else q + 1
  end.

(** [floor (log2 (n / d))] for [0 < n] and [0 < d]. *)
Definition log2_ratio (n d : Z) : Z :=
  let k := Z.log2 n - Z.log2 d in
  if (if 0 <=? k then d * 2 ^ k <=? n else d <=? n * 2 ^ (- k))
  then k else k - 1.

(** The binary64 value nearest to [n / d], as [m * 2 ^ e] with
    [m <= 2 ^ 53] and [-1074 <= e]. *)
Definition binary64 (n d : Z) : Z * Z :=
  if n =? 0 then (0, 0)
  else
    let e := Z.max (log2_ratio n d - 52) (-1074) in
    let m := if 0 <=? e then round_half_even n (d * 2 ^ e)
             else round_half_even (n * 2 ^ (- e)) d in
    (m, e).

(** [m * 2 ^ e] truncated to an integer ([0 <= m]). *)
Definition truncate (m e : Z) : Z :=
  if 0 <=? e then m * 2 ^ e else m / 2 ^ (- e).

(** [int(float(s))]: [ValueError] for a malformed literal and for nan,
    [OverflowError] for an infinity (also one reached by rounding),
    otherwise the binary64 value truncated towards zero. *)
Definition int_of_float (s : string) : exn + Z :=
  match read_float s with
  | None => inl ValueError
  | Some FNan => inl ValueError
  | Some (FInf _) => inl OverflowError
  | Some (FDec neg mant x) =>
      let '(m, e) := if 0 <=? x then binary64 (mant * 10 ^ x) 1
                     else binary64 mant (10 ^ (- x)) in
      if (0 <=? e) && (2 ^ 1024 <=? m * 2 ^ e) then inl OverflowError
      else
        let t := truncate m e in
        inr (if neg then - t else t)
  end.

Fixpoint endswith_slash (s : string) : bool :=
  match s with
  | EmptyString => false
  | String c EmptyString => Ascii.eqb c "/"
  | String _ r => endswith_slash r
  end.

(** [os.path.join(a, b)] on POSIX *)
Definition path_join (a b : string) : string :=
  if String.prefix "/" b then b
  else if String.eqb a "" || endswith_slash a then a +:+ b
  else a +:+ "/" +:+ b.

End Py.

(** ** Python values and dictionaries *)

(** The values that reach a manifest cell: what [json.load] can return and
    what the scripts build themselves.  A float keeps the text of its
    [repr]. *)
#[local] Unset Elimination Schemes.
Inductive pyobj : Type :=
| PNone
| PBool (b : bool)
| PInt (z : Z)
| PFloat (repr : string)
| PStr (s : string)
| PList (items : list pyobj)
| PDict (items : list (string * pyobj)).
#[local] Set Elimination Schemes.

(** A [dict] with [str] keys, in insertion order. *)
Definition dict : Type := list (string * pyobj).

Fixpoint dict_get (k : string) (d : dict) : option pyobj :=
  match d with
  | [] => None
  | (k', v) :: r => if String.eqb k k' then Some v else dict_get k r
  end.

(** [o[k]] for a string key [k] *)
Definition getitem (o : pyobj) (k : string) : exn + pyobj :=
  match o with
  | PDict d =>
      match dict_get k d with
      | Some v => inr v
      | None => inl KeyError
      end
  | _ => inl TypeError
  end.

(** Sequencing of pure steps that may raise. *)
Definition and_then {A B} (r : exn + A) (k : A -> exn + B) : exn + B :=
  match r with
  | inl e => inl e
  | inr a => k a
  end.

(** [l[i]] on a list *)
Definition subscript {A} (l : list A) (i : nat) : exn + A :=
  match nth_error l i with
  | Some x => inr x
  | None => inl IndexError
  end.

(** [str(n)] for an integer *)
Definition str_of_int (n : Z) : string := NilZero.string_of_int (Z.to_int n).

(** ** The summary artifact

    [extract_stats] (run_matrix.py, lines 139-157) and [parse_summary]
    (generate_manifest.py, lines 24-42) run the same two loops over the
    lines of the artifact; they differ in what surrounds the loops.  The
    loops assign to local variables, which keep their values when a later
    line raises. *)
Module Summary.

Record stats : Type := Stats { p50 : Z; p95 : Z; p99 : Z; completed : Z }.

Definition zero : stats := Stats 0 0 0 0.

(** [return p50, p95, p99, completed] *)
Definition tuple (s : stats) : Z * Z * Z * Z := (p50 s, p95 s, p99 s, completed s).

(** A [for] loop over lines whose body assigns to locals [S] and may
    raise: the locals at the end, and the exception that stopped it. *)
Fixpoint for_lines {S} (body : string -> S -> exn + S) (lines : list string) (s : S)
  : S * option exn :=
  match lines with
  | [] => (s, None)
  | line :: rest =>
      match body line s with
      | inl e => (s, Some e)
      | inr s' => for_lines body rest s'
      end
  end.

(** [int(line.split(':')[1].strip().split('/')[0])] *)
Definition completed_field (line : string) : exn + Z :=
  match subscript (Py.split line ":") 1 with
  | inl e => inl e
  | inr f =>
      match subscript (Py.split (Py.strip f) "/") 0 with
      | inl e => inl e
      | inr g => Py.int g
      end
  end.

(** [int(float(line.split(':')[1].strip()))] *)
Definition percentile_field (line : string) : exn + Z :=
  match subscript (Py.split line ":") 1 with
  | inl e => inl e
  | inr f => Py.int_of_float (Py.strip f)
  end.

(** Body of the first loop. *)
Definition completed_line (line : string) (s : stats) : exn + stats :=
  if Py.contains "Completed:" line then
    match completed_field line with
    | inl e => inl e
    | inr n => inr (Stats (p50 s) (p95 s) (p99 s) n)
    end
  else inr s.

(** Body of the second loop; the locals are [in_ns_section] and the
    three percentiles. *)
Definition latency_line (line : string) (fs : bool * stats) : exn + (bool * stats) :=
  let '(in_ns_section, s) := fs in
  if Py.contains "Latency (ns):" line then inr (true, s)
  else if Py.contains "Latency (μs):" line then inr (false, s)
  else if in_ns_section then
    if Py.contains "p50:" line then
      match percentile_field line with
      | inl e => inl e
      | inr v => inr (in_ns_section, Stats v (p95 s) (p99 s) (completed s))
      end
    else if Py.contains "p95:" line then
      match percentile_field line with
      | inl e => inl e
      | inr v => inr (in_ns_section, Stats (p50 s) v (p99 s) (completed s))
      end
    else if Py.contains "p99:" line then
      match percentile_field line with
      | inl e => inl e
      | inr v => inr (in_ns_section, Stats (p50 s) (p95 s) v (completed s))
      end
    else inr fs
  else inr fs.

(** The two loops in sequence, from [p50 = p95 = p99 = completed = 0]. *)
Definition scan (content : string) : stats * option exn :=
  let lines := Py.split content (String "010" EmptyString) in
  match for_lines completed_line lines zero with
  | (s, Some e) => (s, Some e)
  | (s, None) =>
      match for_lines latency_line lines (false, s) with
      | ((_, s'), r) => (s', r)
      end
  end.

(** *** Shapes of artifacts

    The vocabulary in which the properties of the parser describe an
    artifact, line by line. *)

Definition ns_header : string := "Latency (ns):".
Definition us_header : string := "Latency (μs):".

(** The line does not open the nanosecond section. *)
Definition no_ns_header (line : string) : bool := negb (Py.contains ns_header line).

Definition is_value (r : exn + Z) (v : option Z) : bool :=
  match r, v with
  | inr a, Some b => a =? b
  | _, _ => false
  end.

(** A line inside the nanosecond section: no section header, and if it
    is taken for a [p50], [p95] or [p99] line, its field parses to the
    value expected for that percentile ([None]: no such line may
    occur). *)
Definition section_line (v50 v95 v99 : option Z) (line : string) : bool :=
  negb (Py.contains ns_header line) && negb (Py.contains us_header line)
  && (if Py.contains "p50:" line then is_value (percentile_field line) v50
      else if Py.contains "p95:" line then is_value (percentile_field line) v95
      else if Py.contains "p99:" line then is_value (percentile_field line) v99
      else true).

(** The value of a local after the section: the expected one if a line
    assigned it, else the one it had. *)
Definition pick (found : bool) (v : option Z) (old : Z) : Z :=
  if found then default old v else old.

(** The branch of the second loop a line of the section takes. *)
Definition is_p50 (line : string) : bool := Py.contains "p50:" line.
Definition is_p95 (line : string) : bool :=
  negb (Py.contains "p50:" line) && Py.contains "p95:" line.
Definition is_p99 (line : string) : bool :=
  negb (Py.contains "p50:" line) && negb (Py.contains "p95:" line)
  && Py.contains "p99:" line.

(** What follows the nanosecond section: nothing, or the header of the
    microsecond section and lines that do not reopen the nanosecond
    section. *)
Definition section_closed (after : list string) : bool :=
  match after with
  | [] => true
  | line :: rest =>
      no_ns_header line && Py.contains us_header line && forallb no_ns_header rest
  end.

(** No line of the artifact contains [label]. *)
Definition absent (label content : string) : bool :=
  forallb (fun line => negb (Py.contains label line))
          (Py.split content (String "010" EmptyString)).

(** A line that either has no [Completed:] label or carries the count
    [c]. *)
Definition completed_ok (c : Z) (line : string) : bool :=
  if Py.contains "Completed:" line then is_value (completed_field line) (Some c)
  else true.

End Summary.

(** ** The platform, and the monad of the scripts *)

(** What [subprocess.run(cmd, check=True, capture_output=True, text=True)]
    can bring back: a finished process, or a process that could not be
    started.  Wall-clock time is not modelled: [elapsed] is the text that
    [f"{elapsed:.1f}"] gives for the invocation. *)
Inductive proc_outcome : Type :=
| Exited (returncode : Z) (stdout stderr : string) (elapsed : string)
| NotStarted.

(** Everything outside the two scripts: the engine, the file system, the
    JSON decoder and the place of the script on disk. *)
Class Platform : Type := {
  World : Type;
  script_dir : string;
  subprocess_run : list string -> string -> World -> proc_outcome * World;
  read_text : string -> World -> option string;
  listdir : string -> World -> option (list string);
  isdir : string -> World -> bool;
  path_exists : string -> World -> bool;
  json_loads : string -> option pyobj;
}.

(** Lines printed on standard output, one constructor per [print] site
    (or group of adjacent sites) with the values it interpolates. *)
Inductive message : Type :=
| MsgBanner
| MsgTotalRuns (total_runs : Z)
| MsgDimensions (workloads : list string) (outstanding : list Z) (sizes : list (Z * Z))
| MsgRunHeader (run_num total_runs : Z) (workload : string) (outstanding req_bytes : Z)
| MsgCommand (cmd : list string)
| MsgNoRunId (stdout : string)
| MsgRunCompleted (elapsed run_id out_path : string)
| MsgRunFailed (e : exn)
| MsgSummaryWarning (e : exn)
| MsgRunSkipped (run_num : Z)
| MsgManifestWritten (manifest_path : string)
| MsgMatrixComplete (successful total_runs : Z) (out_dir : string)
| MsgTableHeader
| MsgTableRow (workload outstanding req_bytes p50_ns p95_ns p99_ns : pyobj)
| MsgTableEnd
| MsgNoSuccess
| MsgSkipping (run_dir : string)
| MsgProcessed (run_dir : string)
| MsgErrorProcessing (run_dir : string) (e : exn)
| MsgTotal (n : Z).

(** A manifest as [csv.DictWriter] lays it out: the header row and the
    data rows, cell by cell. *)
Record manifest : Type := Manifest { header : list string; rows : list (list pyobj) }.

Inductive event : Type :=
| Print (m : message)
| Exec (cmd : list string) (cwd : string)
| MakeDirs (path : string)
| WriteCsv (path : string) (mf : manifest).

(** Events other than the writing of a manifest. *)
Definition quiet_event (ev : event) : Prop :=
  match ev with
  | WriteCsv _ _ => False
  | _ => True
  end.

(** Manifests are written with the header [fields] and as many cells in
    each row as the header has columns. *)
Definition manifest_shape (fields : list string) (ev : event) : Prop :=
  match ev with
  | WriteCsv _ mf =>
      header mf = fields /\ Forall (fun row => length row = length fields) (rows mf)
  | _ => True
  end.

Section Monad.
Context `{Platform}.

Record state : Type := State { world : World; trace : list event }.

(** A computation either returns or raises, and leaves a state. *)
Definition M (A : Type) : Type := state -> (exn + A) * state.

Definition ret {A} (a : A) : M A := fun st => (inr a, st).

Definition raise {A} (e : exn) : M A := fun st => (inl e, st).

Definition bind {A B} (m : M A) (k : A -> M B) : M B :=
  fun st =>
    match m st with
    | (inl e, st') => (inl e, st')
    | (inr a, st') => k a st'
    end.

Definition emit (ev : event) : M unit :=
  fun st => (inr tt, State (world st) (trace st ++ [ev])).

Definition print (m : message) : M unit := emit (Print m).

(** [try: m  except <classes accepted by catches> as e: handler e] *)
Definition try_except {A} (m : M A) (catches : exn -> bool) (handler : exn -> M A) : M A :=
  fun st =>
    match m st with
    | (inl e, st') => if catches e then handler e st' else (inl e, st')
    | (inr a, st') => (inr a, st')
    end.

(** Lifting of a pure step that may raise. *)
Definition lift {A} (r : exn + A) : M A :=
  match r with
  | inl e => raise e
  | inr a => ret a
  end.

(** [for x in l: body], the locals the body assigns to being [S]. *)
Fixpoint for_ {A S} (l : list A) (body : A -> S -> M S) (s : S) : M S :=
  match l with
  | [] => ret s
  | x :: rest => bind (body x s) (for_ rest body)
  end.

(** A computation only ever adds events at the end of the trace, and
    [emits P m] says that all those it adds satisfy [P]. *)
Definition emits {A} (P : event -> Prop) (m : M A) : Prop :=
  forall st, exists tail, trace (snd (m st)) = trace st ++ tail /\ Forall P tail.

(** Status with which the interpreter exits. *)
Definition exit_status (r : exn + unit) : Z :=
  match r with
  | inr _ => 0
  | inl (SystemExit code) => code
  | inl _ => 1
  end.

End Monad.

Notation "'let*' x ':=' m 'in' k" := (bind m (fun x => k))
  (at level 10, x pattern, m at level 100, k at level 200).
Notation "m ';;' k" := (bind m (fun _ => k))
  (at level 100, k at level 200, right associativity).

(** ** [csv.DictWriter] and the summary table, shared by both scripts *)
Section Output.
Context `{Platform}.

Definition mem (k : string) (l : list string) : bool := existsb (String.eqb k) l.

(** [DictWriter._dict_to_list] with [extrasaction='raise'] and
    [restval='']: a key outside [fieldnames] is a [ValueError], a missing
    key gives an empty cell. *)
Definition dict_to_list (fieldnames : list string) (row : dict) : exn + list pyobj :=
  if forallb (fun kv => mem (fst kv) fieldnames) row
  then inr (map (fun k => default (PStr "") (dict_get k row)) fieldnames)
  else inl ValueError.

(** [writerows]: the rows written before the first one that raises. *)
Fixpoint writerows (fieldnames : list string) (results : list dict)
  : list (list pyobj) * option exn :=
  match results with
  | [] => ([], None)
  | r :: rest =>
      match dict_to_list fieldnames r with
      | inl e => ([], Some e)
      | inr cells =>
          let '(written, e) := writerows fieldnames rest in
          (cells :: written, e)
      end
  end.

(** [with open(manifest_path, 'w', newline='') as f: writeheader();
    writerows(results)].  Opening and writing are taken to succeed. *)
Definition write_csv (manifest_path : string) (fieldnames : list string)
    (results : list dict) : M unit :=
  let '(written, e) := writerows fieldnames results in
  emit (WriteCsv manifest_path (Manifest fieldnames written)) ;;
  match e with
  | Some e => raise e
  | None => ret tt
  end.

(** A value accepts the format specifications [<10] and [<5] unless it
    is [None], a list or a dict. *)
Definition format_ok (v : pyobj) : bool :=
  match v with
  | PNone | PList _ | PDict _ => false
  | _ => true
  end.

(** [x / 1000] under [:<10.2f] needs a number. *)
Definition number (v : pyobj) : bool :=
  match v with
  | PInt _ | PBool _ | PFloat _ => true
  | _ => false
  end.

(** [if ok: rest  else: raise TypeError] *)
Definition require {A} (ok : bool) (rest : M A) : M A :=
  if ok then rest else raise TypeError.

(** One line of the results table; the subscripts and the formats are
    evaluated from left to right. *)
Definition table_row (r : dict) : M unit :=
  let* size := lift (getitem (PDict r) "req_bytes") in
  let* w := lift (getitem (PDict r) "workload") in
  require (format_ok w) (
  let* o := lift (getitem (PDict r) "outstanding") in
  require (format_ok o) (
  let* a := lift (getitem (PDict r) "p50_ns") in
  require (number a) (
  let* b := lift (getitem (PDict r) "p95_ns") in
  require (number b) (
  let* c := lift (getitem (PDict r) "p99_ns") in
  require (number c) (
  print (MsgTableRow w o size a b c)))))).

Definition print_table (results : list dict) : M unit :=
  print MsgTableHeader ;;
  for_ results (fun r _ => table_row r) tt ;;
  print MsgTableEnd.

End Output.

(** ** run_matrix.py *)
Module run_matrix.

Definition OUT_DIR : string := "out/sim".

Definition LINK_RATE : string := "10Gbps".
Definition LINK_DELAY : string := "50us".
Definition MTU : Z := 1500.
Definition QDISC : string := "none".

Definition WORKLOADS : list string := ["pingpong"; "rpc"].
Definition OUTSTANDING : list Z := [1; 8; 32].
Definition SIZES : list (Z * Z) := [(256, 256); (1024, 1024); (4096, 4096)].

Definition N_REQ : Z := 10000.

(** The values one run is started with: the loop variables of [main].
    The network parameters of a run are the four constants above. *)
Record ParameterSet : Type := Params {
  workload : string;
  outstanding : Z;
  req_bytes : Z;
  rsp_bytes : Z;
}.

(** The parameter sets in the order in which three nested loops over
    the dimension lists meet them. *)
Definition matrix (workloads : list string) (outstandings : list Z)
    (sizes : list (Z * Z)) : list ParameterSet :=
  flat_map (fun w =>
    flat_map (fun o =>
      map (fun sz => Params w o (fst sz) (snd sz)) sizes) outstandings) workloads.

(** The part of the matrix met during one turn of the outermost loop. *)
Definition block (w : string) (outstandings : list Z) (sizes : list (Z * Z))
  : list ParameterSet :=
  flat_map (fun o => map (fun sz => Params w o (fst sz) (snd sz)) sizes) outstandings.

Definition fieldnames : list string :=
  ["run_id"; "workload"; "outstanding"; "req_bytes"; "rsp_bytes"; "linkRate";
   "linkDelay"; "mtu"; "qdisc"; "p50_ns"; "p95_ns"; "p99_ns"; "completed";
   "elapsed_s"; "out_dir"].

(** Body of the loop over the lines of the captured stdout; the locals
    are [run_id] and [out_path], [None] at first. *)
Definition marker_line (line : string) (acc : option string * option string)
  : exn + (option string * option string) :=
  let '(run_id, out_path) := acc in
  if Py.contains "Run ID:" line then
    match subscript (Py.split line "Run ID:") 1 with
    | inl e => inl e
    | inr t => inr (Some (Py.strip t), out_path)
    end
  else if Py.contains "Results written to:" line then
    match subscript (Py.split line "Results written to:") 1 with
    | inl e => inl e
    | inr t => inr (run_id, Some (Py.strip t))
    end
  else inr acc.

Fixpoint scan_lines (lines : list string) (acc : option string * option string)
  : exn + (option string * option string) :=
  match lines with
  | [] => inr acc
  | line :: rest =>
      match marker_line line acc with
      | inl e => inl e
      | inr acc' => scan_lines rest acc'
      end
  end.

Definition scan_stdout (stdout : string) : exn + (option string * option string) :=
  scan_lines (Py.split stdout (String "010" EmptyString)) (None, None).

(** [not x] for [x] that is [None] or a string *)
Definition falsy (x : option string) : bool :=
  match x with
  | None => true
  | Some s => String.eqb s ""
  end.

Section Program.
Context `{Platform}.

Definition NS3_ROOT : string := script_dir.
Definition NS3_BIN : string := Py.path_join (Py.path_join NS3_ROOT "..") "ns3".

Definition build_cmd (p : ParameterSet) : list string :=
  [ NS3_BIN; "run"; "hd_runner"; "--";
    "--linkRate=" +:+ LINK_RATE;
    "--linkDelay=" +:+ LINK_DELAY;
    "--mtu=" +:+ str_of_int MTU;
    "--qdisc=" +:+ QDISC;
    "--workload=" +:+ workload p;
    "--nReq=" +:+ str_of_int N_REQ;
    "--outstanding=" +:+ str_of_int (outstanding p);
    "--reqBytes=" +:+ str_of_int (req_bytes p);
    "--rspBytes=" +:+ str_of_int (rsp_bytes p);
    "--enableEgressHook=1";
    "--enableIngressHook=1";
    "--runId=auto";
    "--outDir=" +:+ OUT_DIR ].

(** [subprocess.run(..., check=True, ...)]: a non-zero return code
    raises [CalledProcessError]. *)
Definition run_checked (cmd : list string) (cwd : string) : M (string * string) :=
  fun st =>
    let st1 := State (world st) (trace st ++ [Exec cmd cwd]) in
    match subprocess_run cmd cwd (world st) with
    | (Exited rc out err elapsed, w') =>
        if rc =? 0 then (inr (out, elapsed), State w' (trace st1))
        else (inl (CalledProcessError rc out err), State w' (trace st1))
    | (NotStarted, w') => (inl OSError, State w' (trace st1))
    end.

Definition extract_stats (summary_path : string) : M (Z * Z * Z * Z) :=
  fun st =>
    match read_text summary_path (world st) with
    | None =>
        (print (MsgSummaryWarning OSError) ;; ret (Summary.tuple Summary.zero)) st
    | Some content =>
        match Summary.scan content with
        | (s, None) => ret (Summary.tuple s) st
        | (s, Some e) =>
            if is_Exception e
            then (print (MsgSummaryWarning e) ;; ret (Summary.tuple s)) st
            else raise e st
        end
    end.

Definition run_experiment (p : ParameterSet) (run_num total_runs : Z)
  : M (option dict) :=
  print (MsgRunHeader run_num total_runs (workload p) (outstanding p) (req_bytes p)) ;;
  let cmd := build_cmd p in
  print (MsgCommand cmd) ;;
  try_except
    (let* (stdout, elapsed) := run_checked cmd (NS3_ROOT +:+ "/..") in
     let* (run_id, out_path) := lift (scan_stdout stdout) in
     if falsy run_id || falsy out_path then
       print (MsgNoRunId stdout) ;;
       ret None
     else
       let run_id := default "" run_id in
       let out_path := default "" out_path in
       print (MsgRunCompleted elapsed run_id out_path) ;;
       let summary_path := Py.path_join out_path "summary.txt" in
       let* (p50, p95, p99, completed) := extract_stats summary_path in
       ret (Some
         [ ("run_id", PStr run_id);
           ("workload", PStr (workload p));
           ("outstanding", PInt (outstanding p));
           ("req_bytes", PInt (req_bytes p));
           ("rsp_bytes", PInt (rsp_bytes p));
           ("linkRate", PStr LINK_RATE);
           ("linkDelay", PStr LINK_DELAY);
           ("mtu", PInt MTU);
           ("qdisc", PStr QDISC);
           ("p50_ns", PInt p50);
           ("p95_ns", PInt p95);
           ("p99_ns", PInt p99);
           ("completed", PInt completed);
           ("out_dir", PStr out_path);
           ("elapsed_s", PStr elapsed) ]))
    (fun e => match e with CalledProcessError _ _ _ => true | _ => false end)
    (fun e => print (MsgRunFailed e) ;; ret None).

Definition write_manifest (results : list dict) : M unit :=
  let manifest_path := Py.path_join OUT_DIR "manifest.csv" in
  write_csv manifest_path fieldnames results ;;
  print (MsgManifestWritten manifest_path).

(** Body of the innermost loop of [main]; the locals carried round
    the loops are [results] and [run_num]. *)
Definition run_one (total_runs : Z) (p : ParameterSet) (loc : list dict * Z)
  : M (list dict * Z) :=
  let '(results, run_num) := loc in
  let run_num := run_num + 1 in
  let* result := run_experiment p run_num total_runs in
  match result with
  | Some r => ret (results ++ [r], run_num)
  | None => print (MsgRunSkipped run_num) ;; ret (results, run_num)
  end.

(** The three nested loops of [main], from [results = []] and
    [run_num = 0]. *)
Definition run_all (total_runs : Z) (workloads : list string)
    (outstandings : list Z) (sizes : list (Z * Z)) : M (list dict * Z) :=
  for_ workloads (fun w =>
    for_ outstandings (fun o =>
      for_ sizes (fun sz =>
        run_one total_runs (Params w o (fst sz) (snd sz))))) ([], 0).

(** [main], the dimension lists being the module constants in the
    script and parameters here. *)
Definition main_with (workloads : list string) (outstandings : list Z)
    (sizes : list (Z * Z)) : M unit :=
  print MsgBanner ;;
  let total_runs :=
    Z.of_nat (length workloads) * Z.of_nat (length outstandings)
    * Z.of_nat (length sizes) in
  print (MsgTotalRuns total_runs) ;;
  print (MsgDimensions workloads outstandings sizes) ;;
  emit (MakeDirs OUT_DIR) ;;
  let* (results, _) := run_all total_runs workloads outstandings sizes in
  match results with
  | _ :: _ =>
      write_manifest results ;;
      print (MsgMatrixComplete (Z.of_nat (length results)) total_runs OUT_DIR) ;;
      print_table results
  | [] =>
      print MsgNoSuccess ;;
      raise (SystemExit 1)
  end.

Definition main : M unit := main_with WORKLOADS OUTSTANDING SIZES.

(** The state in which the loops of [main] start: the banner, the
    number of runs and the dimensions are printed, the output
    directory is made. *)
Definition started (workloads : list string) (outstandings : list Z)
    (sizes : list (Z * Z)) (st : state) : state :=
  State (world st)
    (trace st
     ++ [ Print MsgBanner;
          Print (MsgTotalRuns
                   (Z.of_nat (length workloads) * Z.of_nat (length outstandings)
                    * Z.of_nat (length sizes)));
          Print (MsgDimensions workloads outstandings sizes);
          MakeDirs OUT_DIR ]).

(** What [main] does once the loops are over. *)
Definition finish (total_runs : Z) (results : list dict) : M unit :=
  match results with
  | _ :: _ =>
      write_manifest results ;;
      print (MsgMatrixComplete (Z.of_nat (length results)) total_runs OUT_DIR) ;;
      print_table results
  | [] =>
      print MsgNoSuccess ;;
      raise (SystemExit 1)
  end.

(** The row [r] carries the parameters of [p]. *)
Definition row_of (p : ParameterSet) (r : dict) : Prop :=
  dict_get "workload" r = Some (PStr (workload p))
  /\ dict_get "outstanding" r = Some (PInt (outstanding p))
  /\ dict_get "req_bytes" r = Some (PInt (req_bytes p))
  /\ dict_get "rsp_bytes" r = Some (PInt (rsp_bytes p)).

End Program.

End run_matrix.

(** ** generate_manifest.py *)
Module generate_manifest.

Definition OUT_DIR : string := "../out/sim".

Definition fieldnames : list string :=
  ["run_id"; "workload"; "outstanding"; "req_bytes"; "rsp_bytes"; "linkRate";
   "linkDelay"; "mtu"; "qdisc"; "p50_ns"; "p95_ns"; "p99_ns"; "completed";
   "out_dir"].

(** [str] ordering: by code point, which on UTF-8 text is the byte-wise
    lexicographic order. *)
Definition str_le (a b : string) : Prop := String.leb a b = true.

#[global] Instance str_le_dec : RelDecision str_le.
Proof. intros a b. unfold str_le. apply bool_eq_dec. Defined.

(** [sorted(names)] *)
Definition sorted (names : list string) : list string := merge_sort str_le names.

Section Program.
Context `{Platform}.

Definition parse_config (config_path : string) : M pyobj :=
  fun st =>
    match read_text config_path (world st) with
    | None => raise OSError st
    | Some text =>
        match json_loads text with
        | None => raise ValueError st
        | Some v => ret v st
        end
    end.

Definition parse_summary (summary_path : string) : M (Z * Z * Z * Z) :=
  fun st =>
    match read_text summary_path (world st) with
    | None => raise OSError st
    | Some content =>
        match Summary.scan content with
        | (s, None) => ret (Summary.tuple s) st
        | (_, Some e) => raise e st
        end
    end.

(** The dict appended to [results]; the subscripts of [config] are
    evaluated in the order of the display, the first that fails
    raising. *)
Definition build_row (config : pyobj) (stats : Z * Z * Z * Z) (run_path : string)
  : exn + dict :=
  let '(p50, p95, p99, completed) := stats in
  and_then (getitem config "runId") (fun run_id =>
  and_then (getitem config "workload") (fun workload =>
  and_then (getitem config "outstanding") (fun outstanding =>
  and_then (getitem config "reqBytes") (fun req_bytes =>
  and_then (getitem config "rspBytes") (fun rsp_bytes =>
  and_then (getitem config "linkRate") (fun link_rate =>
  and_then (getitem config "linkDelay") (fun link_delay =>
  and_then (getitem config "mtu") (fun mtu =>
  and_then (getitem config "qdisc") (fun qdisc =>
    inr [ ("run_id", run_id);
          ("workload", workload);
          ("outstanding", outstanding);
          ("req_bytes", req_bytes);
          ("rsp_bytes", rsp_bytes);
          ("linkRate", link_rate);
          ("linkDelay", link_delay);
          ("mtu", mtu);
          ("qdisc", qdisc);
          ("p50_ns", PInt p50);
          ("p95_ns", PInt p95);
          ("p99_ns", PInt p99);
          ("completed", PInt completed);
          ("out_dir", PStr run_path) ]))))))))).

Definition test (f : string -> World -> bool) (path : string) : M bool :=
  fun st => (inr (f path (world st)), st).

(** Body of the loop of [main] over the directory entries; the local
    carried round the loop is [results]. *)
Definition process_entry (run_dir : string) (results : list dict) : M (list dict) :=
  let run_path := Py.path_join OUT_DIR run_dir in
  let* d := test isdir run_path in
  if negb d then ret results
  else
    let config_path := Py.path_join run_path "config.json" in
    let summary_path := Py.path_join run_path "summary.txt" in
    let* c := test path_exists config_path in
    let* s := (if c then test path_exists summary_path else ret false) in
    if negb c || negb s then
      print (MsgSkipping run_dir) ;;
      ret results
    else
      try_except
        (let* config := parse_config config_path in
         let* stats := parse_summary summary_path in
         let* row := lift (build_row config stats run_path) in
         print (MsgProcessed run_dir) ;;
         ret (results ++ [row]))
        is_Exception
        (fun e => print (MsgErrorProcessing run_dir e) ;; ret results).

(** [os.listdir(path)] *)
Definition list_dir (path : string) : M (list string) :=
  fun st =>
    match listdir path (world st) with
    | Some names => ret names st
    | None => raise OSError st
    end.

(** What the [try] block of [process_entry] computes for a directory,
    as a function of the world it reads. *)
Definition load (w : World) (run_dir : string) : exn + dict :=
  let run_path := Py.path_join OUT_DIR run_dir in
  match read_text (Py.path_join run_path "config.json") w with
  | None => inl OSError
  | Some text =>
      match json_loads text with
      | None => inl ValueError
      | Some config =>
          match read_text (Py.path_join run_path "summary.txt") w with
          | None => inl OSError
          | Some content =>
              match Summary.scan content with
              | (s, None) => build_row config (Summary.tuple s) run_path
              | (_, Some e) => inl e
              end
          end
      end
  end.

(** The entry is a directory that holds both artifacts. *)
Definition complete (w : World) (run_dir : string) : bool :=
  let run_path := Py.path_join OUT_DIR run_dir in
  isdir run_path w
  && path_exists (Py.path_join run_path "config.json") w
  && path_exists (Py.path_join run_path "summary.txt") w.

(** The row one turn of the loop adds to [results], if any. *)
Definition processed (w : World) (run_dir : string) : option dict :=
  if complete w run_dir then
    match load w run_dir with
    | inr row => Some row
    | inl _ => None
    end
  else None.

(** The lines one turn of the loop prints. *)
Definition entry_events (w : World) (run_dir : string) : list event :=
  if negb (isdir (Py.path_join OUT_DIR run_dir) w) then []
  else if complete w run_dir then
    match load w run_dir with
    | inr _ => [Print (MsgProcessed run_dir)]
    | inl e => [Print (MsgErrorProcessing run_dir e)]
    end
  else [Print (MsgSkipping run_dir)].

(** A run directory with both artifacts, a config that decodes and
    has the nine keys, and a summary that scans without exception;
    [row] is the dict built from them. *)
Definition valid_run (w : World) (run_dir : string) (row : dict) : Prop :=
  let run_path := Py.path_join OUT_DIR run_dir in
  isdir run_path w = true
  /\ path_exists (Py.path_join run_path "config.json") w = true
  /\ path_exists (Py.path_join run_path "summary.txt") w = true
  /\ exists text config content s,
       read_text (Py.path_join run_path "config.json") w = Some text
       /\ json_loads text = Some config
       /\ read_text (Py.path_join run_path "summary.txt") w = Some content
       /\ Summary.scan content = (s, None)
       /\ build_row config (Summary.tuple s) run_path = inr row.

(** In world [w] the turn of the loop for [run_dir] leaves [results]
    as it was. *)
Definition skips (w : World) (run_dir : string) : Prop :=
  forall results st, world st = w ->
    fst (process_entry run_dir results st) = inr results.

Definition main : M unit :=
  let* names := list_dir OUT_DIR in
  let* results := for_ (sorted names) process_entry [] in
  let manifest_path := Py.path_join OUT_DIR "manifest.csv" in
  write_csv manifest_path fieldnames results ;;
  print (MsgManifestWritten manifest_path) ;;
  print (MsgTotal (Z.of_nat (length results))) ;;
  print_table results.

End Program.

End generate_manifest.

(** ** A small concrete platform

    Files are a table from paths to contents, the engine a function of
    the command line, the JSON decoder a table from texts to values.  The
    world never changes.  It serves to run the scripts on examples. *)
Module Toy.

Fixpoint assoc {A} (k : string) (l : list (string * A)) : option A :=
  match l with
  | [] => None
  | (k', v) :: r => if String.eqb k k' then Some v else assoc k r
  end.

Definition platform (files : list (string * string)) (dirs : list string)
    (entries : option (list string)) (engine : list string -> proc_outcome)
    (decoder : list (string * pyobj)) : Platform :=
  {| World := unit;
     script_dir := "/repo/ns-3/scratch";
     subprocess_run := fun cmd _ w => (engine cmd, w);
     read_text := fun path _ => assoc path files;
     listdir := fun _ _ => entries;
     isdir := fun path _ => mem path dirs;
     path_exists := fun path _ =>
       mem path dirs || match assoc path files with Some _ => true | None => false end;
     json_loads := fun text => assoc text decoder |}.

(** The state in which a script starts on [platform ...]. *)
Definition start (P : Platform) (w : @World P) : @state P := @State P w [].

(** No file, no directory, an engine that cannot be started. *)
Definition idle : Platform := platform [] [] None (fun _ => NotStarted) [].

Definition dq : string := String (ascii_of_nat 34) EmptyString.

(** The text of a config artifact and the value it decodes to. *)
Definition config_text (run_id : string) : string :=
  "{" +:+ dq +:+ "runId" +:+ dq +:+ ": " +:+ dq +:+ run_id +:+ dq +:+ ", "
  +:+ dq +:+ "workload" +:+ dq +:+ ": " +:+ dq +:+ "rpc" +:+ dq +:+ ", "
  +:+ dq +:+ "outstanding" +:+ dq +:+ ": 8, "
  +:+ dq +:+ "reqBytes" +:+ dq +:+ ": 256, "
  +:+ dq +:+ "rspBytes" +:+ dq +:+ ": 256, "
  +:+ dq +:+ "linkRate" +:+ dq +:+ ": " +:+ dq +:+ "10Gbps" +:+ dq +:+ ", "
  +:+ dq +:+ "linkDelay" +:+ dq +:+ ": " +:+ dq +:+ "50us" +:+ dq +:+ ", "
  +:+ dq +:+ "mtu" +:+ dq +:+ ": 1500, "
  +:+ dq +:+ "qdisc" +:+ dq +:+ ": " +:+ dq +:+ "none" +:+ dq +:+ "}".

Definition config_value (run_id : string) : pyobj :=
  PDict [ ("runId", PStr run_id); ("workload", PStr "rpc");
          ("outstanding", PInt 8); ("reqBytes", PInt 256); ("rspBytes", PInt 256);
          ("linkRate", PStr "10Gbps"); ("linkDelay", PStr "50us");
          ("mtu", PInt 1500); ("qdisc", PStr "none") ].

(** The manifests written along a trace. *)
Definition manifests (tr : list event) : list manifest :=
  omap (fun ev => match ev with WriteCsv _ mf => Some mf | _ => None end) tr.

(** One summary artifact, where a run of live mode would leave it. *)
Definition one_summary (content : string) : Platform :=
  platform [("out/sim/r7/summary.txt", content)] ["out/sim/r7"] None
           (fun _ => NotStarted) [].

Definition nl : string := String "010" EmptyString.

(** A summary artifact as the engine writes it. *)
Definition summary_full : string :=
  "Host-delay summary" +:+ nl +:+
  "Completed: 9000/10000" +:+ nl +:+
  nl +:+
  "Latency (ns):" +:+ nl +:+
  "p50: 1234.0" +:+ nl +:+
  "p95: 5678.0" +:+ nl +:+
  "p99: 9999.0" +:+ nl +:+
  nl +:+
  "Latency (μs):" +:+ nl +:+
  "p50: 1.234" +:+ nl +:+
  "p95: 5.678" +:+ nl +:+
  "p99: 9.999" +:+ nl.

(** The same artifact, written up to the [p95] line of the nanosecond
    section only. *)
Definition summary_partial : string :=
  "Host-delay summary" +:+ nl +:+
  "Completed: 9000/10000" +:+ nl +:+
  nl +:+
  "Latency (ns):" +:+ nl +:+
  "p50: 1234.0" +:+ nl +:+
  "p95: 5678.0" +:+ nl +:+
  nl +:+
  "Latency (μs):" +:+ nl +:+
  "p50: 1.234" +:+ nl +:+
  "p95: 5.678" +:+ nl +:+
  "p99: 9.999" +:+ nl.


(** A result root with the run directories [a], [b] and [c], the
    directory [m] that has no summary, and an earlier manifest. *)
Definition result_root : Platform :=
  platform
    [ ("../out/sim/a/config.json", config_text "run-a");
      ("../out/sim/a/summary.txt", summary_full);
      ("../out/sim/b/config.json", config_text "run-b");
      ("../out/sim/b/summary.txt", summary_full);
      ("../out/sim/c/config.json", config_text "run-c");
      ("../out/sim/c/summary.txt", summary_partial);
      ("../out/sim/m/config.json", config_text "run-m");
      ("../out/sim/manifest.csv", "run_id,workload") ]
    ["../out/sim/a"; "../out/sim/b"; "../out/sim/c"; "../out/sim/m"]
    (Some ["m"; "c"; "manifest.csv"; "a"; "b"])
    (fun _ => NotStarted)
    [ (config_text "run-a", config_value "run-a");
      (config_text "run-b", config_value "run-b");
      (config_text "run-c", config_value "run-c");
      (config_text "run-m", config_value "run-m") ].

(** An engine that exits with status 2 whatever it is asked. *)
Definition failing : Platform :=
  platform [] [] None (fun _ => Exited 2 "" "ns3: build failed" "0.0") [].

(** An engine that fails the runs with eight outstanding requests and
    completes the others, whose summary is [summary_full]. *)
Definition flaky : Platform :=
  platform [("out/sim/r7/summary.txt", summary_full)] ["out/sim/r7"] None
    (fun cmd =>
       if mem "--outstanding=8" cmd
       then Exited 2 "" "hd_runner: aborted" "0.1"
       else Exited 0
              ("Run ID: r7" +:+ nl +:+ "Results written to: out/sim/r7" +:+ nl)
              "" "0.3")
    [].

(** The row of the first run of [flaky], with one outstanding request. *)
Definition flaky_first : list dict :=
  [ [ ("run_id", PStr "r7"); ("workload", PStr "rpc"); ("outstanding", PInt 1);
      ("req_bytes", PInt 256); ("rsp_bytes", PInt 256);
      ("linkRate", PStr "10Gbps"); ("linkDelay", PStr "50us"); ("mtu", PInt 1500);
      ("qdisc", PStr "none"); ("p50_ns", PInt 1234); ("p95_ns", PInt 5678);
      ("p99_ns", PInt 9999); ("completed", PInt 9000);
      ("out_dir", PStr "out/sim/r7"); ("elapsed_s", PStr "0.3") ] ].

(** A row as rescan mode builds it: no [elapsed_s]. *)
Definition rescan_row : dict :=
  [ ("run_id", PStr "run-a"); ("workload", PStr "rpc"); ("outstanding", PInt 8);
    ("req_bytes", PInt 256); ("rsp_bytes", PInt 256); ("linkRate", PStr "10Gbps");
    ("linkDelay", PStr "50us"); ("mtu", PInt 1500); ("qdisc", PStr "none");
    ("p50_ns", PInt 1234); ("p95_ns", PInt 5678); ("p99_ns", PInt 9999);
    ("completed", PInt 9000); ("out_dir", PStr "../out/sim/a") ].

(** A result root that holds nothing yet. *)
Definition empty_root : Platform :=
  platform [] [] (Some []) (fun _ => NotStarted) [].

End Toy.

(** ** Rows and what is written from them *)

(** A row as [run_experiment] builds it (run_matrix.py, lines 106-122). *)
Definition live_row (r : dict) : Prop :=
  exists run_id workload outstanding req_bytes rsp_bytes p50 p95 p99 completed
         out_path elapsed,
    r = [ ("run_id", PStr run_id);
          ("workload", PStr workload);
          ("outstanding", PInt outstanding);
          ("req_bytes", PInt req_bytes);
          ("rsp_bytes", PInt rsp_bytes);
          ("linkRate", PStr run_matrix.LINK_RATE);
          ("linkDelay", PStr run_matrix.LINK_DELAY);
          ("mtu", PInt run_matrix.MTU);
          ("qdisc", PStr run_matrix.QDISC);
          ("p50_ns", PInt p50);
          ("p95_ns", PInt p95);
          ("p99_ns", PInt p99);
          ("completed", PInt completed);
          ("out_dir", PStr out_path);
          ("elapsed_s", PStr elapsed) ].

(** A row as the loop of generate_manifest.py builds it (lines 71-86):
    nine values of the config, whatever they are, then the four numbers
    of the summary and the path of the directory. *)
Definition rescanned_row (r : dict) : Prop :=
  exists run_id workload outstanding req_bytes rsp_bytes link_rate link_delay mtu qdisc
         p50 p95 p99 completed run_path,
    r = [ ("run_id", run_id);
          ("workload", workload);
          ("outstanding", outstanding);
          ("req_bytes", req_bytes);
          ("rsp_bytes", rsp_bytes);
          ("linkRate", link_rate);
          ("linkDelay", link_delay);
          ("mtu", mtu);
          ("qdisc", qdisc);
          ("p50_ns", PInt p50);
          ("p95_ns", PInt p95);
          ("p99_ns", PInt p99);
          ("completed", PInt completed);
          ("out_dir", PStr run_path) ].

(** The value of a row under a key; [None] where the row has none. *)
Definition value (k : string) (r : dict) : pyobj := default PNone (dict_get k r).

(** The cells written for a row under a header. *)
Definition cells (fields : list string) (r : dict) : list pyobj :=
  map (fun k => default (PStr "") (dict_get k r)) fields.

(** The line of the results table for a row. *)
Definition table_line (r : dict) : event :=
  Print (MsgTableRow (value "workload" r) (value "outstanding" r) (value "req_bytes" r)
           (value "p50_ns" r) (value "p95_ns" r) (value "p99_ns" r)).

(** The workload and the number of outstanding requests of a row can be
    laid out in the results table. *)
Definition printable (r : dict) : bool :=
  format_ok (value "workload" r) && format_ok (value "outstanding" r).

(** The keys that [build_row] reads from a config. *)
Definition config_keys : list string :=
  ["runId"; "workload"; "outstanding"; "reqBytes"; "rspBytes"; "linkRate"; "linkDelay";
   "mtu"; "qdisc"].

(** The event is a call of the engine. *)
Definition is_exec (ev : event) : bool :=
  match ev with
  | Exec _ _ => true
  | _ => false
  end.

(** The loops of live mode on [Toy.flaky], over three levels of
    outstanding requests, and the rows they gather. *)
Definition flaky_run : (exn + (list dict * Z)) * @state Toy.flaky :=
  run_matrix.run_all (H := Toy.flaky) 3 ["rpc"] [1; 8; 32] [(256, 256)]
    (run_matrix.started (H := Toy.flaky) ["rpc"] [1; 8; 32] [(256, 256)]
       (Toy.start Toy.flaky tt)).

Definition flaky_results : list dict :=
  match fst flaky_run with
  | inr (results, _) => results
  | inl _ => []
  end.

(** The calls of the engine along a trace: command line and working
    directory. *)
Definition engine_calls (tr : list event) : list (list string * string) :=
  omap (fun ev => match ev with Exec cmd cwd => Some (cmd, cwd) | _ => None end) tr.

(** Events that are neither a call of the engine nor the making of a
    directory. *)
Definition passive_event (ev : event) : Prop :=
  match ev with
  | Exec _ _ | MakeDirs _ => False
  | _ => True
  end.

(** An engine that completes every run and names a result directory
    in which there is nothing to read. *)
Definition no_artifacts : Platform :=
  Toy.platform [] [] None
    (fun _ => Exited 0
                ("Run ID: r1" +:+ Toy.nl +:+ "Results written to: out/sim/r1" +:+ Toy.nl)
                "" "0.2")
    [].

(** An artifact with a microsecond section only. *)
Definition summary_us_only : string :=
  "Completed: 7/10" +:+ Toy.nl +:+
  "Latency (μs):" +:+ Toy.nl +:+
  "p50: 1.234" +:+ Toy.nl +:+
  "p95: 5.678" +:+ Toy.nl +:+
  "p99: 9.999" +:+ Toy.nl.

(** An artifact that reports progress twice. *)
Definition summary_progress : string :=
  "Completed: 400/10000" +:+ Toy.nl +:+
  "Completed: 9000/10000" +:+ Toy.nl +:+
  "Latency (ns):" +:+ Toy.nl +:+
  "p50: 1234.0" +:+ Toy.nl.

(** An artifact whose count is not a number, before a nanosecond
    section that is well formed. *)
Definition summary_bad_count : string :=
  "Completed: n/a" +:+ Toy.nl +:+
  "Latency (ns):" +:+ Toy.nl +:+
  "p50: 1234.0" +:+ Toy.nl.

(** A line with the label [Completed:] has a field that [int] reads. *)
Definition count_reads (line : string) : bool :=
  if Py.contains "Completed:" line
  then match Summary.completed_field line with inr _ => true | inl _ => false end
  else true.

(** What the subscripts of [build_row] raise on a config: [TypeError]
    when it is not a dict, [KeyError] when it is a dict without one of
    the nine keys, nothing otherwise. *)
Definition config_error (config : pyobj) : option exn :=
  match config with
  | PDict items =>
      if forallb (fun k => match dict_get k items with Some _ => true | None => false end)
                 config_keys
      then None else Some KeyError
  | _ => Some TypeError
  end.

Section Steady.
Context `{Platform}.

(** A computation that leaves the world as it is and adds to the trace
    events that satisfy [P] only. *)
Definition steady {A} (P : event -> Prop) (m : M A) : Prop :=
  forall st, exists tail,
    snd (m st) = State (world st) (trace st ++ tail) /\ Forall P tail.

End Steady.

(** A config artifact without [qdisc], and the value it decodes to. *)
Definition no_qdisc_text : string :=
  "{" +:+ Toy.dq +:+ "runId" +:+ Toy.dq +:+ ": " +:+ Toy.dq +:+ "run-a" +:+ Toy.dq +:+ ", "
  +:+ Toy.dq +:+ "workload" +:+ Toy.dq +:+ ": " +:+ Toy.dq +:+ "rpc" +:+ Toy.dq +:+ ", "
  +:+ Toy.dq +:+ "outstanding" +:+ Toy.dq +:+ ": 8, "
  +:+ Toy.dq +:+ "reqBytes" +:+ Toy.dq +:+ ": 256, "
  +:+ Toy.dq +:+ "rspBytes" +:+ Toy.dq +:+ ": 256, "
  +:+ Toy.dq +:+ "linkRate" +:+ Toy.dq +:+ ": " +:+ Toy.dq +:+ "10Gbps" +:+ Toy.dq +:+ ", "
  +:+ Toy.dq +:+ "linkDelay" +:+ Toy.dq +:+ ": " +:+ Toy.dq +:+ "50us" +:+ Toy.dq +:+ ", "
  +:+ Toy.dq +:+ "mtu" +:+ Toy.dq +:+ ": 1500}".

Definition no_qdisc_value : pyobj :=
  PDict [ ("runId", PStr "run-a"); ("workload", PStr "rpc");
          ("outstanding", PInt 8); ("reqBytes", PInt 256); ("rspBytes", PInt 256);
          ("linkRate", PStr "10Gbps"); ("linkDelay", PStr "50us"); ("mtu", PInt 1500) ].

(** A result root whose only run directory has that config. *)
Definition no_qdisc_root : Platform :=
  Toy.platform
    [ ("../out/sim/a/config.json", no_qdisc_text);
      ("../out/sim/a/summary.txt", Toy.summary_full) ]
    ["../out/sim/a"] (Some ["a"]) (fun _ => NotStarted)
    [ (no_qdisc_text, no_qdisc_value) ].

(** A config artifact whose workload is [null], and the value it decodes
    to. *)
Definition null_workload_text : string :=
  "{" +:+ Toy.dq +:+ "runId" +:+ Toy.dq +:+ ": " +:+ Toy.dq +:+ "run-b" +:+ Toy.dq +:+ ", "
  +:+ Toy.dq +:+ "workload" +:+ Toy.dq +:+ ": null, "
  +:+ Toy.dq +:+ "outstanding" +:+ Toy.dq +:+ ": 8, "
  +:+ Toy.dq +:+ "reqBytes" +:+ Toy.dq +:+ ": 256, "
  +:+ Toy.dq +:+ "rspBytes" +:+ Toy.dq +:+ ": 256, "
  +:+ Toy.dq +:+ "linkRate" +:+ Toy.dq +:+ ": " +:+ Toy.dq +:+ "10Gbps" +:+ Toy.dq +:+ ", "
  +:+ Toy.dq +:+ "linkDelay" +:+ Toy.dq +:+ ": " +:+ Toy.dq +:+ "50us" +:+ Toy.dq +:+ ", "
  +:+ Toy.dq +:+ "mtu" +:+ Toy.dq +:+ ": 1500, "
  +:+ Toy.dq +:+ "qdisc" +:+ Toy.dq +:+ ": " +:+ Toy.dq +:+ "none" +:+ Toy.dq +:+ "}".

Definition null_workload_value : pyobj :=
  PDict [ ("runId", PStr "run-b"); ("workload", PNone);
          ("outstanding", PInt 8); ("reqBytes", PInt 256); ("rspBytes", PInt 256);
          ("linkRate", PStr "10Gbps"); ("linkDelay", PStr "50us");
          ("mtu", PInt 1500); ("qdisc", PStr "none") ].

(** A result root with the run directory [a], whose config is that of
    [Toy.result_root], and the run directory [b], whose workload is
    [null]. *)
Definition null_workload_root : Platform :=
  Toy.platform
    [ ("../out/sim/a/config.json", Toy.config_text "run-a");
      ("../out/sim/a/summary.txt", Toy.summary_full);
      ("../out/sim/b/config.json", null_workload_text);
      ("../out/sim/b/summary.txt", Toy.summary_full) ]
    ["../out/sim/a"; "../out/sim/b"] (Some ["b"; "a"]) (fun _ => NotStarted)
    [ (Toy.config_text "run-a", Toy.config_value "run-a");
      (null_workload_text, null_workload_value) ].

(** The row of the run directory [b] of [null_workload_root]. *)
Definition null_workload_row : dict :=
  [ ("run_id", PStr "run-b"); ("workload", PNone); ("outstanding", PInt 8);
    ("req_bytes", PInt 256); ("rsp_bytes", PInt 256); ("linkRate", PStr "10Gbps");
    ("linkDelay", PStr "50us"); ("mtu", PInt 1500); ("qdisc", PStr "none");
    ("p50_ns", PInt 1234); ("p95_ns", PInt 5678); ("p99_ns", PInt 9999);
    ("completed", PInt 9000); ("out_dir", PStr "../out/sim/b") ].

(** The event is a line printed. *)
Definition printed (ev : event) : Prop :=
  match ev with
  | Print _ => True
  | _ => False
  end.

(** The headers of runs along a trace: number of the run, number of
    runs, workload, outstanding requests, request size. *)
Definition run_headers (tr : list event) : list (Z * Z * string * Z * Z) :=
  omap (fun ev => match ev with
                  | Print (MsgRunHeader n t w o r) => Some (n, t, w, o, r)
                  | _ => None
                  end) tr.

(** The header of the run of [p] that is the [i]-th after the [n]-th. *)
Definition header_of (n t : Z) (i : nat) (p : run_matrix.ParameterSet)
  : Z * Z * string * Z * Z :=
  (n + Z.of_nat i + 1, t, run_matrix.workload p, run_matrix.outstanding p,
   run_matrix.req_bytes p).

(** The numbers of the runs reported as skipped along a trace. *)
Definition skipped_runs (tr : list event) : list Z :=
  omap (fun ev => match ev with Print (MsgRunSkipped n) => Some n | _ => None end) tr.

(** What a run prints about itself after its command: that it failed,
    that its output names no run, that it completed, or a warning about
    its summary. *)
Definition run_report (ev : event) : Prop :=
  match ev with
  | Print (MsgRunFailed _) | Print (MsgNoRunId _) | Print (MsgRunCompleted _ _ _)
  | Print (MsgSummaryWarning _) => True
  | _ => False
  end.

(** * Properties *)

(** ** Loops and traces *)
Section MonadFacts.
Context `{Platform}.

Lemma for_app {A S} (l1 l2 : list A) (body : A -> S -> M S) (s : S) (st : state) :
  for_ (l1 ++ l2) body s st = bind (for_ l1 body s) (for_ l2 body) st.
Proof.
  revert s st. induction l1 as [|x l1 IH]; intros s st; [reflexivity|].
  cbn [for_ app]. unfold bind.
  destruct (body x s st) as [[e|s'] st']; [reflexivity|].
  rewrite IH. reflexivity.
Qed.

Lemma for_ext {A S} (l : list A) (b1 b2 : A -> S -> M S) :
  (forall x s st, b1 x s st = b2 x s st) ->
  forall s st, for_ l b1 s st = for_ l b2 s st.
Proof.
  intros Hb. induction l as [|x l IH]; intros s st; [reflexivity|].
  cbn [for_]. unfold bind. rewrite Hb.
  destruct (b2 x s st) as [[e|s'] st']; [reflexivity|apply IH].
Qed.

Lemma for_map {A B S} (f : A -> B) (l : list A) (body : B -> S -> M S) s st :
  for_ (map f l) body s st = for_ l (fun x => body (f x)) s st.
Proof.
  revert s st. induction l as [|x l IH]; intros s st; [reflexivity|].
  cbn [for_ map]. unfold bind.
  destruct (body (f x) s st) as [[e|s'] st']; [reflexivity|apply IH].
Qed.

Lemma for_flat_map {A B S} (f : A -> list B) (l : list A) (body : B -> S -> M S) s st :
  for_ (flat_map f l) body s st = for_ l (fun x => for_ (f x) body) s st.
Proof.
  revert s st. induction l as [|x l IH]; intros s st; [reflexivity|].
  cbn [flat_map]. rewrite for_app. cbn [for_]. unfold bind.
  destruct (for_ (f x) body s st) as [[e|s'] st']; [reflexivity|apply IH].
Qed.

Lemma emits_ret {A} P (a : A) : emits P (ret a).
Proof. intros st. exists []. cbn. by rewrite app_nil_r. Qed.

Lemma emits_raise {A} P (e : exn) : emits P (@raise _ A e).
Proof. intros st. exists []. cbn. by rewrite app_nil_r. Qed.

Lemma emits_lift {A} P (r : exn + A) : emits P (lift r).
Proof. destruct r; [apply emits_raise|apply emits_ret]. Qed.

Lemma emits_emit (P : event -> Prop) (ev : event) : P ev -> emits P (emit ev).
Proof. intros Hev st. exists [ev]. split; [done|]. by constructor. Qed.

Lemma emits_bind {A B} P (m : M A) (k : A -> M B) :
  emits P m -> (forall a, emits P (k a)) -> emits P (bind m k).
Proof.
  intros Hm Hk st. unfold bind. destruct (Hm st) as (t1 & E1 & F1).
  destruct (m st) as [[e|a] st']; cbn in *; [by exists t1|].
  destruct (Hk a st') as (t2 & E2 & F2). exists (t1 ++ t2).
  split; [by rewrite E2, E1, app_assoc|by apply Forall_app].
Qed.

Lemma emits_try {A} P (m : M A) (catches : exn -> bool) (h : exn -> M A) :
  emits P m -> (forall e, emits P (h e)) -> emits P (try_except m catches h).
Proof.
  intros Hm Hh st. unfold try_except. destruct (Hm st) as (t1 & E1 & F1).
  destruct (m st) as [[e|a] st']; cbn in *; [|by exists t1].
  destruct (catches e); [|by exists t1].
  destruct (Hh e st') as (t2 & E2 & F2). exists (t1 ++ t2).
  split; [by rewrite E2, E1, app_assoc|by apply Forall_app].
Qed.

Lemma emits_for {A S} P (l : list A) (body : A -> S -> M S) :
  (forall x s, emits P (body x s)) -> forall s, emits P (for_ l body s).
Proof.
  intros Hb. induction l as [|x l IH]; intros s; cbn [for_].
  - apply emits_ret.
  - apply emits_bind; [apply Hb|apply IH].
Qed.

Lemma bind_emit {B} (ev : event) (k : unit -> M B) (st : state) :
  bind (emit ev) k st = k tt (State (world st) (trace st ++ [ev])).
Proof. reflexivity. Qed.

End MonadFacts.

(** Takes apart a goal [emits P m] along the combinators [m] is built
    from. *)
Ltac emits_step :=
  match goal with
  | |- emits _ (bind _ _) => apply emits_bind
  | |- emits _ (try_except _ _ _) => apply emits_try
  | |- emits _ (for_ _ _ _) => apply emits_for
  | |- emits _ (ret _) => apply emits_ret
  | |- emits _ (raise _) => apply emits_raise
  | |- emits _ (lift _) => apply emits_lift
  | |- emits _ (emit _) => apply emits_emit
  | |- emits _ (print _) => apply emits_emit
  | |- emits _ (if ?b then _ else _) => destruct b
  | |- emits _ (match ?x with _ => _ end) => destruct x
  | |- forall _, _ => intro
  end.

Ltac emits_tac := repeat emits_step.

Section OutputFacts.
Context `{Platform}.

Lemma writerows_length fields results :
  Forall (fun row => length row = length fields) (fst (writerows fields results)).
Proof.
  induction results as [|r rest IH]; cbn; [constructor|].
  unfold dict_to_list. destruct (forallb _ r); [|constructor].
  destruct (writerows fields rest) as [written e]. cbn in *.
  constructor; [apply length_map|done].
Qed.

Lemma emits_write_csv path fields results :
  emits (manifest_shape fields) (write_csv path fields results).
Proof.
  unfold write_csv. pose proof (writerows_length fields results) as Hlen.
  destruct (writerows fields results) as [w [e|]]; emits_tac; done.
Qed.

Lemma emits_print_table P results :
  (forall m, P (Print m)) -> emits P (print_table results).
Proof. intros HP. unfold print_table, table_row, require. emits_tac; apply HP. Qed.

End OutputFacts.

(** ** The parameter matrix *)
Section Matrix.
Import run_matrix.

Lemma length_flat_map_uniform {A B} (f : A -> list B) (n : nat) (l : list A) :
  (forall x, length (f x) = n) -> length (flat_map f l) = (length l * n)%nat.
Proof.
  intros Hf. induction l as [|x l IH]; [reflexivity|].
  cbn [flat_map]. rewrite length_app, Hf, IH. reflexivity.
Qed.

Lemma lookup_flat_map_uniform {A B} (f : A -> list B) (n : nat) (l : list A) i k x :
  (forall x, length (f x) = n) -> l !! i = Some x -> (k < n)%nat ->
  flat_map f l !! (i * n + k)%nat = f x !! k.
Proof.
  intros Hf. revert i. induction l as [|y l IH]; intros i Hi Hk; [done|].
  destruct i as [|i]; cbn [flat_map].
  - cbn in Hi. injection Hi as ->. rewrite lookup_app_l; [done|]. by rewrite Hf.
  - cbn in Hi. rewrite lookup_app_r; rewrite Hf; [|lia].
    replace (S i * n + k - n)%nat with (i * n + k)%nat by lia. by apply IH.
Qed.

Lemma length_block w os ss : length (block w os ss) = (length os * length ss)%nat.
Proof. apply length_flat_map_uniform. intros o. apply length_map. Qed.

Lemma length_matrix ws os ss :
  length (matrix ws os ss) = (length ws * length os * length ss)%nat.
Proof.
  unfold matrix. rewrite (length_flat_map_uniform _ (length os * length ss)).
  - lia.
  - intros w. apply length_block.
Qed.

Lemma elem_of_flat_map {A B} (f : A -> list B) (l : list A) (y : B) :
  y ∈ flat_map f l <-> exists x, x ∈ l /\ y ∈ f x.
Proof.
  rewrite list_elem_of_In, in_flat_map.
  split; intros (x & ? & ?); exists x; by rewrite ?list_elem_of_In in *.
Qed.

Lemma NoDup_flat_map {A B} (f : A -> list B) (l : list A) :
  NoDup l -> (forall x, x ∈ l -> NoDup (f x)) ->
  (forall x1 x2 y, x1 ∈ l -> x2 ∈ l -> y ∈ f x1 -> y ∈ f x2 -> x1 = x2) ->
  NoDup (flat_map f l).
Proof.
  induction 1 as [|x l Hx Hl IH]; intros Hf Hinj; cbn [flat_map]; [constructor|].
  apply NoDup_app. split; [|split].
  - apply Hf. left.
  - intros y Hy (x' & Hx' & Hy')%elem_of_flat_map.
    assert (x = x') as <- by (eapply Hinj; eauto; (left || by right)).
    contradiction.
  - apply IH.
    + intros; apply Hf; by right.
    + intros x1 x2 y ? ?. apply Hinj; by right.
Qed.

Lemma elem_of_block p w os ss :
  p ∈ block w os ss ->
  workload p = w /\ outstanding p ∈ os /\ (req_bytes p, rsp_bytes p) ∈ ss.
Proof.
  intros (o & Ho & Hp)%elem_of_flat_map.
  apply list_elem_of_fmap in Hp as ([a b] & -> & Hsz). cbn. auto.
Qed.

Lemma NoDup_block w os ss : NoDup os -> NoDup ss -> NoDup (block w os ss).
Proof.
  intros Hos Hss. apply NoDup_flat_map; [done| |].
  - intros o _. apply (NoDup_fmap_2_strong _); [|done].
    intros [a b] [c d] _ _ [=]. by subst.
  - intros o1 o2 p _ _ H1 H2.
    apply list_elem_of_fmap in H1 as (? & -> & _).
    apply list_elem_of_fmap in H2 as (? & [=] & _). done.
Qed.

Lemma NoDup_matrix ws os ss :
  NoDup ws -> NoDup os -> NoDup ss -> NoDup (matrix ws os ss).
Proof.
  intros Hws Hos Hss. apply NoDup_flat_map; [done| |].
  - intros w _. by apply NoDup_block.
  - intros w1 w2 p _ _ H1 H2.
    apply elem_of_block in H1 as [<- _]. by apply elem_of_block in H2 as [<- _].
Qed.

Lemma lookup_matrix ws os ss i j k w o sz :
  ws !! i = Some w -> os !! j = Some o -> ss !! k = Some sz ->
  matrix ws os ss !! ((i * length os + j) * length ss + k)%nat
  = Some (Params w o (fst sz) (snd sz)).
Proof.
  intros Hi Hj Hk.
  pose proof (lookup_lt_Some _ _ _ Hj) as Hjlt.
  pose proof (lookup_lt_Some _ _ _ Hk) as Hklt.
  replace ((i * length os + j) * length ss + k)%nat
    with (i * (length os * length ss) + (j * length ss + k))%nat by lia.
  unfold matrix.
  rewrite (lookup_flat_map_uniform _ (length os * length ss) ws i _ w);
    [|intros; apply length_block|done|nia].
  rewrite (lookup_flat_map_uniform _ (length ss) os j k o);
    [|intros; apply length_map|done|done].
  by rewrite list_lookup_fmap, Hk.
Qed.

End Matrix.


(** ** Exceptions of the parsing steps *)
Section Raises.

Lemma subscript_raises {A} (l : list A) i e : subscript l i = inl e -> e = IndexError.
Proof. unfold subscript. destruct (nth_error l i); congruence. Qed.

Lemma int_raises s e : Py.int s = inl e -> e = ValueError.
Proof.
  unfold Py.int. destruct (Py.signed _) as [neg body].
  destruct (Py.digits_us 0 false body); congruence.
Qed.

Lemma int_of_float_raises s e :
  Py.int_of_float s = inl e -> e = ValueError \/ e = OverflowError.
Proof.
  unfold Py.int_of_float. destruct (Py.read_float s) as [[| |neg m x]|]; try (intros [= <-]; auto).
  destruct (if 0 <=? x then _ else _) as [m' e']. destruct (_ && _); [|done].
  intros [= <-]. auto.
Qed.

Lemma completed_field_raises line e :
  Summary.completed_field line = inl e -> is_Exception e = true.
Proof.
  unfold Summary.completed_field.
  destruct (subscript (Py.split line ":") 1) eqn:E1; [apply subscript_raises in E1; by intros [= <-]; subst|].
  destruct (subscript (Py.split (Py.strip s) "/") 0) eqn:E2; [apply subscript_raises in E2; by intros [= <-]; subst|].
  intros ->%int_raises. done.
Qed.

Lemma percentile_field_raises line e :
  Summary.percentile_field line = inl e -> is_Exception e = true.
Proof.
  unfold Summary.percentile_field.
  destruct (subscript (Py.split line ":") 1) eqn:E1; [apply subscript_raises in E1; by intros [= <-]; subst|].
  intros [-> | ->]%int_of_float_raises; done.
Qed.

Lemma completed_line_raises line s e :
  Summary.completed_line line s = inl e -> is_Exception e = true.
Proof.
  unfold Summary.completed_line. destruct (Py.contains _ line); [|done].
  destruct (Summary.completed_field line) eqn:E; [|done].
  intros [= <-]. by eapply completed_field_raises.
Qed.

Lemma latency_line_raises line fs e :
  Summary.latency_line line fs = inl e -> is_Exception e = true.
Proof.
  unfold Summary.latency_line. destruct fs as [flag s].
  repeat (match goal with |- context [if ?b then _ else _] => destruct b end; try done);
    destruct (Summary.percentile_field line) eqn:E; try done;
    intros [= <-]; by eapply percentile_field_raises.
Qed.

Lemma for_lines_raises {S} (body : string -> S -> exn + S) lines s s' e :
  (forall line s e, body line s = inl e -> is_Exception e = true) ->
  Summary.for_lines body lines s = (s', Some e) -> is_Exception e = true.
Proof.
  intros Hb. revert s. induction lines as [|l ls IH]; intros s; cbn; [done|].
  destruct (body l s) eqn:E; [intros [= <- <-]; by eapply Hb|apply IH].
Qed.

(** Whatever stops the scan of a summary is an [Exception]. *)
Lemma scan_raises content s e :
  Summary.scan content = (s, Some e) -> is_Exception e = true.
Proof.
  unfold Summary.scan.
  destruct (Summary.for_lines Summary.completed_line _ _) as [s1 [e1|]] eqn:E1.
  - intros [= <- <-]. eapply for_lines_raises; [|exact E1]. apply completed_line_raises.
  - destruct (Summary.for_lines Summary.latency_line _ _) as [[f s2] r] eqn:E2.
    intros [= <- ->]. eapply for_lines_raises; [|exact E2]. apply latency_line_raises.
Qed.

End Raises.

(** ** Live mode: traces *)
Section LiveTrace.
Context `{Platform}.
Import run_matrix.

Variable P : event -> Prop.
Hypothesis P_print : forall m, P (Print m).
Hypothesis P_exec : forall cmd cwd, P (Exec cmd cwd).

Lemma emits_run_checked cmd cwd : emits P (run_checked cmd cwd).
Proof.
  intros st. exists [Exec cmd cwd]. split; [|by constructor]. unfold run_checked.
  destruct (subprocess_run cmd cwd (world st)) as [[rc out err el|] w']; [|done].
  by destruct (rc =? 0).
Qed.

Lemma emits_extract_stats path : emits P (extract_stats path).
Proof.
  intros st. unfold extract_stats.
  destruct (read_text path (world st)) as [content|]; [|eexists; split; [done|by constructor]].
  destruct (Summary.scan content) as [s [e|]].
  - destruct (is_Exception e); [eexists; split; [done|by constructor]|].
    exists []. cbn. by rewrite app_nil_r.
  - exists []. cbn. by rewrite app_nil_r.
Qed.

Lemma emits_run_experiment p n t : emits P (run_experiment p n t).
Proof.
  unfold run_experiment. emits_tac;
    first [apply emits_run_checked | apply emits_extract_stats | apply P_print].
Qed.

Lemma emits_run_one t p loc : emits P (run_one t p loc).
Proof.
  unfold run_one. destruct loc. emits_tac;
    first [apply emits_run_experiment | apply P_print].
Qed.

Lemma emits_run_all t ws os ss : emits P (run_all t ws os ss).
Proof. unfold run_all. emits_tac. apply emits_run_one. Qed.

End LiveTrace.

Section LiveMain.
Context `{Platform}.
Import run_matrix.

(** The nested loops of [main] visit the matrix from first to last. *)
Lemma main_loops_matrix {S} (body : ParameterSet -> S -> M S) ws os ss s st :
  for_ ws (fun w => for_ os (fun o =>
    for_ ss (fun sz => body (Params w o (fst sz) (snd sz))))) s st
  = for_ (matrix ws os ss) body s st.
Proof.
  unfold matrix. rewrite for_flat_map. apply for_ext. intros w s' st'.
  rewrite for_flat_map. apply for_ext. intros o s'' st''.
  by rewrite for_map.
Qed.

Lemma emits_main_rest t ws os ss :
  emits (manifest_shape fieldnames)
    (let* (results, _) := run_all t ws os ss in
     match results with
     | _ :: _ =>
         write_manifest results ;;
         print (MsgMatrixComplete (Z.of_nat (length results)) t OUT_DIR) ;;
         print_table results
     | [] => print MsgNoSuccess ;; raise (SystemExit 1)
     end).
Proof.
  apply emits_bind; [by apply emits_run_all|].
  intros [results n]. unfold write_manifest.
  emits_tac; try done; first [apply emits_write_csv | by apply emits_print_table].
Qed.

(** [main] first prints the banner and the number of runs, then the
    dimensions, then makes the output directory; all the rest follows,
    and every manifest in it has the header of live mode. *)
Lemma main_with_prologue ws os ss st :
  exists tail,
    trace (snd (main_with ws os ss st))
    = trace st
      ++ [ Print MsgBanner;
           Print (MsgTotalRuns (Z.of_nat (length ws * length os * length ss)));
           Print (MsgDimensions ws os ss);
           MakeDirs OUT_DIR ]
      ++ tail
    /\ Forall (manifest_shape fieldnames) tail.
Proof.
  unfold main_with, print. rewrite !bind_emit.
  match goal with |- context [bind ?m ?k ?s] =>
    destruct (emits_main_rest
                (Z.of_nat (length ws) * Z.of_nat (length os) * Z.of_nat (length ss))
                ws os ss s) as (tail & E & F)
  end.
  exists tail. split; [|done]. unfold print in E. rewrite E. cbn [trace world].
  rewrite !Nat2Z.inj_mul, <- !app_assoc. reflexivity.
Qed.

End LiveMain.

(** ** Rounding to binary64: where truncation is exact *)
Section Binary64.

Lemma round_half_even_multiple M d : 0 < d -> Py.round_half_even (M * d) d = M.
Proof.
  intros Hd. unfold Py.round_half_even.
  rewrite Z.div_mul, Z.mod_mul by lia.
  destruct (Z.compare_spec (2 * 0) d); lia.
Qed.

Lemma log2_ratio_multiple N d :
  0 < N -> 0 < d -> Py.log2_ratio (N * d) d = Z.log2 N.
Proof.
  intros HN Hd. unfold Py.log2_ratio.
  pose proof (Z.log2_mul_below N d HN Hd) as Hlo.
  pose proof (Z.log2_mul_above N d ltac:(lia) ltac:(lia)) as Hhi.
  pose proof (Z.log2_nonneg N) as HL.
  destruct (Z.log2_spec N HN) as [Hlow Hup].
  set (k := Z.log2 (N * d) - Z.log2 d) in *.
  assert (0 <= k) as Hk by lia. apply Z.leb_le in Hk. rewrite Hk.
  apply Z.leb_le in Hk.
  assert (k = Z.log2 N \/ k = Z.log2 N + 1) as [-> | ->] by lia.
  - assert ((d * 2 ^ Z.log2 N <=? N * d) = true) as ->; [|done].
    apply Z.leb_le. nia.
  - assert ((d * 2 ^ (Z.log2 N + 1) <=? N * d) = false) as ->; [|lia].
    apply Z.leb_gt. replace (Z.succ (Z.log2 N)) with (Z.log2 N + 1) in Hup by lia. nia.
Qed.

(** An integer below 2^53 is a binary64 value: rounding leaves it as it
    is, so truncation gives it back. *)
Lemma binary64_integer N d :
  0 < N < 2 ^ 53 -> 0 < d ->
  exists m e,
    Py.binary64 (N * d) d = (m, e)
    /\ Py.truncate m e = N
    /\ (0 <=? e) && (2 ^ 1024 <=? m * 2 ^ e) = false.
Proof.
  intros [HN Hlt] Hd. unfold Py.binary64.
  assert ((N * d =? 0) = false) as -> by (apply Z.eqb_neq; nia).
  rewrite log2_ratio_multiple by lia.
  assert (Z.log2 N < 53) as HL by (apply Z.log2_lt_pow2; lia).
  pose proof (Z.log2_nonneg N) as HL0.
  rewrite Z.max_l by lia.
  destruct (Z.leb_spec 0 (Z.log2 N - 52)) as [He|He].
  - assert (Z.log2 N - 52 = 0) as -> by lia.
    eexists _, _. split; [reflexivity|].
    replace (d * 2 ^ 0) with d by (cbn; lia).
    rewrite round_half_even_multiple by lia.
    unfold Py.truncate. cbn [Z.leb Z.compare Z.pow Z.pow_pos Pos.iter Z.mul andb].
    split; [cbn; lia|]. apply Z.leb_gt. lia.
  - eexists _, _. split; [reflexivity|].
    replace (N * d * 2 ^ (- (Z.log2 N - 52))) with (N * 2 ^ (- (Z.log2 N - 52)) * d) by lia.
    rewrite round_half_even_multiple by lia.
    unfold Py.truncate.
    assert ((0 <=? Z.log2 N - 52) = false) as -> by (apply Z.leb_gt; lia).
    split; [|done].
    apply Z.div_mul. apply Z.pow_nonzero; lia.
Qed.

(** [int(float(s))] is exact on a literal whose value is an integer
    below 2^53, such as [1234.0]. *)
Lemma int_of_float_integer s neg mant x N :
  Py.read_float s = Some (Py.FDec neg mant x) ->
  0 < N < 2 ^ 53 ->
  (if 0 <=? x then mant * 10 ^ x = N else mant = N * 10 ^ (- x)) ->
  Py.int_of_float s = inr (if neg then - N else N).
Proof.
  intros Hread HN Hval. unfold Py.int_of_float. rewrite Hread.
  destruct (0 <=? x) eqn:Hx.
  - rewrite Hval. destruct (binary64_integer N 1 HN ltac:(lia)) as (m & e & E & Ht & Ho).
    rewrite Z.mul_1_r in E. by rewrite E, Ho, Ht.
  - rewrite Hval. apply Z.leb_gt in Hx.
    destruct (binary64_integer N (10 ^ (- x)) HN ltac:(apply Z.pow_pos_nonneg; lia))
      as (m & e & E & Ht & Ho).
    by rewrite E, Ho, Ht.
Qed.

End Binary64.

(** ** The two loops of the summary parser *)
Section SummaryFacts.
Import Summary.

Lemma for_lines_app {S} (body : string -> S -> exn + S) l1 l2 s :
  for_lines body (l1 ++ l2) s
  = match for_lines body l1 s with
    | (s', None) => for_lines body l2 s'
    | r => r
    end.
Proof.
  revert s. induction l1 as [|l l1 IH]; intros s; cbn; [done|].
  destruct (body l s); [done|apply IH].
Qed.

Lemma is_value_spec r v c : is_value r v = true -> v = Some c -> r = inr c.
Proof.
  intros Hv ->. destruct r as [e|a]; cbn in Hv; [done|].
  apply Z.eqb_eq in Hv. by subst.
Qed.

Lemma is_value_Some r v : is_value r v = true -> exists c, v = Some c /\ r = inr c.
Proof.
  destruct v as [c|]; [|by destruct r]. intros Hv. exists c. split; [done|].
  by eapply is_value_spec.
Qed.

(** First loop: every labelled line carries [c]. *)
Lemma completed_loop c lines s :
  forallb (completed_ok c) lines = true ->
  for_lines completed_line lines s
  = (Stats (p50 s) (p95 s) (p99 s)
       (if existsb (Py.contains "Completed:") lines then c else completed s), None).
Proof.
  revert s. induction lines as [|l ls IH]; intros s Hall; cbn.
  { by destruct s. }
  cbn in Hall. apply andb_true_iff in Hall as [Hl Hls].
  unfold completed_ok in Hl. unfold completed_line.
  destruct (Py.contains "Completed:" l) eqn:El; cbn.
  - apply is_value_spec with (c := c) in Hl; [|done]. rewrite Hl.
    rewrite IH by done. cbn. by destruct (existsb _ ls).
  - by apply IH.
Qed.

(** Second loop, before the nanosecond section is opened. *)
Lemma latency_outside lines s :
  forallb no_ns_header lines = true ->
  for_lines latency_line lines (false, s) = ((false, s), None).
Proof.
  induction lines as [|l ls IH]; intros Hall; cbn; [done|].
  cbn in Hall. apply andb_true_iff in Hall as [Hl Hls].
  unfold no_ns_header, ns_header in Hl. apply negb_true_iff in Hl. rewrite Hl.
  destruct (Py.contains "Latency (μs):" l); by apply IH.
Qed.

Lemma latency_header line flag s :
  Py.contains ns_header line = true -> latency_line line (flag, s) = inr (true, s).
Proof. intros Hl. unfold latency_line. unfold ns_header in Hl. by rewrite Hl. Qed.

(** Second loop, inside the nanosecond section. *)
Lemma latency_inside v50 v95 v99 body s :
  forallb (section_line v50 v95 v99) body = true ->
  for_lines latency_line body (true, s)
  = ((true,
      Stats (pick (existsb is_p50 body) v50 (p50 s))
            (pick (existsb is_p95 body) v95 (p95 s))
            (pick (existsb is_p99 body) v99 (p99 s))
            (completed s)), None).
Proof.
  revert s. induction body as [|l ls IH]; intros s Hall.
  { by destruct s. }
  cbn in Hall. apply andb_true_iff in Hall as [Hl Hls].
  unfold section_line, ns_header, us_header in Hl.
  apply andb_true_iff in Hl as [Hl Hv]. apply andb_true_iff in Hl as [Hns Hus].
  apply negb_true_iff in Hns, Hus.
  cbn [for_lines existsb]. unfold latency_line at 1, is_p50 at 1, is_p95 at 1, is_p99 at 1.
  rewrite Hns, Hus.
  destruct (Py.contains "p50:" l) eqn:E50.
  { apply is_value_Some in Hv as (v & -> & ->). rewrite IH by done. cbn.
    unfold pick. by destruct (existsb is_p50 ls). }
  destruct (Py.contains "p95:" l) eqn:E95.
  { apply is_value_Some in Hv as (v & -> & ->). rewrite IH by done. cbn.
    unfold pick. by destruct (existsb is_p95 ls). }
  destruct (Py.contains "p99:" l) eqn:E99.
  { apply is_value_Some in Hv as (v & -> & ->). rewrite IH by done. cbn.
    unfold pick. by destruct (existsb is_p99 ls). }
  cbn. by apply IH.
Qed.

(** Second loop, after the nanosecond section. *)
Lemma latency_closed after s :
  section_closed after = true ->
  exists flag, for_lines latency_line after (true, s) = ((flag, s), None).
Proof.
  destruct after as [|l ls]; intros Hc; [by exists true|].
  cbn in Hc. apply andb_true_iff in Hc as [Hl Hls]. apply andb_true_iff in Hl as [Hns Hus].
  unfold no_ns_header, ns_header in Hns. apply negb_true_iff in Hns.
  unfold us_header in Hus. exists false. cbn. rewrite Hns, Hus.
  by apply latency_outside.
Qed.

(** The scan of an artifact laid out in sections. *)
Lemma scan_sections content before hdr body after v50 v95 v99 c :
  Py.split content (String "010" EmptyString) = before ++ hdr :: body ++ after ->
  forallb no_ns_header before = true ->
  Py.contains ns_header hdr = true ->
  forallb (section_line v50 v95 v99) body = true ->
  section_closed after = true ->
  forallb (completed_ok c) (Py.split content (String "010" EmptyString)) = true ->
  scan content
  = (Stats (pick (existsb is_p50 body) v50 0)
           (pick (existsb is_p95 body) v95 0)
           (pick (existsb is_p99 body) v99 0)
           (if existsb (Py.contains "Completed:")
                 (Py.split content (String "010" EmptyString)) then c else 0),
     None).
Proof.
  intros Hlines Hbefore Hhdr Hbody Hafter Hcompleted. unfold scan. cbv zeta.
  rewrite (completed_loop c) by done.
  set (cv := if existsb _ _ then c else completed zero).
  rewrite Hlines, for_lines_app, latency_outside by done.
  cbn [for_lines]. rewrite latency_header by done.
  rewrite for_lines_app, (latency_inside v50 v95 v99) by done.
  match goal with |- context [for_lines latency_line after (true, ?s)] =>
    destruct (latency_closed after s Hafter) as [flag E]; rewrite E
  end.
  subst cv. rewrite Hlines. reflexivity.
Qed.

(** A field whose label occurs on no line keeps the value it had. *)
Lemma completed_loop_absent lines s :
  forallb (fun l => negb (Py.contains "Completed:" l)) lines = true ->
  for_lines completed_line lines s = (s, None).
Proof.
  revert s. induction lines as [|l ls IH]; intros s Hall; cbn; [done|].
  cbn in Hall. apply andb_true_iff in Hall as [Hl Hls]. apply negb_true_iff in Hl.
  unfold completed_line. rewrite Hl. by apply IH.
Qed.

Lemma latency_loop_keeps (label : string) (field : stats -> Z) lines fs :
  (forall line fs fs', Py.contains label line = false ->
     latency_line line fs = inr fs' -> field (snd fs') = field (snd fs)) ->
  forallb (fun l => negb (Py.contains label l)) lines = true ->
  field (snd (fst (for_lines latency_line lines fs))) = field (snd fs).
Proof.
  intros Hstep. revert fs. induction lines as [|l ls IH]; intros fs Hall; cbn; [done|].
  cbn in Hall. apply andb_true_iff in Hall as [Hl Hls]. apply negb_true_iff in Hl.
  destruct (latency_line l fs) as [e|fs'] eqn:E; [done|].
  rewrite IH by done. by eapply Hstep.
Qed.

Lemma latency_line_keeps_p50 line fs fs' :
  Py.contains "p50:" line = false ->
  latency_line line fs = inr fs' -> p50 (snd fs') = p50 (snd fs).
Proof.
  intros Hl. unfold latency_line. destruct fs as [flag s]. rewrite Hl.
  repeat (match goal with |- context [if ?b then _ else _] => destruct b end;
          try (intros [= <-]; done));
    destruct (percentile_field line); intros [= <-]; done.
Qed.

Lemma latency_line_keeps_p95 line fs fs' :
  Py.contains "p95:" line = false ->
  latency_line line fs = inr fs' -> p95 (snd fs') = p95 (snd fs).
Proof.
  intros Hl. unfold latency_line. destruct fs as [flag s]. rewrite Hl.
  repeat (match goal with |- context [if ?b then _ else _] => destruct b end;
          try (intros [= <-]; done));
    destruct (percentile_field line); intros [= <-]; done.
Qed.

Lemma latency_line_keeps_p99 line fs fs' :
  Py.contains "p99:" line = false ->
  latency_line line fs = inr fs' -> p99 (snd fs') = p99 (snd fs).
Proof.
  intros Hl. unfold latency_line. destruct fs as [flag s]. rewrite Hl.
  repeat (match goal with |- context [if ?b then _ else _] => destruct b end;
          try (intros [= <-]; done));
    destruct (percentile_field line); intros [= <-]; done.
Qed.

Lemma latency_line_keeps_completed line fs fs' :
  latency_line line fs = inr fs' -> completed (snd fs') = completed (snd fs).
Proof.
  unfold latency_line. destruct fs as [flag s].
  repeat (match goal with |- context [if ?b then _ else _] => destruct b end;
          try (intros [= <-]; done));
    destruct (percentile_field line); intros [= <-]; done.
Qed.

Lemma completed_line_keeps line s s' :
  completed_line line s = inr s' ->
  p50 s' = p50 s /\ p95 s' = p95 s /\ p99 s' = p99 s.
Proof.
  unfold completed_line. destruct (Py.contains _ line); [|by intros [= <-]].
  destruct (completed_field line); [done|]. by intros [= <-].
Qed.

Lemma completed_loop_keeps lines s :
  let s' := fst (for_lines completed_line lines s) in
  p50 s' = p50 s /\ p95 s' = p95 s /\ p99 s' = p99 s.
Proof.
  revert s. induction lines as [|l ls IH]; intros s; cbn; [done|].
  destruct (completed_line l s) as [e|s1] eqn:E; [done|].
  apply completed_line_keeps in E as (E1 & E2 & E3).
  specialize (IH s1). cbn in IH. destruct IH as (I1 & I2 & I3). by rewrite I1, I2, I3.
Qed.

Lemma latency_loop_keeps_completed lines fs :
  completed (snd (fst (for_lines latency_line lines fs))) = completed (snd fs).
Proof.
  revert fs. induction lines as [|l ls IH]; intros fs; cbn; [done|].
  destruct (latency_line l fs) as [e|fs'] eqn:E; [done|].
  rewrite IH. by eapply latency_line_keeps_completed.
Qed.

End SummaryFacts.

(** ** The two parsers around the scan *)
Section Parsers.
Context `{Platform}.
Import Summary.

Lemma extract_stats_returns path st content s :
  read_text path (world st) = Some content -> scan content = (s, None) ->
  run_matrix.extract_stats path st = (inr (tuple s), st).
Proof. intros Hr Hs. unfold run_matrix.extract_stats. by rewrite Hr, Hs. Qed.

Lemma extract_stats_recovers path st content s e :
  read_text path (world st) = Some content -> scan content = (s, Some e) ->
  run_matrix.extract_stats path st
  = (inr (tuple s), State (world st) (trace st ++ [Print (MsgSummaryWarning e)])).
Proof.
  intros Hr Hs. unfold run_matrix.extract_stats. rewrite Hr, Hs.
  by rewrite (scan_raises _ _ _ Hs).
Qed.

Lemma extract_stats_unreadable path st :
  read_text path (world st) = None ->
  run_matrix.extract_stats path st
  = (inr (0, 0, 0, 0),
     State (world st) (trace st ++ [Print (MsgSummaryWarning OSError)])).
Proof. intros Hr. unfold run_matrix.extract_stats. by rewrite Hr. Qed.

Lemma extract_stats_total path st :
  exists t st', run_matrix.extract_stats path st = (inr t, st').
Proof.
  destruct (read_text path (world st)) as [content|] eqn:Hr.
  - destruct (scan content) as [s [e|]] eqn:Hs.
    + erewrite extract_stats_recovers by done. by eexists _, _.
    + erewrite extract_stats_returns by done. by eexists _, _.
  - rewrite extract_stats_unreadable by done. by eexists _, _.
Qed.

Lemma parse_summary_returns path st content s :
  read_text path (world st) = Some content -> scan content = (s, None) ->
  generate_manifest.parse_summary path st = (inr (tuple s), st).
Proof. intros Hr Hs. unfold generate_manifest.parse_summary. by rewrite Hr, Hs. Qed.

Lemma parse_summary_raises path st content s e :
  read_text path (world st) = Some content -> scan content = (s, Some e) ->
  generate_manifest.parse_summary path st = (inl e, st).
Proof. intros Hr Hs. unfold generate_manifest.parse_summary. by rewrite Hr, Hs. Qed.


(** The fields of a scan whose labels are absent are still 0, also
    when the scan was stopped by an exception. *)
Lemma scan_absent content :
  let s := fst (scan content) in
  (absent "Completed:" content = true -> completed s = 0)
  /\ (absent "p50:" content = true -> p50 s = 0)
  /\ (absent "p95:" content = true -> p95 s = 0)
  /\ (absent "p99:" content = true -> p99 s = 0).
Proof.
  unfold scan, absent. cbv zeta.
  set (lines := Py.split content _).
  pose proof (completed_loop_keeps lines zero) as (K1 & K2 & K3). cbv zeta in *.
  destruct (for_lines completed_line lines zero) as [s1 [e1|]] eqn:E1; cbn [fst] in *.
  - repeat split; try done.
    intros Ha. rewrite completed_loop_absent in E1 by done. by injection E1 as <-.
  - pose proof (latency_loop_keeps_completed lines (false, s1)) as Kc.
    pose proof (latency_loop_keeps "p50:" p50 lines (false, s1) latency_line_keeps_p50) as L1.
    pose proof (latency_loop_keeps "p95:" p95 lines (false, s1) latency_line_keeps_p95) as L2.
    pose proof (latency_loop_keeps "p99:" p99 lines (false, s1) latency_line_keeps_p99) as L3.
    destruct (for_lines latency_line lines (false, s1)) as [[f s2] r]; cbn [fst snd] in *.
    repeat split; intros Ha.
    + rewrite Kc. rewrite completed_loop_absent in E1 by done. by injection E1 as <-.
    + rewrite L1 by done. done.
    + rewrite L2 by done. done.
    + rewrite L3 by done. done.
Qed.

Lemma section_line_quiet a b c line :
  section_line None None None line = true -> section_line a b c line = true.
Proof.
  unfold section_line. intros Hq.
  apply andb_true_iff in Hq as [-> Hv]. cbn.
  destruct (Py.contains "p50:" line); [by destruct (percentile_field line)|].
  destruct (Py.contains "p95:" line); [by destruct (percentile_field line)|].
  destruct (Py.contains "p99:" line); [by destruct (percentile_field line)|done].
Qed.

Lemma existsb_elem_of {A} (f : A -> bool) (x : A) (l : list A) :
  x ∈ l -> f x = true -> existsb f l = true.
Proof.
  intros Hx Hf. apply existsb_exists. exists x. by rewrite <- list_elem_of_In.
Qed.

End Parsers.

(** ** The order of directory names *)
Section StrOrder.
Import generate_manifest.

Lemma ascii_compare_Lt a b :
  Ascii.compare a b = Lt <-> (N_of_ascii a < N_of_ascii b)%N.
Proof. unfold Ascii.compare. apply N.compare_lt_iff. Qed.

Lemma leb_trans s1 s2 s3 :
  String.leb s1 s2 = true -> String.leb s2 s3 = true -> String.leb s1 s3 = true.
Proof.
  unfold String.leb. revert s2 s3.
  induction s1 as [|a s1 IH]; intros [|b s2] [|c s3]; cbn; try done.
  destruct (Ascii.compare a b) eqn:Eab; [| |done].
  - apply Ascii.compare_eq_iff in Eab as ->.
    destruct (Ascii.compare b c); [apply IH|done|done].
  - destruct (Ascii.compare b c) eqn:Ebc; [| |done].
    + apply Ascii.compare_eq_iff in Ebc as ->. by rewrite Eab.
    + apply (proj1 (ascii_compare_Lt _ _)) in Eab.
      apply (proj1 (ascii_compare_Lt _ _)) in Ebc.
      assert (Ascii.compare a c = Lt) as ->; [|done].
      apply ascii_compare_Lt. lia.
Qed.

#[global] Instance str_le_trans : Transitive str_le.
Proof. intros a b c. apply leb_trans. Qed.

#[global] Instance str_le_antisym : AntiSymm (=) str_le.
Proof. intros a b. apply String.leb_antisym. Qed.

#[global] Instance str_le_total : Total str_le.
Proof. intros a b. apply String.leb_total. Qed.

Lemma sorted_Sorted names : Sorted str_le (sorted names).
Proof. apply Sorted_merge_sort. apply _. Qed.

Lemma sorted_Permutation names : sorted names ≡ₚ names.
Proof. apply merge_sort_Permutation. Qed.

Lemma StronglySorted_filter {A} (R : relation A) (P : A -> Prop)
    `{forall x, Decision (P x)} (l : list A) :
  StronglySorted R l -> StronglySorted R (filter P l).
Proof.
  induction 1 as [|x l Hl IH Hx]; [constructor|].
  rewrite filter_cons. destruct (decide (P x)); [|done].
  constructor; [done|].
  apply Forall_forall. intros y [_ Hy]%list_elem_of_filter.
  by eapply Forall_forall in Hx.
Qed.

Lemma omap_filter_Some {A B} (f : A -> option B) (l : list A) :
  omap f l = omap f (filter (fun x => is_Some (f x)) l).
Proof.
  induction l as [|x l IH]; [done|].
  rewrite filter_cons. cbn. destruct (decide (is_Some (f x))) as [[y Hy]|Hn].
  - cbn. rewrite Hy. by f_equal.
  - destruct (f x) eqn:E; [|done]. exfalso. apply Hn. by eexists.
Qed.

(** Among the sorted names, those that [f] accepts are the accepted
    names in order. *)
Lemma omap_sorted {B} (f : string -> option B) (names good rest : list string) :
  names ≡ₚ good ++ rest ->
  Sorted str_le good ->
  Forall (fun d => is_Some (f d)) good ->
  Forall (fun d => f d = None) rest ->
  omap f (sorted names) = omap f good.
Proof.
  intros Hperm Hsorted Hgood Hrest.
  rewrite omap_filter_Some. f_equal.
  apply (Sorted_unique str_le).
  - apply StronglySorted_Sorted, StronglySorted_filter.
    apply Sorted_StronglySorted; [apply _|apply sorted_Sorted].
  - done.
  - rewrite sorted_Permutation, Hperm, filter_app.
    assert (filter (fun x => is_Some (f x)) rest = []) as ->.
    { clear -Hrest. induction Hrest as [|x l Hx _ IH]; [done|].
      rewrite filter_cons. destruct (decide _) as [[y Hy]|_]; [congruence|done]. }
    rewrite app_nil_r.
    clear -Hgood. induction Hgood as [|x l Hx _ IH]; [done|].
    rewrite filter_cons. destruct (decide _); [by f_equiv|done].
Qed.

End StrOrder.

(** ** Rescan mode: one directory, then all of them *)
Section Rescan.
Context `{Platform}.
Import generate_manifest.

Lemma getitem_raises o k e : getitem o k = inl e -> is_Exception e = true.
Proof.
  destruct o; cbn; try (by intros [= <-]).
  destruct (dict_get k items); by intros [= <-].
Qed.

Lemma and_then_inr {A B} (r : exn + A) (k : A -> exn + B) b :
  and_then r k = inr b -> exists a, r = inr a /\ k a = inr b.
Proof. destruct r as [e|a]; cbn; [done|]. intros Hk. by exists a. Qed.

Lemma and_then_inl {A B} (r : exn + A) (k : A -> exn + B) e :
  and_then r k = inl e -> r = inl e \/ exists a, r = inr a /\ k a = inl e.
Proof.
  destruct r as [e'|a]; cbn; intros Hk; [injection Hk as ->; by left|].
  right. by exists a.
Qed.

Lemma build_row_raises config stats run_path e :
  build_row config stats run_path = inl e -> is_Exception e = true.
Proof.
  unfold build_row. destruct stats as [[[a b] c] d]. intros Hr.
  repeat (apply and_then_inl in Hr as [Hr|(? & _ & Hr)];
          [by apply getitem_raises in Hr|]).
  done.
Qed.

(** A row that was built has the fourteen columns of the rescan header,
    in the order of the header. *)
Lemma build_row_cells config stats run_path row :
  build_row config stats run_path = inr row ->
  map fst row = fieldnames /\ dict_to_list fieldnames row = inr (map snd row)
  /\ dict_get "out_dir" row = Some (PStr run_path).
Proof.
  unfold build_row. destruct stats as [[[a b] c] d]. intros Hr.
  repeat (apply and_then_inr in Hr as (? & _ & Hr)).
  injection Hr as <-. done.
Qed.

Lemma load_raises w run_dir e : load w run_dir = inl e -> is_Exception e = true.
Proof.
  unfold load.
  destruct (read_text _ w) as [text|]; [|by intros [= <-]].
  destruct (json_loads text) as [config|]; [|by intros [= <-]].
  destruct (read_text _ w) as [content|]; [|by intros [= <-]].
  destruct (Summary.scan content) as [s [e'|]] eqn:Hs.
  - intros [= <-]. by eapply scan_raises.
  - apply build_row_raises.
Qed.

Lemma try_block_load run_dir results st :
  (let* config := parse_config
                    (Py.path_join (Py.path_join OUT_DIR run_dir) "config.json") in
   let* stats := parse_summary
                   (Py.path_join (Py.path_join OUT_DIR run_dir) "summary.txt") in
   let* row := lift (build_row config stats (Py.path_join OUT_DIR run_dir)) in
   print (MsgProcessed run_dir) ;; ret (results ++ [row])) st
  = match load (world st) run_dir with
    | inr row => (inr (results ++ [row]),
                  State (world st) (trace st ++ [Print (MsgProcessed run_dir)]))
    | inl e => (inl e, st)
    end.
Proof.
  unfold bind, parse_config, parse_summary, load.
  destruct (read_text _ (world st)) as [text|]; [|done].
  destruct (json_loads text) as [config|]; [|done]. cbn -[build_row].
  destruct (read_text _ (world st)) as [content|]; [|done].
  destruct (Summary.scan content) as [s [e'|]]; [done|]. cbn -[build_row].
  match goal with |- context [build_row ?a ?b ?c] => by destruct (build_row a b c) end.
Qed.

(** One turn of the loop of [main] never raises; it adds the row
    [processed] tells and prints the lines [entry_events] tells. *)
Lemma process_entry_outcome run_dir results st :
  process_entry run_dir results st
  = (inr (results ++ option_list (processed (world st) run_dir)),
     State (world st) (trace st ++ entry_events (world st) run_dir)).
Proof.
  unfold process_entry, processed, entry_events, complete, test.
  unfold bind at 1.
  destruct (isdir _ (world st)); cbn [negb andb].
  2:{ cbn. rewrite !app_nil_r. by destruct st. }
  unfold bind at 1.
  destruct (path_exists (Py.path_join _ "config.json") (world st)); cbn [negb andb orb].
  2:{ cbn. by rewrite app_nil_r. }
  unfold bind at 1.
  destruct (path_exists (Py.path_join _ "summary.txt") (world st)); cbn [negb andb orb].
  2:{ cbn. by rewrite app_nil_r. }
  unfold try_except. rewrite try_block_load.
  destruct (load (world st) run_dir) as [e|row] eqn:Hl; [|done].
  rewrite (load_raises _ _ _ Hl). cbn. by rewrite app_nil_r.
Qed.

Lemma rescan_loop entries results st :
  for_ entries process_entry results st
  = (inr (results ++ omap (processed (world st)) entries),
     State (world st) (trace st ++ flat_map (entry_events (world st)) entries)).
Proof.
  revert results st. induction entries as [|d ds IH]; intros results st.
  { cbn. rewrite !app_nil_r. by destruct st. }
  cbn [for_]. unfold bind. rewrite process_entry_outcome, IH. cbn [world trace].
  f_equal; [|by rewrite <- app_assoc].
  f_equal. rewrite <- app_assoc. f_equal.
  cbn. by destruct (processed (world st) d).
Qed.

Lemma processed_cells w run_dir row :
  processed w run_dir = Some row ->
  dict_to_list fieldnames row = inr (map snd row)
  /\ dict_get "out_dir" row = Some (PStr (Py.path_join OUT_DIR run_dir)).
Proof.
  unfold processed, load. destruct (complete w run_dir); [|done].
  destruct (read_text _ w) as [text|]; [|done].
  destruct (json_loads text) as [config|]; [|done].
  destruct (read_text _ w) as [content|]; [|done].
  destruct (Summary.scan content) as [s [e'|]]; [done|].
  destruct (build_row _ _ _) as [e|r] eqn:Hb; [done|]. intros [= <-].
  by apply build_row_cells in Hb as (_ & ? & ?).
Qed.

Lemma writerows_processed w (entries : list string) :
  writerows fieldnames (omap (processed w) entries)
  = (map (map snd) (omap (processed w) entries), None).
Proof.
  induction entries as [|d ds IH]; [done|].
  cbn [omap list_omap]. change (list_omap ?f ?l) with (omap f l).
  destruct (processed w d) as [row|] eqn:Hp; [|done].
  cbn [writerows]. apply processed_cells in Hp as [-> _]. by rewrite IH.
Qed.

(** [main] up to the results table. *)
Lemma rescan_main st names :
  listdir OUT_DIR (world st) = Some names ->
  main st
  = print_table (omap (processed (world st)) (sorted names))
      (State (world st)
         (trace st
          ++ flat_map (entry_events (world st)) (sorted names)
          ++ [ WriteCsv (Py.path_join OUT_DIR "manifest.csv")
                 (Manifest fieldnames
                    (map (map snd) (omap (processed (world st)) (sorted names))));
               Print (MsgManifestWritten (Py.path_join OUT_DIR "manifest.csv"));
               Print (MsgTotal
                        (Z.of_nat (length (omap (processed (world st)) (sorted names))))) ])).
Proof.
  intros Hls. unfold main, list_dir. unfold bind at 1. rewrite Hls. cbn [ret].
  unfold bind at 1. rewrite rescan_loop. cbn [app].
  unfold write_csv. rewrite writerows_processed. cbv beta iota.
  unfold print. cbv [bind emit ret]. cbn [world trace].
  rewrite <- !app_assoc. reflexivity.
Qed.

Lemma main_unlistable st :
  listdir OUT_DIR (world st) = None -> main st = (inl OSError, st).
Proof. intros Hls. unfold main, list_dir. unfold bind at 1. by rewrite Hls. Qed.

End Rescan.

(** ** Rescan mode: the directories that count *)
Section RescanFacts.
Context `{Platform}.
Import generate_manifest.

Lemma valid_run_processed w run_dir row :
  valid_run w run_dir row -> processed w run_dir = Some row.
Proof.
  intros (Hd & Hc & Hs & text & config & content & s & Ht & Hj & Hr & Hscan & Hrow).
  unfold processed, complete, load. cbv zeta in *.
  by rewrite Hd, Hc, Hs, Ht, Hj, Hr, Hscan, Hrow.
Qed.

Lemma valid_run_cells w run_dir row :
  valid_run w run_dir row ->
  map fst row = fieldnames
  /\ dict_get "out_dir" row = Some (PStr (Py.path_join OUT_DIR run_dir)).
Proof.
  intros (_ & _ & _ & text & config & content & s & _ & _ & _ & _ & Hrow).
  by apply build_row_cells in Hrow as (? & _ & ?).
Qed.

Lemma not_dir_processed w run_dir :
  isdir (Py.path_join OUT_DIR run_dir) w = false -> processed w run_dir = None.
Proof. intros Hd. unfold processed, complete. cbv zeta. by rewrite Hd. Qed.

Lemma no_summary_processed w run_dir :
  path_exists (Py.path_join (Py.path_join OUT_DIR run_dir) "summary.txt") w = false ->
  processed w run_dir = None.
Proof.
  intros Hs. unfold processed, complete. cbv zeta. rewrite Hs.
  by rewrite andb_false_r.
Qed.

Lemma no_summary_events w run_dir :
  isdir (Py.path_join OUT_DIR run_dir) w = true ->
  path_exists (Py.path_join (Py.path_join OUT_DIR run_dir) "summary.txt") w = false ->
  entry_events w run_dir = [Print (MsgSkipping run_dir)].
Proof.
  intros Hd Hs. unfold entry_events, complete. cbv zeta. rewrite Hd, Hs.
  by rewrite andb_false_r.
Qed.

Lemma skips_processed st run_dir :
  skips (world st) run_dir -> processed (world st) run_dir = None.
Proof.
  intros Hskip. specialize (Hskip [] st eq_refl).
  rewrite process_entry_outcome in Hskip. cbn in Hskip.
  destruct (processed (world st) run_dir); [done|done].
Qed.

Lemma entry_events_quiet w run_dir : Forall quiet_event (entry_events w run_dir).
Proof.
  unfold entry_events. destruct (negb _); [constructor|].
  destruct (complete w run_dir); [|by repeat constructor].
  destruct (load w run_dir); by repeat constructor.
Qed.

Lemma flat_map_quiet w (entries : list string) :
  Forall quiet_event (flat_map (entry_events w) entries).
Proof.
  induction entries as [|d ds IH]; [constructor|].
  cbn. apply Forall_app. split; [apply entry_events_quiet|done].
Qed.

Lemma omap_all_None {A B} (f : A -> option B) (l : list A) :
  Forall (fun x => f x = None) l -> omap f l = [].
Proof. induction 1 as [|x l Hx _ IH]; [done|]. cbn. by rewrite Hx. Qed.

Lemma print_table_empty st :
  print_table [] st
  = (inr tt, State (world st) (trace st ++ [Print MsgTableHeader; Print MsgTableEnd])).
Proof.
  unfold print_table, print. cbv [bind emit ret for_]. cbn [world trace].
  by rewrite <- app_assoc.
Qed.

Lemma emits_print_table_any results :
  emits (fun ev => quiet_event ev) (print_table results).
Proof. by apply emits_print_table. Qed.

Lemma emits_process_entry (P : event -> Prop) run_dir results :
  (forall m, P (Print m)) -> emits P (process_entry run_dir results).
Proof.
  intros HP st. rewrite process_entry_outcome. eexists. split; [done|].
  unfold entry_events. destruct (negb _); [constructor|].
  destruct (complete (world st) run_dir); [|by repeat constructor].
  destruct (load (world st) run_dir); by repeat constructor.
Qed.

Lemma emits_rescan_main : emits (manifest_shape fieldnames) main.
Proof.
  unfold main, list_dir. apply emits_bind.
  { intros st. exists []. rewrite app_nil_r.
    split; [by destruct (listdir OUT_DIR (world st))|constructor]. }
  intros names. emits_tac; try done;
    first [by apply emits_process_entry | apply emits_write_csv
          | by apply emits_print_table].
Qed.

(** When no entry yields a row, [main] writes the header alone and
    returns. *)
Lemma rescan_nothing st names :
  listdir OUT_DIR (world st) = Some names ->
  Forall (skips (world st)) names ->
  main st
  = (inr tt,
     State (world st)
       (trace st
        ++ flat_map (entry_events (world st)) (sorted names)
        ++ [ WriteCsv (Py.path_join OUT_DIR "manifest.csv") (Manifest fieldnames []);
             Print (MsgManifestWritten (Py.path_join OUT_DIR "manifest.csv"));
             Print (MsgTotal 0);
             Print MsgTableHeader;
             Print MsgTableEnd ])).
Proof.
  intros Hls Hskip. rewrite (rescan_main st names Hls).
  assert (omap (processed (world st)) (sorted names) = []) as ->.
  { apply omap_all_None. rewrite sorted_Permutation.
    eapply Forall_impl; [exact Hskip|]. intros d. apply skips_processed. }
  rewrite print_table_empty. cbn [world trace map length].
  by rewrite <- !app_assoc.
Qed.

End RescanFacts.

(** ** Live mode: markers in the captured output *)
Section Markers.
Import run_matrix.

Lemma split_from_nonempty sep skip s :
  (1 <= length (Py.split_from sep skip s))%nat.
Proof.
  revert skip. induction s as [|c s IH]; intros skip; [cbn; lia|].
  cbn [Py.split_from]. destruct skip as [|k]; [|apply IH].
  destruct (String.prefix sep (String c s)); [cbn [length]; lia|].
  specialize (IH O). destruct (Py.split_from sep 0 s); cbn [length] in *; lia.
Qed.

Lemma prefix_empty sep : String.prefix sep "" = true -> sep = "".
Proof. by destruct sep. Qed.

(** A separator that occurs in [s] cuts it in two parts at least. *)
Lemma split_contains sep s :
  sep <> "" -> Py.contains sep s = true ->
  (2 <= length (Py.split s sep))%nat.
Proof.
  intros Hsep. unfold Py.split. induction s as [|c s IH]; intros Hc.
  { cbn in Hc. rewrite orb_false_r in Hc. by apply prefix_empty in Hc. }
  cbn [Py.contains] in Hc. cbn [Py.split_from].
  destruct (String.prefix sep (String c s)) eqn:Hp.
  - pose proof (split_from_nonempty sep (Nat.pred (String.length sep)) s) as Hl.
    cbn [length]. lia.
  - cbn [orb] in Hc. specialize (IH Hc).
    destruct (Py.split_from sep 0 s); cbn [length] in *; lia.
Qed.

Lemma subscript_second {A} (l : list A) :
  (2 <= length l)%nat -> exists x, subscript l 1 = inr x.
Proof.
  destruct l as [|a [|b l]]; cbn; try lia. intros _. by exists b.
Qed.

Lemma marker_line_total line acc : exists acc', marker_line line acc = inr acc'.
Proof.
  unfold marker_line. destruct acc as [run_id out_path].
  destruct (Py.contains "Run ID:" line) eqn:E1.
  { destruct (subscript_second (Py.split line "Run ID:")) as [t ->];
      [by apply split_contains|by eexists]. }
  destruct (Py.contains "Results written to:" line) eqn:E2.
  { destruct (subscript_second (Py.split line "Results written to:")) as [t ->];
      [by apply split_contains|by eexists]. }
  by eexists.
Qed.

(** The scan of the captured output never raises. *)
Lemma scan_lines_total lines acc : exists acc', scan_lines lines acc = inr acc'.
Proof.
  revert acc. induction lines as [|l ls IH]; intros acc; cbn; [by eexists|].
  destruct (marker_line_total l acc) as [acc' ->]. apply IH.
Qed.

Lemma scan_lines_app l1 l2 acc :
  scan_lines (l1 ++ l2) acc = and_then (scan_lines l1 acc) (scan_lines l2).
Proof.
  revert acc. induction l1 as [|l ls IH]; intros acc; cbn; [done|].
  destruct (marker_line l acc); [done|apply IH].
Qed.

(** Lines without [Run ID:] leave the run identifier as it is. *)
Lemma scan_lines_keeps_run_id lines run_id out_path :
  forallb (fun l => negb (Py.contains "Run ID:" l)) lines = true ->
  exists out_path', scan_lines lines (run_id, out_path) = inr (run_id, out_path').
Proof.
  revert out_path. induction lines as [|l ls IH]; intros out_path Hall; cbn; [by eexists|].
  cbn in Hall. apply andb_true_iff in Hall as [Hl Hls]. apply negb_true_iff in Hl.
  unfold marker_line. rewrite Hl.
  destruct (Py.contains "Results written to:" l) eqn:E2; [|by apply IH].
  destruct (subscript_second (Py.split l "Results written to:")) as [t ->];
    [by apply split_contains|by apply IH].
Qed.

(** Lines that have [Run ID:] or lack [Results written to:] leave the
    output directory as it is. *)
Lemma scan_lines_keeps_out_path lines run_id out_path :
  forallb (fun l => Py.contains "Run ID:" l
                    || negb (Py.contains "Results written to:" l)) lines = true ->
  exists run_id', scan_lines lines (run_id, out_path) = inr (run_id', out_path).
Proof.
  revert run_id. induction lines as [|l ls IH]; intros run_id Hall; cbn; [by eexists|].
  cbn in Hall. apply andb_true_iff in Hall as [Hl Hls].
  unfold marker_line.
  destruct (Py.contains "Run ID:" l) eqn:E1.
  { destruct (subscript_second (Py.split l "Run ID:")) as [t ->];
      [by apply split_contains|by apply IH]. }
  cbn in Hl. apply negb_true_iff in Hl. rewrite Hl. by apply IH.
Qed.

End Markers.

(** ** Live mode: one run, then all of them *)
Section LiveRuns.
Context `{Platform}.
Import run_matrix.

(** The events with which every run starts. *)
Lemma run_experiment_not_started p n t st w' :
  subprocess_run (build_cmd p) (NS3_ROOT +:+ "/..") (world st) = (NotStarted, w') ->
  run_experiment p n t st
  = (inl OSError,
     State w' (trace st
               ++ [ Print (MsgRunHeader n t (workload p) (outstanding p) (req_bytes p));
                    Print (MsgCommand (build_cmd p));
                    Exec (build_cmd p) (NS3_ROOT +:+ "/..") ])).
Proof.
  intros Hrun. cbv [run_experiment bind print emit try_except run_checked].
  cbn [world trace]. rewrite Hrun. by rewrite <- !app_assoc.
Qed.

Lemma run_experiment_failed p n t st rc out err elapsed w' :
  subprocess_run (build_cmd p) (NS3_ROOT +:+ "/..") (world st)
  = (Exited rc out err elapsed, w') ->
  rc <> 0 ->
  run_experiment p n t st
  = (inr None,
     State w' (trace st
               ++ [ Print (MsgRunHeader n t (workload p) (outstanding p) (req_bytes p));
                    Print (MsgCommand (build_cmd p));
                    Exec (build_cmd p) (NS3_ROOT +:+ "/..");
                    Print (MsgRunFailed (CalledProcessError rc out err)) ])).
Proof.
  intros Hrun Hrc. cbv [run_experiment bind print emit try_except run_checked ret].
  cbn [world trace]. rewrite Hrun. apply Z.eqb_neq in Hrc. rewrite Hrc.
  cbn [world trace]. by rewrite <- !app_assoc.
Qed.

Lemma run_experiment_no_markers p n t st out err elapsed w' run_id out_path :
  subprocess_run (build_cmd p) (NS3_ROOT +:+ "/..") (world st)
  = (Exited 0 out err elapsed, w') ->
  scan_stdout out = inr (run_id, out_path) ->
  falsy run_id || falsy out_path = true ->
  run_experiment p n t st
  = (inr None,
     State w' (trace st
               ++ [ Print (MsgRunHeader n t (workload p) (outstanding p) (req_bytes p));
                    Print (MsgCommand (build_cmd p));
                    Exec (build_cmd p) (NS3_ROOT +:+ "/..");
                    Print (MsgNoRunId out) ])).
Proof.
  intros Hrun Hscan Hfalsy.
  cbv [run_experiment bind print emit try_except run_checked ret lift].
  cbn [world trace]. rewrite Hrun. cbn [Z.eqb]. rewrite Hscan, Hfalsy.
  cbn [world trace]. by rewrite <- !app_assoc.
Qed.

Lemma run_experiment_completed p n t st out err elapsed w' run_id out_path :
  subprocess_run (build_cmd p) (NS3_ROOT +:+ "/..") (world st)
  = (Exited 0 out err elapsed, w') ->
  scan_stdout out = inr (Some run_id, Some out_path) ->
  run_id <> "" -> out_path <> "" ->
  exists p50 p95 p99 completed st',
    extract_stats (Py.path_join out_path "summary.txt")
      (State w' (trace st
                 ++ [ Print (MsgRunHeader n t (workload p) (outstanding p) (req_bytes p));
                      Print (MsgCommand (build_cmd p));
                      Exec (build_cmd p) (NS3_ROOT +:+ "/..");
                      Print (MsgRunCompleted elapsed run_id out_path) ]))
    = (inr (p50, p95, p99, completed), st')
    /\ run_experiment p n t st
       = (inr (Some
            [ ("run_id", PStr run_id);
              ("workload", PStr (workload p));
              ("outstanding", PInt (outstanding p));
              ("req_bytes", PInt (req_bytes p));
              ("rsp_bytes", PInt (rsp_bytes p));
              ("linkRate", PStr LINK_RATE);
              ("linkDelay", PStr LINK_DELAY);
              ("mtu", PInt MTU);
              ("qdisc", PStr QDISC);
              ("p50_ns", PInt p50);
              ("p95_ns", PInt p95);
              ("p99_ns", PInt p99);
              ("completed", PInt completed);
              ("out_dir", PStr out_path);
              ("elapsed_s", PStr elapsed) ]), st').
Proof.
  intros Hrun Hscan Hid Hout.
  match goal with |- context [extract_stats ?path ?s] =>
    destruct (extract_stats_total path s) as ([[[a b] c] d] & st' & E)
  end.
  exists a, b, c, d, st'. split; [done|].
  cbv [run_experiment bind print emit try_except run_checked ret lift].
  cbn [world trace]. rewrite Hrun. cbn [Z.eqb]. rewrite Hscan.
  apply String.eqb_neq in Hid, Hout. cbn [falsy orb]. rewrite Hid, Hout.
  cbn [world trace default orb]. rewrite <- !app_assoc. cbn [app].
  unfold id. by rewrite E.
Qed.

(** What a run can come to: it cannot be started and [OSError] goes
    up, or it returns [None], or it returns a row with the parameters
    of the run, and then the engine has exited with status 0. *)
Lemma run_experiment_cases p n t st :
  (exists st', run_experiment p n t st = (inl OSError, st'))
  \/ (exists st', run_experiment p n t st = (inr None, st'))
  \/ (exists r st' out err elapsed w',
        run_experiment p n t st = (inr (Some r), st')
        /\ row_of p r
        /\ subprocess_run (build_cmd p) (NS3_ROOT +:+ "/..") (world st)
           = (Exited 0 out err elapsed, w')).
Proof.
  destruct (subprocess_run (build_cmd p) (NS3_ROOT +:+ "/..") (world st))
    as [[rc out err elapsed|] w'] eqn:Hrun.
  2:{ left. eexists. by apply run_experiment_not_started. }
  destruct (decide (rc = 0)) as [->|Hrc].
  2:{ right. left. eexists. by eapply run_experiment_failed. }
  destruct (scan_lines_total (Py.split out (String "010" EmptyString)) (None, None))
    as [[run_id out_path] Hscan].
  destruct (falsy run_id || falsy out_path) eqn:Hf.
  { right. left. eexists. by eapply run_experiment_no_markers. }
  apply orb_false_iff in Hf as [Hf1 Hf2].
  destruct run_id as [run_id|]; [|done]. destruct out_path as [out_path|]; [|done].
  cbn in Hf1, Hf2. apply String.eqb_neq in Hf1, Hf2.
  destruct (run_experiment_completed p n t st out err elapsed w' run_id out_path)
    as (a & b & c & d & st' & _ & E); try done.
  right. right. eexists _, st', out, err, elapsed, w'. split; [exact E|].
  split; [by repeat split|done].
Qed.

Lemma run_one_cases t p results n st :
  (exists st', run_one t p (results, n) st = (inl OSError, st'))
  \/ (exists st', run_one t p (results, n) st = (inr (results, n + 1), st'))
  \/ (exists r st' out err elapsed w',
        run_one t p (results, n) st = (inr (results ++ [r], n + 1), st')
        /\ row_of p r
        /\ subprocess_run (build_cmd p) (NS3_ROOT +:+ "/..") (world st)
           = (Exited 0 out err elapsed, w')).
Proof.
  unfold run_one, bind.
  destruct (run_experiment_cases p (n + 1) t st)
    as [[st' E]|[[st' E]|(r & st' & out & err & el & w' & E & Hrow & Hrun)]];
    rewrite E.
  - left. by eexists.
  - right. left. by eexists.
  - right. right. by eexists r, st', out, err, el, w'.
Qed.

(** The loop over parameter sets [ps]: if it comes to an end, the rows
    it has added are rows of parameter sets of [ps]; if it does not,
    [OSError] went up. *)
Lemma run_loop_rows t ps results n st :
  match for_ ps (run_one t) (results, n) st with
  | (inr (results', n'), _) =>
      n' = n + Z.of_nat (length ps)
      /\ exists more, results' = results ++ more
                      /\ Forall (fun r => exists p, p ∈ ps /\ row_of p r) more
  | (inl e, _) => e = OSError
  end.
Proof.
  revert results n st. induction ps as [|p ps IH]; intros results n st.
  { cbn. split; [lia|]. exists []. by rewrite app_nil_r. }
  cbn [for_]. unfold bind.
  destruct (run_one_cases t p results n st)
    as [[st' E]|[[st' E]|(r & st' & out & err & el & w' & E & Hrow & _)]];
    rewrite E; [done| |].
  - specialize (IH results (n + 1) st').
    destruct (for_ ps (run_one t) (results, n + 1) st') as [[e|[results' n']] st'']; [done|].
    destruct IH as (-> & more & -> & Hmore). split; [cbn [length]; lia|].
    exists more. split; [done|].
    eapply Forall_impl; [exact Hmore|]. intros r (q & Hq & Hr). exists q.
    split; [by right|done].
  - specialize (IH (results ++ [r]) (n + 1) st').
    destruct (for_ ps (run_one t) (results ++ [r], n + 1) st') as [[e|[results' n']] st''];
      [done|].
    destruct IH as (-> & more & -> & Hmore). split; [cbn [length]; lia|].
    exists (r :: more). split; [by rewrite <- app_assoc|].
    constructor; [exists p; split; [by left|done]|].
    eapply Forall_impl; [exact Hmore|]. intros r' (q & Hq & Hr). exists q.
    split; [by right|done].
Qed.

Lemma main_with_started ws os ss st :
  main_with ws os ss st
  = (let* (results, _) :=
       run_all (Z.of_nat (length ws) * Z.of_nat (length os) * Z.of_nat (length ss))
               ws os ss in
     finish (Z.of_nat (length ws) * Z.of_nat (length os) * Z.of_nat (length ss)) results)
      (started ws os ss st).
Proof.
  unfold main_with, print. rewrite !bind_emit. cbn [world trace].
  unfold started. rewrite <- !app_assoc. reflexivity.
Qed.

(** A failed run leaves [results] as it was and the loop goes on. *)
Lemma run_one_failed t p results n st rc out err elapsed w' :
  subprocess_run (build_cmd p) (NS3_ROOT +:+ "/..") (world st)
  = (Exited rc out err elapsed, w') ->
  rc <> 0 ->
  run_one t p (results, n) st
  = (inr (results, n + 1),
     State w' (trace st
               ++ [ Print (MsgRunHeader (n + 1) t (workload p) (outstanding p) (req_bytes p));
                    Print (MsgCommand (build_cmd p));
                    Exec (build_cmd p) (NS3_ROOT +:+ "/..");
                    Print (MsgRunFailed (CalledProcessError rc out err));
                    Print (MsgRunSkipped (n + 1)) ])).
Proof.
  intros Hrun Hrc. unfold run_one, bind.
  rewrite (run_experiment_failed p (n + 1) t st rc out err elapsed w' Hrun Hrc).
  cbn. by rewrite <- app_assoc.
Qed.

Lemma finish_empty t st :
  finish t [] st
  = (inl (SystemExit 1), State (world st) (trace st ++ [Print MsgNoSuccess])).
Proof. reflexivity. Qed.

End LiveRuns.

(** * The claims *)

(** ** The matrix generator *)

(** C1, as stated, at a dimension list that names a level twice: the two
    parameter sets enumerated are the same one, so the values are not
    distinct. *)
Lemma matrix_repeated_level_not_distinct :
  run_matrix.matrix ["rpc"; "rpc"] [1] [(256, 256)]
  = [run_matrix.Params "rpc" 1 256 256; run_matrix.Params "rpc" 1 256 256]
  /\ ~ NoDup (run_matrix.matrix ["rpc"; "rpc"] [1] [(256, 256)]).
Proof.
  split; [reflexivity|].
  intros Hnd. cbn in Hnd. apply NoDup_cons in Hnd as [Hnotin _].
  apply Hnotin. left.
Qed.

(** C1 (amended).  For every triple of dimension lists, of sizes
    (w, o, s), the loops of [main] enumerate exactly w*o*s parameter
    sets, in nested order with the workload outermost, then outstanding,
    then size, each list in its declaration order: the parameter set built from the i-th workload,
    the j-th outstanding level and the k-th size is met at position
    (i*o + j)*s + k.  When no dimension list repeats a level the
    parameter sets are pairwise distinct, each appearing once.  The count
    w*o*s is printed right after the banner, before any run. *)
Theorem matrix_enumeration `{Platform} (ws : list string) (os : list Z) (ss : list (Z * Z)) :
  length (run_matrix.matrix ws os ss) = (length ws * length os * length ss)%nat
  /\ (NoDup ws -> NoDup os -> NoDup ss -> NoDup (run_matrix.matrix ws os ss))
  /\ (forall i j k w o sz,
        ws !! i = Some w -> os !! j = Some o -> ss !! k = Some sz ->
        run_matrix.matrix ws os ss !! ((i * length os + j) * length ss + k)%nat
        = Some (run_matrix.Params w o (fst sz) (snd sz)))
  /\ (forall total st,
        run_matrix.run_all total ws os ss st
        = for_ (run_matrix.matrix ws os ss) (run_matrix.run_one total) ([], 0) st)
  /\ (forall st, exists tail,
        trace (snd (run_matrix.main_with ws os ss st))
        = trace st
          ++ [ Print MsgBanner;
               Print (MsgTotalRuns (Z.of_nat (length ws * length os * length ss)));
               Print (MsgDimensions ws os ss);
               MakeDirs run_matrix.OUT_DIR ]
          ++ tail).
Proof.
  split; [apply length_matrix|].
  split; [apply NoDup_matrix|].
  split; [intros; by apply lookup_matrix|].
  split; [intros; apply main_loops_matrix|].
  intros st. destruct (main_with_prologue ws os ss st) as (tail & E & _). by exists tail.
Qed.

(** The baseline matrix of the script: 2 x 3 x 3 = 18 distinct runs.
    With the workload [rpc] named twice the count is still the product
    of the sizes, 2 x 1 x 1, and the order still the nested one: the
    second parameter set is that of the second workload. *)
Lemma matrix_enumeration_baseline :
  length (run_matrix.matrix run_matrix.WORKLOADS run_matrix.OUTSTANDING run_matrix.SIZES)
  = 18%nat
  /\ NoDup (run_matrix.matrix run_matrix.WORKLOADS run_matrix.OUTSTANDING run_matrix.SIZES)
  /\ length (run_matrix.matrix ["rpc"; "rpc"] [1] [(256, 256)]) = 2%nat
  /\ run_matrix.matrix ["rpc"; "rpc"] [1] [(256, 256)] !! 1%nat
     = Some (run_matrix.Params "rpc" 1 256 256).
Proof.
  destruct (matrix_enumeration (H := Toy.idle)
              run_matrix.WORKLOADS run_matrix.OUTSTANDING run_matrix.SIZES)
    as (Hlen & Hnd & _).
  destruct (matrix_enumeration (H := Toy.idle) ["rpc"; "rpc"] [1] [(256, 256)])
    as (Hlen2 & _ & Hpos & _).
  split; [exact Hlen|]. split.
  { apply Hnd; apply (bool_decide_unpack _); vm_compute; exact I. }
  split; [exact Hlen2|].
  exact (Hpos 1%nat 0%nat 0%nat "rpc" 1 (256, 256) eq_refl eq_refl eq_refl).
Defined.

(** ** The summary parser *)

(** C2.  An artifact that contains the line [Completed: 9000/10000] and a
    nanosecond section, opened by a line containing [Latency (ns):], with
    the lines [p50: 1234.0], [p95: 5678.0] and [p99: 9999.0] is parsed to
    (1234, 5678, 9999, 9000) by both parsers, which print nothing.  The
    other lines of the section carry no label, the section ends with the
    artifact or at the microsecond header, and no other line is labelled
    [Completed:]. *)
Theorem summary_example `{Platform} (path : string) (st : state)
    (content : string) (before : list string) (hdr : string) (body after : list string) :
  read_text path (world st) = Some content ->
  Py.split content (String "010" EmptyString) = before ++ hdr :: body ++ after ->
  forallb Summary.no_ns_header before = true ->
  Py.contains Summary.ns_header hdr = true ->
  Forall (fun l => l ∈ ["p50: 1234.0"; "p95: 5678.0"; "p99: 9999.0"]
                   \/ Summary.section_line None None None l = true) body ->
  "p50: 1234.0" ∈ body -> "p95: 5678.0" ∈ body -> "p99: 9999.0" ∈ body ->
  Summary.section_closed after = true ->
  "Completed: 9000/10000" ∈ Py.split content (String "010" EmptyString) ->
  Forall (fun l => l = "Completed: 9000/10000" \/ Py.contains "Completed:" l = false)
         (Py.split content (String "010" EmptyString)) ->
  run_matrix.extract_stats path st = (inr (1234, 5678, 9999, 9000), st)
  /\ generate_manifest.parse_summary path st = (inr (1234, 5678, 9999, 9000), st).
Proof.
  intros Hread Hlines Hbefore Hhdr Hbody H50 H95 H99 Hafter Hc Hcs.
  assert (Summary.scan content = (Summary.Stats 1234 5678 9999 9000, None)) as Hscan.
  { rewrite (scan_sections content before hdr body after
               (Some 1234) (Some 5678) (Some 9999) 9000); try done.
    - rewrite (existsb_elem_of Summary.is_p50 _ _ H50) by (by vm_compute).
      rewrite (existsb_elem_of Summary.is_p95 _ _ H95) by (by vm_compute).
      rewrite (existsb_elem_of Summary.is_p99 _ _ H99) by (by vm_compute).
      by rewrite (existsb_elem_of _ _ _ Hc) by (by vm_compute).
    - apply forallb_forall. intros l Hl%list_elem_of_In.
      rewrite Forall_forall in Hbody. destruct (Hbody l Hl) as [Hin|Hq].
      + repeat (apply elem_of_cons in Hin as [->|Hin]; [by vm_compute|]).
        by apply elem_of_nil in Hin.
      + by apply section_line_quiet.
    - apply forallb_forall. intros l Hl%list_elem_of_In.
      rewrite Forall_forall in Hcs. destruct (Hcs l Hl) as [->|Hno].
      + by vm_compute.
      + unfold Summary.completed_ok. by rewrite Hno. }
  split.
  - by rewrite (extract_stats_returns _ _ _ _ Hread Hscan).
  - by rewrite (parse_summary_returns _ _ _ _ Hread Hscan).
Qed.

(** C2 on the artifact [Toy.summary_full]. *)
Lemma summary_example_full :
  run_matrix.extract_stats (H := Toy.one_summary Toy.summary_full) "out/sim/r7/summary.txt"
    (Toy.start (Toy.one_summary Toy.summary_full) tt)
  = (inr (1234, 5678, 9999, 9000), Toy.start (Toy.one_summary Toy.summary_full) tt)
  /\ generate_manifest.parse_summary (H := Toy.one_summary Toy.summary_full)
       "out/sim/r7/summary.txt" (Toy.start (Toy.one_summary Toy.summary_full) tt)
     = (inr (1234, 5678, 9999, 9000), Toy.start (Toy.one_summary Toy.summary_full) tt).
Proof.
  apply (summary_example (H := Toy.one_summary Toy.summary_full)
           "out/sim/r7/summary.txt" (Toy.start (Toy.one_summary Toy.summary_full) tt) Toy.summary_full
           ["Host-delay summary"; "Completed: 9000/10000"; ""]
           "Latency (ns):"
           ["p50: 1234.0"; "p95: 5678.0"; "p99: 9999.0"; ""]
           ["Latency (μs):"; "p50: 1.234"; "p95: 5.678"; "p99: 9.999"; ""]).
  - reflexivity.
  - vm_compute. reflexivity.
  - vm_compute. reflexivity.
  - vm_compute. reflexivity.
  - repeat apply Forall_cons_2; try apply Forall_nil_2;
      first [by left; repeat constructor | by right; vm_compute].
  - by repeat constructor.
  - by repeat constructor.
  - by repeat constructor.
  - vm_compute. reflexivity.
  - vm_compute. by repeat constructor.
  - vm_compute. repeat apply Forall_cons_2; try apply Forall_nil_2;
      first [by left | by right].
Defined.

(** C3.  When the nanosecond section has valid [p50] and [p95] lines
    (fields that parse to [v50] and [v95]) and no [p99] line, and the
    artifact has a valid [Completed:] line (count [c]), both parsers
    return ([v50], [v95], 0, [c]) and print nothing.  More generally, for
    every readable artifact, a field whose label is on no line is 0 in
    what [extract_stats] returns, and in what [parse_summary] returns when
    it returns. *)
Theorem summary_missing_p99 `{Platform} (path : string) (st : state)
    (content : string) (before : list string) (hdr : string) (body after : list string)
    (v50 v95 c : Z) :
  read_text path (world st) = Some content ->
  Py.split content (String "010" EmptyString) = before ++ hdr :: body ++ after ->
  forallb Summary.no_ns_header before = true ->
  Py.contains Summary.ns_header hdr = true ->
  forallb (Summary.section_line (Some v50) (Some v95) None) body = true ->
  existsb Summary.is_p50 body = true ->
  existsb Summary.is_p95 body = true ->
  Summary.section_closed after = true ->
  forallb (Summary.completed_ok c) (Py.split content (String "010" EmptyString)) = true ->
  existsb (Py.contains "Completed:") (Py.split content (String "010" EmptyString)) = true ->
  (run_matrix.extract_stats path st = (inr (v50, v95, 0, c), st)
   /\ generate_manifest.parse_summary path st = (inr (v50, v95, 0, c), st))
  /\ (forall path' st' content',
        read_text path' (world st') = Some content' ->
        exists s,
          fst (run_matrix.extract_stats path' st') = inr (Summary.tuple s)
          /\ (forall t, fst (generate_manifest.parse_summary path' st') = inr t ->
                        t = Summary.tuple s)
          /\ (Summary.absent "Completed:" content' = true -> Summary.completed s = 0)
          /\ (Summary.absent "p50:" content' = true -> Summary.p50 s = 0)
          /\ (Summary.absent "p95:" content' = true -> Summary.p95 s = 0)
          /\ (Summary.absent "p99:" content' = true -> Summary.p99 s = 0)).
Proof.
  intros Hread Hlines Hbefore Hhdr Hbody H50 H95 Hafter Hcs Hc. split.
  - assert (Summary.scan content = (Summary.Stats v50 v95 0 c, None)) as Hscan.
    { rewrite (scan_sections content before hdr body after (Some v50) (Some v95) None c)
        by done.
      rewrite H50, H95, Hc. cbn. unfold Summary.pick.
      by destruct (existsb Summary.is_p99 body). }
    split.
    + by rewrite (extract_stats_returns _ _ _ _ Hread Hscan).
    + by rewrite (parse_summary_returns _ _ _ _ Hread Hscan).
  - intros path' st' content' Hread'.
    exists (fst (Summary.scan content')).
    pose proof (scan_absent content') as Habs. cbv zeta in Habs.
    destruct (Summary.scan content') as [s [e|]] eqn:Hscan; cbn [fst] in *.
    + rewrite (extract_stats_recovers _ _ _ _ _ Hread' Hscan).
      rewrite (parse_summary_raises _ _ _ _ _ Hread' Hscan). cbn. split; [done|].
      split; [done|exact Habs].
    + rewrite (extract_stats_returns _ _ _ _ Hread' Hscan).
      rewrite (parse_summary_returns _ _ _ _ Hread' Hscan). cbn. split; [done|].
      split; [by intros t [= <-]|exact Habs].
Qed.

(** C3 on an artifact whose nanosecond section stops after [p95]. *)
Lemma summary_missing_p99_partial :
  run_matrix.extract_stats (H := Toy.one_summary Toy.summary_partial)
    "out/sim/r7/summary.txt" (Toy.start (Toy.one_summary Toy.summary_partial) tt)
  = (inr (1234, 5678, 0, 9000), Toy.start (Toy.one_summary Toy.summary_partial) tt)
  /\ generate_manifest.parse_summary (H := Toy.one_summary Toy.summary_partial)
       "out/sim/r7/summary.txt" (Toy.start (Toy.one_summary Toy.summary_partial) tt)
     = (inr (1234, 5678, 0, 9000), Toy.start (Toy.one_summary Toy.summary_partial) tt).
Proof.
  apply (summary_missing_p99 (H := Toy.one_summary Toy.summary_partial)
           "out/sim/r7/summary.txt" (Toy.start (Toy.one_summary Toy.summary_partial) tt)
           Toy.summary_partial
           ["Host-delay summary"; "Completed: 9000/10000"; ""]
           "Latency (ns):"
           ["p50: 1234.0"; "p95: 5678.0"; ""]
           ["Latency (μs):"; "p50: 1.234"; "p95: 5.678"; "p99: 9.999"; ""]
           1234 5678 9000); vm_compute; reflexivity.
Defined.




(** ** Rescan mode *)

(** C5.  A result root whose entries are three valid run directories
    [d1 <= d2 <= d3], a directory [dm] without summary artifact, and
    entries that are not directories, in any order of listing: the
    manifest written has exactly three data rows, those of [d1], [d2] and
    [d3] in this order, each ending with the path of its directory; the
    line that reports [dm] as skipped is printed before the manifest is
    written. *)
Theorem rescan_three_of_four `{Platform} (st : state) (names others : list string)
    (d1 d2 d3 dm : string) (r1 r2 r3 : dict) :
  listdir generate_manifest.OUT_DIR (world st) = Some names ->
  names ≡ₚ [d1; d2; d3; dm] ++ others ->
  Forall (fun n => isdir (Py.path_join generate_manifest.OUT_DIR n) (world st) = false)
         others ->
  generate_manifest.str_le d1 d2 -> generate_manifest.str_le d2 d3 ->
  generate_manifest.valid_run (world st) d1 r1 ->
  generate_manifest.valid_run (world st) d2 r2 ->
  generate_manifest.valid_run (world st) d3 r3 ->
  isdir (Py.path_join generate_manifest.OUT_DIR dm) (world st) = true ->
  path_exists (Py.path_join (Py.path_join generate_manifest.OUT_DIR dm) "summary.txt")
              (world st) = false ->
  exists before after,
    trace (snd (generate_manifest.main st))
    = trace st ++ before
      ++ [WriteCsv (Py.path_join generate_manifest.OUT_DIR "manifest.csv")
            (Manifest generate_manifest.fieldnames [map snd r1; map snd r2; map snd r3])]
      ++ after
    /\ Print (MsgSkipping dm) ∈ before
    /\ Forall quiet_event before /\ Forall quiet_event after
    /\ map fst r1 = generate_manifest.fieldnames
    /\ map fst r2 = generate_manifest.fieldnames
    /\ map fst r3 = generate_manifest.fieldnames
    /\ dict_get "out_dir" r1 = Some (PStr (Py.path_join generate_manifest.OUT_DIR d1))
    /\ dict_get "out_dir" r2 = Some (PStr (Py.path_join generate_manifest.OUT_DIR d2))
    /\ dict_get "out_dir" r3 = Some (PStr (Py.path_join generate_manifest.OUT_DIR d3)).
Proof.
  intros Hls Hperm Hothers H12 H23 V1 V2 V3 Hmd Hms.
  pose proof (valid_run_processed _ _ _ V1) as P1.
  pose proof (valid_run_processed _ _ _ V2) as P2.
  pose proof (valid_run_processed _ _ _ V3) as P3.
  assert (omap (generate_manifest.processed (world st)) (generate_manifest.sorted names)
          = [r1; r2; r3]) as Hrows.
  { rewrite (omap_sorted _ names [d1; d2; d3] (dm :: others)).
    - cbn. by rewrite P1, P2, P3.
    - rewrite Hperm. reflexivity.
    - by repeat constructor.
    - repeat constructor; by eexists.
    - constructor; [by apply no_summary_processed|].
      eapply Forall_impl; [exact Hothers|]. intros n. apply not_dir_processed. }
  rewrite (rescan_main st names Hls), Hrows.
  destruct (emits_print_table_any [r1; r2; r3]
    (State (world st)
       (trace st
        ++ flat_map (generate_manifest.entry_events (world st)) (generate_manifest.sorted names)
        ++ [ WriteCsv (Py.path_join generate_manifest.OUT_DIR "manifest.csv")
               (Manifest generate_manifest.fieldnames (map (map snd) [r1; r2; r3]));
             Print (MsgManifestWritten (Py.path_join generate_manifest.OUT_DIR "manifest.csv"));
             Print (MsgTotal (Z.of_nat (length [r1; r2; r3]))) ])))
    as (tail & E & F).
  exists (flat_map (generate_manifest.entry_events (world st)) (generate_manifest.sorted names)).
  eexists (_ :: _ :: tail).
  split; [rewrite E; cbn [trace map]; rewrite <- !app_assoc; reflexivity|].
  split.
  { apply elem_of_flat_map. exists dm. split.
    - rewrite sorted_Permutation, Hperm. by repeat constructor.
    - rewrite no_summary_events by done. by constructor. }
  split; [apply flat_map_quiet|].
  split; [by repeat constructor|].
  destruct (valid_run_cells _ _ _ V1), (valid_run_cells _ _ _ V2), (valid_run_cells _ _ _ V3).
  done.
Qed.

(** C5 on [Toy.result_root], listed as m, c, manifest.csv, a, b. *)
Lemma rescan_three_of_four_result_root :
  map rows (Toy.manifests
    (trace (snd (generate_manifest.main (H := Toy.result_root)
                   (Toy.start Toy.result_root tt)))))
  = [[ [PStr "run-a"; PStr "rpc"; PInt 8; PInt 256; PInt 256; PStr "10Gbps"; PStr "50us";
        PInt 1500; PStr "none"; PInt 1234; PInt 5678; PInt 9999; PInt 9000;
        PStr "../out/sim/a"];
       [PStr "run-b"; PStr "rpc"; PInt 8; PInt 256; PInt 256; PStr "10Gbps"; PStr "50us";
        PInt 1500; PStr "none"; PInt 1234; PInt 5678; PInt 9999; PInt 9000;
        PStr "../out/sim/b"];
       [PStr "run-c"; PStr "rpc"; PInt 8; PInt 256; PInt 256; PStr "10Gbps"; PStr "50us";
        PInt 1500; PStr "none"; PInt 1234; PInt 5678; PInt 0; PInt 9000;
        PStr "../out/sim/c"] ]].
Proof.
  assert (forall d s row,
            isdir (Platform := Toy.result_root) (Py.path_join generate_manifest.OUT_DIR d) tt = true ->
            path_exists (Platform := Toy.result_root)
              (Py.path_join (Py.path_join generate_manifest.OUT_DIR d) "config.json") tt = true ->
            path_exists (Platform := Toy.result_root)
              (Py.path_join (Py.path_join generate_manifest.OUT_DIR d) "summary.txt") tt = true ->
            read_text (Platform := Toy.result_root)
              (Py.path_join (Py.path_join generate_manifest.OUT_DIR d) "config.json") tt
            = Some (Toy.config_text ("run-" +:+ d)) ->
            read_text (Platform := Toy.result_root)
              (Py.path_join (Py.path_join generate_manifest.OUT_DIR d) "summary.txt") tt
            = Some s ->
            json_loads (Platform := Toy.result_root) (Toy.config_text ("run-" +:+ d))
            = Some (Toy.config_value ("run-" +:+ d)) ->
            Summary.scan s = (Summary.Stats 1234 5678 (Summary.p99 (fst (Summary.scan s))) 9000, None) ->
            generate_manifest.build_row (Toy.config_value ("run-" +:+ d))
              (1234, 5678, Summary.p99 (fst (Summary.scan s)), 9000)
              (Py.path_join generate_manifest.OUT_DIR d) = inr row ->
            generate_manifest.valid_run (H := Toy.result_root) tt d row) as Hvalid.
  { intros d s row Hd Hc Hs Ht Hr Hj Hscan Hrow.
    split; [done|]. split; [done|]. split; [done|].
    exists (Toy.config_text ("run-" +:+ d)), (Toy.config_value ("run-" +:+ d)), s,
           (Summary.Stats 1234 5678 (Summary.p99 (fst (Summary.scan s))) 9000).
    done. }
  destruct (rescan_three_of_four (H := Toy.result_root) (Toy.start Toy.result_root tt)
              ["m"; "c"; "manifest.csv"; "a"; "b"] ["manifest.csv"] "a" "b" "c" "m"
              (default [] (generate_manifest.processed (H := Toy.result_root) tt "a"))
              (default [] (generate_manifest.processed (H := Toy.result_root) tt "b"))
              (default [] (generate_manifest.processed (H := Toy.result_root) tt "c")))
    as (before & after & E & _ & Hb & Ha & _).
  - reflexivity.
  - apply (bool_decide_unpack _). vm_compute. exact I.
  - repeat constructor.
  - vm_compute. reflexivity.
  - vm_compute. reflexivity.
  - apply (Hvalid "a" Toy.summary_full); vm_compute; reflexivity.
  - apply (Hvalid "b" Toy.summary_full); vm_compute; reflexivity.
  - apply (Hvalid "c" Toy.summary_partial); vm_compute; reflexivity.
  - reflexivity.
  - reflexivity.
  - rewrite E. unfold Toy.manifests.
    change (trace (Toy.start Toy.result_root tt)) with (@nil event).
    rewrite app_nil_l, !omap_app.
    rewrite (omap_all_None _ before), (omap_all_None _ after).
    + vm_compute. reflexivity.
    + eapply Forall_impl; [exact Ha|]. by intros [].
    + eapply Forall_impl; [exact Hb|]. by intros [].
Defined.

(** C10.  In rescan mode, when the result root can be listed and no entry
    of it yields a row (it is empty, or every entry is passed over), a
    manifest is still written, made of the header and no data row, and
    [main] returns, so the process exits with status 0.  The lines
    printed before the manifest report the entries passed over. *)
Theorem rescan_header_only `{Platform} (st : state) (names : list string) :
  listdir generate_manifest.OUT_DIR (world st) = Some names ->
  Forall (generate_manifest.skips (world st)) names ->
  exists diagnostics,
    Forall quiet_event diagnostics
    /\ generate_manifest.main st
       = (inr tt,
          State (world st)
            (trace st ++ diagnostics
             ++ [ WriteCsv (Py.path_join generate_manifest.OUT_DIR "manifest.csv")
                    (Manifest generate_manifest.fieldnames []);
                  Print (MsgManifestWritten
                           (Py.path_join generate_manifest.OUT_DIR "manifest.csv"));
                  Print (MsgTotal 0);
                  Print MsgTableHeader;
                  Print MsgTableEnd ]))
    /\ exit_status (fst (generate_manifest.main st)) = 0.
Proof.
  intros Hls Hskip.
  exists (flat_map (generate_manifest.entry_events (world st)) (generate_manifest.sorted names)).
  split; [apply flat_map_quiet|].
  rewrite (rescan_nothing st names Hls Hskip). done.
Qed.

(** C10 on a result root that holds nothing. *)
Lemma rescan_header_only_empty_root :
  exists diagnostics,
    Forall quiet_event diagnostics
    /\ generate_manifest.main (H := Toy.empty_root) (Toy.start Toy.empty_root tt)
       = (inr tt,
          @State Toy.empty_root tt
            ([] ++ diagnostics
             ++ [ WriteCsv (Py.path_join generate_manifest.OUT_DIR "manifest.csv")
                    (Manifest generate_manifest.fieldnames []);
                  Print (MsgManifestWritten
                           (Py.path_join generate_manifest.OUT_DIR "manifest.csv"));
                  Print (MsgTotal 0);
                  Print MsgTableHeader;
                  Print MsgTableEnd ]))
    /\ exit_status (fst (generate_manifest.main (H := Toy.empty_root)
                           (Toy.start Toy.empty_root tt))) = 0.
Proof.
  apply (rescan_header_only (H := Toy.empty_root) (Toy.start Toy.empty_root tt) []).
  - reflexivity.
  - constructor.
Defined.

(** ** Exit status *)

(** C8, as stated, on a result root that holds nothing: rescan mode
    produces no row, only the header, and still ends with status 0. *)
Lemma rescan_empty_root_exits_zero :
  map rows (Toy.manifests
    (trace (snd (generate_manifest.main (H := Toy.empty_root)
                   (Toy.start Toy.empty_root tt))))) = [[]]
  /\ exit_status (fst (generate_manifest.main (H := Toy.empty_root)
                         (Toy.start Toy.empty_root tt))) = 0.
Proof. split; by vm_compute. Qed.

(** C8 (amended).  In live mode an execution in which no run produces a
    RunResult ends with exit status 1.  Rescan mode has no exit of its
    own: with no row at all it ends with status 0 after writing the
    header, and with a status other than 0 only when the result root
    cannot be listed. *)
Theorem total_failure_exit_status `{Platform} :
  (forall ws os ss st,
     (forall results n st1,
        run_matrix.run_all
          (Z.of_nat (length ws) * Z.of_nat (length os) * Z.of_nat (length ss))
          ws os ss (run_matrix.started ws os ss st)
        = (inr (results, n), st1) -> results = []) ->
     exit_status (fst (run_matrix.main_with ws os ss st)) = 1)
  /\ (forall st names,
        listdir generate_manifest.OUT_DIR (world st) = Some names ->
        Forall (generate_manifest.skips (world st)) names ->
        exit_status (fst (generate_manifest.main st)) = 0)
  /\ (forall st,
        listdir generate_manifest.OUT_DIR (world st) = None ->
        exit_status (fst (generate_manifest.main st)) = 1).
Proof.
  split; [|split].
  - intros ws os ss st Hnone. rewrite main_with_started. unfold bind.
    pose proof (run_loop_rows
      (Z.of_nat (length ws) * Z.of_nat (length os) * Z.of_nat (length ss))
      (run_matrix.matrix ws os ss) [] 0 (run_matrix.started ws os ss st)) as Hloop.
    unfold run_matrix.run_all in *. rewrite main_loops_matrix in Hnone |- *.
    destruct (for_ _ _ _ _) as [[e|[results n]] st1].
    + by subst e.
    + rewrite (Hnone results n st1 eq_refl). by rewrite finish_empty.
  - intros st names Hls Hskip. by rewrite (rescan_nothing st names Hls Hskip).
  - intros st Hls. by rewrite (main_unlistable st Hls).
Qed.

(** C8 (amended) on the baseline matrix, with an engine that fails every
    run. *)
Lemma total_failure_exit_status_failing :
  exit_status (fst (run_matrix.main (H := Toy.failing) (Toy.start Toy.failing tt))) = 1.
Proof.
  destruct (total_failure_exit_status (H := Toy.failing)) as (Hlive & _ & _).
  apply (Hlive run_matrix.WORKLOADS run_matrix.OUTSTANDING run_matrix.SIZES
               (Toy.start Toy.failing tt)).
  intros results n st1 E. vm_compute in E. by injection E as <- _ _.
Defined.

(** ** The header of the manifest *)

(** C7, as stated, on [Toy.result_root]: the manifest of rescan mode has
    fourteen columns and rows of fourteen cells; the elapsed-time column
    is not in its header. *)
Lemma rescan_manifest_has_no_elapsed_column :
  map header (Toy.manifests
    (trace (snd (generate_manifest.main (H := Toy.result_root)
                   (Toy.start Toy.result_root tt)))))
  = [ ["run_id"; "workload"; "outstanding"; "req_bytes"; "rsp_bytes"; "linkRate";
       "linkDelay"; "mtu"; "qdisc"; "p50_ns"; "p95_ns"; "p99_ns"; "completed";
       "out_dir"] ]
  /\ map (map length) (map rows (Toy.manifests
       (trace (snd (generate_manifest.main (H := Toy.result_root)
                      (Toy.start Toy.result_root tt))))))
     = [[14%nat; 14%nat; 14%nat]]
  /\ ~ "elapsed_s" ∈ generate_manifest.fieldnames
  /\ "elapsed_s" ∈ run_matrix.fieldnames.
Proof.
  split; [by vm_compute|]. split; [by vm_compute|]. split.
  - apply (bool_decide_unpack _). by vm_compute.
  - apply (bool_decide_unpack _). by vm_compute.
Qed.

(** C7 (amended).  Each mode writes its own fixed header, and every row
    has one cell for each column of that header.  The header of live mode
    has fifteen columns, [elapsed_s] among them; the header of rescan mode
    is the same list without [elapsed_s], which rescan mode leaves out
    altogether: no column, no cell.  The writer that both modes use would
    put an empty cell where a row has no value for a column of the
    header. *)
Theorem manifest_headers `{Platform} :
  generate_manifest.fieldnames
  = filter (fun k => k <> "elapsed_s") run_matrix.fieldnames
  /\ (forall ws os ss st, exists tail,
        trace (snd (run_matrix.main_with ws os ss st)) = trace st ++ tail
        /\ Forall (manifest_shape run_matrix.fieldnames) tail)
  /\ (forall st, exists tail,
        trace (snd (generate_manifest.main st)) = trace st ++ tail
        /\ Forall (manifest_shape generate_manifest.fieldnames) tail)
  /\ (forall fields row cells i k,
        dict_to_list fields row = inr cells ->
        fields !! i = Some k -> dict_get k row = None ->
        cells !! i = Some (PStr "")).
Proof.
  split; [reflexivity|]. split; [|split].
  - intros ws os ss st. destruct (main_with_prologue ws os ss st) as (tail & E & F).
    eexists. split; [exact E|]. by repeat constructor.
  - apply emits_rescan_main.
  - intros fields row cells i k Hcells Hi Hk. unfold dict_to_list in Hcells.
    destruct (forallb _ row); [|done]. injection Hcells as <-.
    rewrite list_lookup_fmap, Hi. cbn. by rewrite Hk.
Qed.

(** C7 (amended): a row of rescan mode handed to the writer of live mode
    would get an empty cell in the [elapsed_s] column. *)
Lemma manifest_headers_empty_cell :
  run_matrix.fieldnames !! 13%nat = Some "elapsed_s"
  /\ exists cells,
       dict_to_list run_matrix.fieldnames Toy.rescan_row = inr cells
       /\ cells !! 13%nat = Some (PStr "").
Proof.
  split; [reflexivity|]. eexists. split; [reflexivity|].
  destruct (manifest_headers (H := Toy.idle)) as (_ & _ & _ & Hwriter).
  apply (Hwriter run_matrix.fieldnames Toy.rescan_row _ 13%nat "elapsed_s");
    reflexivity.
Defined.

(** ** Live mode: failed runs and markers *)

(** C6.  Let the matrix be [pre ++ p :: post] and let the engine exit
    with a status other than 0 on [p].  Then [run_experiment] reports the
    failure and returns no RunResult, and the loops go on with [post]
    from the results gathered over [pre], so that what is handed to the
    manifest is made of rows of parameter sets of [pre] and of [post]
    only. *)
Theorem failed_run_skipped `{Platform} (total : Z) (ws : list string) (os : list Z)
    (ss : list (Z * Z)) (pre post : list run_matrix.ParameterSet)
    (p : run_matrix.ParameterSet) (st0 st : state) (results : list dict) (n : Z)
    (rc : Z) (out err elapsed : string) (w' : World) :
  run_matrix.matrix ws os ss = pre ++ p :: post ->
  for_ pre (run_matrix.run_one total) ([], 0) st0 = (inr (results, n), st) ->
  subprocess_run (run_matrix.build_cmd p) (run_matrix.NS3_ROOT +:+ "/..") (world st)
  = (Exited rc out err elapsed, w') ->
  rc <> 0 ->
  exists st1,
    run_matrix.run_experiment p (n + 1) total st = (inr None, st1)
    /\ Print (MsgRunFailed (CalledProcessError rc out err)) ∈ trace st1
    /\ run_matrix.run_all total ws os ss st0
       = for_ post (run_matrix.run_one total) (results, n + 1)
           (State (world st1) (trace st1 ++ [Print (MsgRunSkipped (n + 1))]))
    /\ Forall (fun r => exists q, q ∈ pre /\ run_matrix.row_of q r) results
    /\ match run_matrix.run_all total ws os ss st0 with
       | (inr (results', _), _) =>
           exists more,
             results' = results ++ more
             /\ Forall (fun r => exists q, q ∈ post /\ run_matrix.row_of q r) more
       | (inl e, _) => e = OSError
       end.
Proof.
  intros Hm Hpre Hrun Hrc.
  pose proof (run_experiment_failed p (n + 1) total st rc out err elapsed w' Hrun Hrc) as Hexp.
  pose proof (run_one_failed total p results n st rc out err elapsed w' Hrun Hrc) as Hone.
  eexists. split; [exact Hexp|].
  split.
  { cbn [trace]. apply elem_of_app. right. by repeat constructor. }
  assert (run_matrix.run_all total ws os ss st0
          = for_ post (run_matrix.run_one total) (results, n + 1)
              (State w'
                 (trace st
                  ++ [ Print (MsgRunHeader (n + 1) total (run_matrix.workload p)
                                (run_matrix.outstanding p) (run_matrix.req_bytes p));
                       Print (MsgCommand (run_matrix.build_cmd p));
                       Exec (run_matrix.build_cmd p) (run_matrix.NS3_ROOT +:+ "/..");
                       Print (MsgRunFailed (CalledProcessError rc out err));
                       Print (MsgRunSkipped (n + 1)) ]))) as Hall.
  { unfold run_matrix.run_all. rewrite main_loops_matrix, Hm, for_app.
    unfold bind at 1. rewrite Hpre. cbn [for_]. unfold bind at 1. by rewrite Hone. }
  split.
  { rewrite Hall. cbn [world trace]. by rewrite <- app_assoc. }
  split.
  { pose proof (run_loop_rows total pre [] 0 st0) as Hrows. rewrite Hpre in Hrows.
    destruct Hrows as (_ & more & -> & Hmore). done. }
  rewrite Hall.
  match goal with |- context [for_ post ?b ?l ?s] =>
    pose proof (run_loop_rows total post results (n + 1) s) as Hrows;
    destruct (for_ post b l s) as [[e|[results' n']] st2]
  end; [done|].
  by destruct Hrows as (_ & more & -> & Hmore); exists more.
Qed.

(** C6 with [Toy.flaky]: of the runs with 1, 8 and 32 outstanding
    requests the second fails and the third is run all the same. *)
Lemma failed_run_skipped_flaky :
  exists st1,
    run_matrix.run_experiment (H := Toy.flaky) (run_matrix.Params "rpc" 8 256 256) 2 3
      (snd (for_ (H := Toy.flaky) [run_matrix.Params "rpc" 1 256 256]
              (run_matrix.run_one 3) ([], 0) (Toy.start Toy.flaky tt)))
    = (inr None, st1)
    /\ run_matrix.run_all (H := Toy.flaky) 3 ["rpc"] [1; 8; 32] [(256, 256)]
         (Toy.start Toy.flaky tt)
       = for_ (H := Toy.flaky) [run_matrix.Params "rpc" 32 256 256] (run_matrix.run_one 3)
           (Toy.flaky_first, 2)
           (State (world st1) (trace st1 ++ [Print (MsgRunSkipped 2)])).
Proof.
  destruct (failed_run_skipped (H := Toy.flaky) 3 ["rpc"] [1; 8; 32] [(256, 256)]
              [run_matrix.Params "rpc" 1 256 256] [run_matrix.Params "rpc" 32 256 256]
              (run_matrix.Params "rpc" 8 256 256) (Toy.start Toy.flaky tt)
              (snd (for_ (H := Toy.flaky) [run_matrix.Params "rpc" 1 256 256]
                      (run_matrix.run_one 3) ([], 0) (Toy.start Toy.flaky tt)))
              Toy.flaky_first 1 2 "" "hd_runner: aborted" "0.1" tt)
    as (st1 & Hexp & _ & Hall & _).
  - reflexivity.
  - vm_compute. reflexivity.
  - vm_compute. reflexivity.
  - lia.
  - exists st1. split; [exact Hexp|exact Hall].
Defined.

(** C9, as stated, on an output whose last line has both markers: the
    output directory is not taken from the last line that contains
    [Results written to:], which would give /b, but from the line
    before. *)
Lemma out_path_not_from_last_marker_line :
  Py.split ("Results written to: /a" +:+ Toy.nl +:+ "Run ID: r Results written to: /b")
           Toy.nl
  = ["Results written to: /a"; "Run ID: r Results written to: /b"]
  /\ Py.contains "Results written to:" "Run ID: r Results written to: /b" = true
  /\ option_map Py.strip
       (nth_error (Py.split "Run ID: r Results written to: /b" "Results written to:") 1)
     = Some "/b"
  /\ run_matrix.scan_stdout
       ("Results written to: /a" +:+ Toy.nl +:+ "Run ID: r Results written to: /b")
     = inr (Some "r Results written to: /b", Some "/a").
Proof. repeat split; by vm_compute. Qed.

(** C9 (amended).  The run identifier is taken from the last line of the
    captured output that contains [Run ID:]: it is the text between the
    first marker of that line and the next one, trimmed.  The output
    directory is taken in the same way from the last line that contains
    [Results written to:] and does not contain [Run ID:]; a line with
    both markers only sets the run identifier.  When, the engine having
    exited with status 0, either value is missing or empty, the run
    prints a warning with the captured output and produces no RunResult,
    whichever of the two it is. *)
Theorem marker_extraction `{Platform} :
  (forall stdout pre line post,
     Py.split stdout (String "010" EmptyString) = pre ++ line :: post ->
     Py.contains "Run ID:" line = true ->
     forallb (fun l => negb (Py.contains "Run ID:" l)) post = true ->
     exists t out_path,
       subscript (Py.split line "Run ID:") 1 = inr t
       /\ run_matrix.scan_stdout stdout = inr (Some (Py.strip t), out_path))
  /\ (forall stdout pre line post,
        Py.split stdout (String "010" EmptyString) = pre ++ line :: post ->
        Py.contains "Run ID:" line = false ->
        Py.contains "Results written to:" line = true ->
        forallb (fun l => Py.contains "Run ID:" l
                          || negb (Py.contains "Results written to:" l)) post = true ->
        exists t run_id,
          subscript (Py.split line "Results written to:") 1 = inr t
          /\ run_matrix.scan_stdout stdout = inr (run_id, Some (Py.strip t)))
  /\ (forall stdout, exists run_id out_path,
        run_matrix.scan_stdout stdout = inr (run_id, out_path))
  /\ (forall p n t st out err elapsed w' run_id out_path,
        subprocess_run (run_matrix.build_cmd p) (run_matrix.NS3_ROOT +:+ "/..") (world st)
        = (Exited 0 out err elapsed, w') ->
        run_matrix.scan_stdout out = inr (run_id, out_path) ->
        run_id = None \/ run_id = Some "" \/ out_path = None \/ out_path = Some "" ->
        run_matrix.run_experiment p n t st
        = (inr None,
           State w'
             (trace st
              ++ [ Print (MsgRunHeader n t (run_matrix.workload p)
                            (run_matrix.outstanding p) (run_matrix.req_bytes p));
                   Print (MsgCommand (run_matrix.build_cmd p));
                   Exec (run_matrix.build_cmd p) (run_matrix.NS3_ROOT +:+ "/..");
                   Print (MsgNoRunId out) ]))).
Proof.
  split; [|split; [|split]].
  - intros stdout pre line post Hlines Hline Hpost.
    destruct (subscript_second (Py.split line "Run ID:")) as [t Ht];
      [by apply split_contains|].
    destruct (scan_lines_total pre (None, None)) as [[r0 o0] Hpre].
    destruct (scan_lines_keeps_run_id post (Some (Py.strip t)) o0 Hpost) as [o1 Hrest].
    exists t, o1. split; [done|].
    unfold run_matrix.scan_stdout. rewrite Hlines, scan_lines_app, Hpre.
    cbn [and_then run_matrix.scan_lines]. unfold run_matrix.marker_line at 1.
    by rewrite Hline, Ht.
  - intros stdout pre line post Hlines Hno Hline Hpost.
    destruct (subscript_second (Py.split line "Results written to:")) as [t Ht];
      [by apply split_contains|].
    destruct (scan_lines_total pre (None, None)) as [[r0 o0] Hpre].
    destruct (scan_lines_keeps_out_path post r0 (Some (Py.strip t)) Hpost) as [r1 Hrest].
    exists t, r1. split; [done|].
    unfold run_matrix.scan_stdout. rewrite Hlines, scan_lines_app, Hpre.
    cbn [and_then run_matrix.scan_lines]. unfold run_matrix.marker_line at 1.
    by rewrite Hno, Hline, Ht.
  - intros stdout. unfold run_matrix.scan_stdout.
    destruct (scan_lines_total (Py.split stdout (String "010" EmptyString)) (None, None))
      as [[r o] E].
    by exists r, o.
  - intros p n t st out err elapsed w' run_id out_path Hrun Hscan Hempty.
    eapply run_experiment_no_markers; [exact Hrun|exact Hscan|].
    destruct Hempty as [-> | [-> | [-> | ->]]]; cbn; by rewrite ?orb_true_r.
Qed.

(** C9 (amended) on an output that names the run twice. *)
Lemma marker_extraction_twice :
  exists out_path,
    run_matrix.scan_stdout
      ("Run ID: r6" +:+ Toy.nl +:+ "Run ID: r7 " +:+ Toy.nl
       +:+ "Results written to: out/sim/r7" +:+ Toy.nl)
    = inr (Some "r7", out_path).
Proof.
  destruct (marker_extraction (H := Toy.idle)) as (Hid & _).
  destruct (Hid ("Run ID: r6" +:+ Toy.nl +:+ "Run ID: r7 " +:+ Toy.nl
                 +:+ "Results written to: out/sim/r7" +:+ Toy.nl)
                ["Run ID: r6"] "Run ID: r7 " ["Results written to: out/sim/r7"; ""])
    as (t & out_path & Ht & Hscan).
  - vm_compute. reflexivity.
  - vm_compute. reflexivity.
  - vm_compute. reflexivity.
  - exists out_path. rewrite Hscan. vm_compute in Ht. by injection Ht as <-.
Defined.

(** * Further properties of the two scripts *)

(** ** The command line of a run *)
Section CommandLine.
Context `{Platform}.
Import run_matrix.

Lemma append_inj_r (s a b : string) : s +:+ a = s +:+ b -> a = b.
Proof. induction s as [|c s IH]; cbn; [done|]. intros [= E]. by apply IH. Qed.

Lemma to_int_not_nil z : Z.to_int z <> Decimal.Pos Decimal.Nil /\ Z.to_int z <> Decimal.Neg Decimal.Nil.
Proof.
  destruct z as [|p|p]; cbn; [done| |].
  - split; [|done]. intros [= E]. pose proof (DecimalPos.Unsigned.to_uint_nonnil p). congruence.
  - split; [done|]. intros [= E]. pose proof (DecimalPos.Unsigned.to_uint_nonnil p). congruence.
Qed.

(** [str] is one-to-one on integers. *)
Lemma str_of_int_inj a b : str_of_int a = str_of_int b -> a = b.
Proof.
  unfold str_of_int. intros E.
  destruct (to_int_not_nil a) as [Ha1 Ha2]. destruct (to_int_not_nil b) as [Hb1 Hb2].
  pose proof (NilZero.isi _ Ha1 Ha2) as Ia. pose proof (NilZero.isi _ Hb1 Hb2) as Ib.
  rewrite E in Ia. rewrite Ia in Ib. injection Ib as Ib.
  rewrite <- (DecimalZ.of_to a), <- (DecimalZ.of_to b). by rewrite Ib.
Qed.

Lemma build_cmd_inj p q : build_cmd p = build_cmd q -> p = q.
Proof.
  unfold build_cmd. intros E.
  injection E as Ew Eo Erq Ers.
  apply append_inj_r in Ew, Eo, Erq, Ers.
  apply str_of_int_inj in Eo, Erq, Ers.
  destruct p, q; cbn in *. by subst.
Qed.

End CommandLine.

(** X1.  Two parameter sets that differ are run with command lines that
    differ: the command line tells the workload, the number of
    outstanding requests and both sizes. *)
Theorem build_cmd_distinct `{Platform} (p q : run_matrix.ParameterSet) :
  p <> q -> run_matrix.build_cmd p <> run_matrix.build_cmd q.
Proof. intros Hpq E. by apply Hpq, build_cmd_inj. Qed.

(** X1 on two parameter sets that differ in the response size only. *)
Lemma build_cmd_distinct_sizes :
  run_matrix.build_cmd (H := Toy.idle) (run_matrix.Params "rpc" 8 1024 256)
  <> run_matrix.build_cmd (H := Toy.idle) (run_matrix.Params "rpc" 8 1024 1024).
Proof. apply (build_cmd_distinct (H := Toy.idle)). intros [=]. Defined.

(** ** Live mode: rows, their order, and how [main] ends *)
Section LiveRows.
Context `{Platform}.
Import run_matrix.

Lemma live_row_cells r :
  live_row r -> dict_to_list fieldnames r = inr (cells fieldnames r).
Proof. intros (?&?&?&?&?&?&?&?&?&?&?& ->). reflexivity. Qed.

Lemma live_row_table r st :
  live_row r ->
  table_row r st = (inr tt, State (world st) (trace st ++ [table_line r])).
Proof. intros (?&?&?&?&?&?&?&?&?&?&?& ->). reflexivity. Qed.

Lemma live_rows_written (results : list dict) :
  Forall live_row results ->
  writerows fieldnames results = (map (cells fieldnames) results, None).
Proof.
  induction 1 as [|r rs Hr _ IH]; [done|].
  cbn [writerows]. by rewrite (live_row_cells r Hr), IH.
Qed.

Lemma table_rows_printed (rows : list dict) st :
  Forall (fun r => forall st, table_row r st
                   = (inr tt, State (world st) (trace st ++ [table_line r]))) rows ->
  for_ rows (fun r _ => table_row r) tt st
  = (inr tt, State (world st) (trace st ++ map table_line rows)).
Proof.
  intros Hall. revert st. induction Hall as [|r rs Hr _ IH]; intros st.
  { cbn. rewrite app_nil_r. by destruct st. }
  cbn [for_ map]. unfold bind. rewrite Hr, IH. cbn [world trace].
  by rewrite <- app_assoc.
Qed.

Lemma live_table_printed (results : list dict) st :
  Forall live_row results ->
  print_table results st
  = (inr tt,
     State (world st)
       (trace st ++ [Print MsgTableHeader] ++ map table_line results ++ [Print MsgTableEnd])).
Proof.
  intros Hall. unfold print_table, print. rewrite bind_emit. unfold bind.
  rewrite table_rows_printed.
  - cbv [emit]. cbn [world trace]. by rewrite <- !app_assoc.
  - eapply Forall_impl; [exact Hall|]. intros r Hr st'. by apply live_row_table.
Qed.

(** A run that returns a row returns one of the shape of live mode, with
    the parameters of the run. *)
Lemma run_experiment_row p n t st r st' :
  run_experiment p n t st = (inr (Some r), st') -> live_row r /\ row_of p r.
Proof.
  destruct (subprocess_run (build_cmd p) (NS3_ROOT +:+ "/..") (world st))
    as [[rc out err elapsed|] w'] eqn:Hrun.
  2:{ by rewrite (run_experiment_not_started p n t st w' Hrun). }
  destruct (decide (rc = 0)) as [->|Hrc].
  2:{ by rewrite (run_experiment_failed p n t st rc out err elapsed w' Hrun Hrc). }
  destruct (scan_lines_total (Py.split out (String "010" EmptyString)) (None, None))
    as [[run_id out_path] Hscan].
  destruct (falsy run_id || falsy out_path) eqn:Hf.
  { by rewrite (run_experiment_no_markers p n t st out err elapsed w' _ _ Hrun Hscan Hf). }
  apply orb_false_iff in Hf as [Hf1 Hf2].
  destruct run_id as [run_id|]; [|done]. destruct out_path as [out_path|]; [|done].
  cbn in Hf1, Hf2. apply String.eqb_neq in Hf1, Hf2.
  destruct (run_experiment_completed p n t st out err elapsed w' run_id out_path)
    as (a & b & c & d & st'' & _ & E); try done.
  rewrite E. intros [= <- <-]. split; [|by repeat split].
  by exists run_id, (workload p), (outstanding p), (req_bytes p), (rsp_bytes p),
            a, b, c, d, out_path, elapsed.
Qed.

Lemma run_one_steps t p results n st :
  match run_one t p (results, n) st with
  | (inr (results', n'), _) =>
      n' = n + 1
      /\ (results' = results
          \/ exists r, results' = results ++ [r] /\ live_row r /\ row_of p r)
  | (inl e, _) => e = OSError
  end.
Proof.
  unfold run_one, bind.
  destruct (run_experiment_cases p (n + 1) t st)
    as [[st' E]|[[st' E]|(r & st' & out & err & el & w' & E & _)]].
  - by rewrite E.
  - rewrite E. cbn. split; [done|by left].
  - pose proof (run_experiment_row _ _ _ _ _ _ E) as [Hl Hr]. rewrite E. cbn.
    split; [done|]. right. by exists r.
Qed.

(** The rows gathered by the loop are rows of parameter sets met in the
    order of the loop, at most one for each. *)
Lemma run_loop_order t ps results n st :
  match for_ ps (run_one t) (results, n) st with
  | (inr (results', n'), _) =>
      n' = n + Z.of_nat (length ps)
      /\ exists qs more,
           results' = results ++ more
           /\ sublist qs ps /\ Forall2 row_of qs more /\ Forall live_row more
  | (inl e, _) => e = OSError
  end.
Proof.
  revert results n st. induction ps as [|p ps IH]; intros results n st.
  { cbn. split; [lia|]. exists [], []. rewrite app_nil_r. by repeat constructor. }
  cbn [for_]. unfold bind. pose proof (run_one_steps t p results n st) as Hstep.
  destruct (run_one t p (results, n) st) as [[e|[results1 n1]] st1]; [done|].
  destruct Hstep as [-> Hres]. specialize (IH results1 (n + 1) st1).
  destruct (for_ ps (run_one t) (results1, n + 1) st1) as [[e|[results2 n2]] st2]; [done|].
  destruct IH as (-> & qs & more & -> & Hsub & Hrows & Hlive).
  split; [cbn [length]; lia|].
  destruct Hres as [->|(r & -> & Hl & Hr)].
  - exists qs, more. split; [done|]. split; [by constructor|done].
  - exists (p :: qs), (r :: more). split; [by rewrite <- app_assoc|].
    split; [by constructor|]. split; by constructor.
Qed.

Lemma run_all_order t ws os ss st :
  match run_all t ws os ss st with
  | (inr (results, n), _) =>
      n = Z.of_nat (length ws * length os * length ss)
      /\ exists qs, sublist qs (matrix ws os ss)
                    /\ Forall2 row_of qs results /\ Forall live_row results
  | (inl e, _) => e = OSError
  end.
Proof.
  unfold run_all. rewrite main_loops_matrix.
  pose proof (run_loop_order t (matrix ws os ss) [] 0 st) as Hloop.
  destruct (for_ _ _ _ st) as [[e|[results n]] st1]; [done|].
  destruct Hloop as (-> & qs & more & -> & Hsub & Hrows & Hlive).
  rewrite length_matrix. split; [lia|]. by exists qs.
Qed.

Lemma finish_rows t (results : list dict) st :
  results <> [] -> Forall live_row results ->
  finish t results st
  = (inr tt,
     State (world st)
       (trace st
        ++ [ WriteCsv (Py.path_join OUT_DIR "manifest.csv")
               (Manifest fieldnames (map (cells fieldnames) results));
             Print (MsgManifestWritten (Py.path_join OUT_DIR "manifest.csv"));
             Print (MsgMatrixComplete (Z.of_nat (length results)) t OUT_DIR);
             Print MsgTableHeader ]
        ++ map table_line results ++ [Print MsgTableEnd])).
Proof.
  intros Hne Hlive. destruct results as [|r rs]; [done|].
  unfold finish, write_manifest, write_csv. rewrite (live_rows_written _ Hlive).
  cbv beta iota. unfold print. cbv [bind emit ret]. cbn [world trace].
  rewrite (live_table_printed _ _ Hlive). cbn [world trace].
  by rewrite <- !app_assoc.
Qed.

Lemma emits_run_all_quiet t ws os ss : emits quiet_event (run_all t ws os ss).
Proof. by apply emits_run_all. Qed.

End LiveRows.

Section LiveEnds.
Context `{Platform}.
Import run_matrix.

Lemma run_one_not_started t p results n st w' :
  subprocess_run (build_cmd p) (NS3_ROOT +:+ "/..") (world st) = (NotStarted, w') ->
  run_one t p (results, n) st
  = (inl OSError,
     State w' (trace st
               ++ [ Print (MsgRunHeader (n + 1) t (workload p) (outstanding p) (req_bytes p));
                    Print (MsgCommand (build_cmd p));
                    Exec (build_cmd p) (NS3_ROOT +:+ "/..") ])).
Proof.
  intros Hrun. unfold run_one, bind.
  by rewrite (run_experiment_not_started p (n + 1) t st w' Hrun).
Qed.

Lemma flat_map_nil {A B} (l : list A) : flat_map (fun _ : A => @nil B) l = [].
Proof. by induction l. Qed.

Lemma matrix_empty ws os ss :
  ws = [] \/ os = [] \/ ss = [] -> matrix ws os ss = [].
Proof.
  unfold matrix. intros [->|[->| ->]]; [done| |].
  - cbn. apply flat_map_nil.
  - cbn. erewrite flat_map_ext; [apply flat_map_nil|]. intros w. cbn. apply flat_map_nil.
Qed.

End LiveEnds.

(** X2.  When the engine cannot be started for a parameter set, the
    exception is not the one [run_experiment] catches: it leaves [main]
    at once.  The parameter sets that follow are not run, no manifest is
    written, and the process ends with status 1. *)
Theorem engine_not_started_aborts `{Platform} (ws : list string) (os : list Z)
    (ss : list (Z * Z)) (pre post : list run_matrix.ParameterSet)
    (p : run_matrix.ParameterSet) (st st1 : state) (results : list dict) (n : Z)
    (w' : World) :
  run_matrix.matrix ws os ss = pre ++ p :: post ->
  for_ pre
    (run_matrix.run_one (Z.of_nat (length ws) * Z.of_nat (length os) * Z.of_nat (length ss)))
    ([], 0) (run_matrix.started ws os ss st)
  = (inr (results, n), st1) ->
  subprocess_run (run_matrix.build_cmd p) (run_matrix.NS3_ROOT +:+ "/..") (world st1)
  = (NotStarted, w') ->
  run_matrix.main_with ws os ss st
  = (inl OSError,
     State w'
       (trace st1
        ++ [ Print (MsgRunHeader (n + 1)
                      (Z.of_nat (length ws) * Z.of_nat (length os) * Z.of_nat (length ss))
                      (run_matrix.workload p) (run_matrix.outstanding p)
                      (run_matrix.req_bytes p));
             Print (MsgCommand (run_matrix.build_cmd p));
             Exec (run_matrix.build_cmd p) (run_matrix.NS3_ROOT +:+ "/..") ]))
  /\ exit_status (fst (run_matrix.main_with ws os ss st)) = 1
  /\ exists tail, trace st1 = trace st ++ tail /\ Forall quiet_event tail.
Proof.
  intros Hm Hpre Hrun.
  assert (run_matrix.main_with ws os ss st
          = (inl OSError,
             State w'
               (trace st1
                ++ [ Print (MsgRunHeader (n + 1)
                              (Z.of_nat (length ws) * Z.of_nat (length os)
                               * Z.of_nat (length ss))
                              (run_matrix.workload p) (run_matrix.outstanding p)
                              (run_matrix.req_bytes p));
                     Print (MsgCommand (run_matrix.build_cmd p));
                     Exec (run_matrix.build_cmd p) (run_matrix.NS3_ROOT +:+ "/..") ])))
    as Hmain.
  { rewrite main_with_started. unfold bind at 1, run_matrix.run_all.
    rewrite main_loops_matrix, Hm, for_app. unfold bind at 1. rewrite Hpre.
    cbn [for_]. unfold bind at 1. by rewrite (run_one_not_started _ _ _ _ _ _ Hrun). }
  split; [exact Hmain|]. split; [by rewrite Hmain|].
  assert (emits quiet_event
            (for_ pre (run_matrix.run_one
                         (Z.of_nat (length ws) * Z.of_nat (length os) * Z.of_nat (length ss)))
               ([], 0))) as Hquiet.
  { apply emits_for. intros q loc. by apply emits_run_one. }
  destruct (Hquiet (run_matrix.started ws os ss st)) as (tail & E & F).
  rewrite Hpre in E. cbn [snd] in E.
  eexists. split.
  - rewrite E. unfold run_matrix.started. cbn [trace]. rewrite <- app_assoc. reflexivity.
  - apply Forall_app. split; [by repeat constructor|done].
Qed.

(** X2 on the baseline matrix with an engine that cannot be started:
    the first run is the last. *)
Lemma engine_not_started_aborts_idle :
  exit_status (fst (run_matrix.main (H := Toy.idle) (Toy.start Toy.idle tt))) = 1
  /\ length (filter (fun ev => is_exec ev = true)
               (trace (snd (run_matrix.main (H := Toy.idle) (Toy.start Toy.idle tt)))))
     = 1%nat.
Proof.
  destruct (engine_not_started_aborts (H := Toy.idle)
              run_matrix.WORKLOADS run_matrix.OUTSTANDING run_matrix.SIZES
              [] (tail (run_matrix.matrix run_matrix.WORKLOADS run_matrix.OUTSTANDING
                          run_matrix.SIZES))
              (run_matrix.Params "pingpong" 1 256 256)
              (Toy.start Toy.idle tt)
              (run_matrix.started (H := Toy.idle) run_matrix.WORKLOADS run_matrix.OUTSTANDING
                 run_matrix.SIZES (Toy.start Toy.idle tt))
              [] 0 tt) as (Hmain & Hexit & _).
  - reflexivity.
  - reflexivity.
  - reflexivity.
  - split; [exact Hexit|]. unfold run_matrix.main. rewrite Hmain. vm_compute. reflexivity.
Defined.

(** X3.  When the loops end with at least one row, [main] writes one
    manifest whose data rows are the cells of the rows gathered, in the
    order in which they were gathered, prints the table of the same rows
    and returns: the status is 0.  Each row has a value for each of the
    fifteen columns. *)
Theorem live_success `{Platform} (ws : list string) (os : list Z) (ss : list (Z * Z))
    (st st1 : state) (results : list dict) (n : Z) :
  run_matrix.run_all
    (Z.of_nat (length ws) * Z.of_nat (length os) * Z.of_nat (length ss)) ws os ss
    (run_matrix.started ws os ss st)
  = (inr (results, n), st1) ->
  results <> [] ->
  run_matrix.main_with ws os ss st
  = (inr tt,
     State (world st1)
       (trace st1
        ++ [ WriteCsv (Py.path_join run_matrix.OUT_DIR "manifest.csv")
               (Manifest run_matrix.fieldnames
                  (map (cells run_matrix.fieldnames) results));
             Print (MsgManifestWritten (Py.path_join run_matrix.OUT_DIR "manifest.csv"));
             Print (MsgMatrixComplete (Z.of_nat (length results))
                      (Z.of_nat (length ws) * Z.of_nat (length os) * Z.of_nat (length ss))
                      run_matrix.OUT_DIR);
             Print MsgTableHeader ]
        ++ map table_line results ++ [Print MsgTableEnd]))
  /\ exit_status (fst (run_matrix.main_with ws os ss st)) = 0
  /\ Forall live_row results.
Proof.
  intros Hall Hne.
  pose proof (run_all_order
    (Z.of_nat (length ws) * Z.of_nat (length os) * Z.of_nat (length ss)) ws os ss
    (run_matrix.started ws os ss st)) as Hrows.
  rewrite Hall in Hrows. destruct Hrows as (_ & qs & _ & _ & Hlive).
  assert (run_matrix.main_with ws os ss st = run_matrix.finish
            (Z.of_nat (length ws) * Z.of_nat (length os) * Z.of_nat (length ss))
            results st1) as Hmain.
  { rewrite main_with_started. unfold bind at 1. by rewrite Hall. }
  rewrite Hmain, (finish_rows _ _ _ Hne Hlive). done.
Qed.

(** X3 on [Toy.flaky]: two of three runs give a row. *)
Lemma live_success_flaky :
  exit_status (fst (run_matrix.main_with (H := Toy.flaky) ["rpc"] [1; 8; 32] [(256, 256)]
                      (Toy.start Toy.flaky tt))) = 0
  /\ length flaky_results = 2%nat
  /\ Forall live_row flaky_results.
Proof.
  destruct (live_success (H := Toy.flaky) ["rpc"] [1; 8; 32] [(256, 256)]
              (Toy.start Toy.flaky tt) (snd flaky_run) flaky_results 3)
    as (_ & Hexit & Hlive).
  - vm_compute. reflexivity.
  - vm_compute. discriminate.
  - split; [exact Hexit|]. split; [vm_compute; reflexivity|exact Hlive].
Defined.

(** X4.  The rows that the loops gather follow the matrix: they are the
    rows of some of its parameter sets, one row for each of these, in the
    order of the matrix; the run counter has then counted every parameter
    set, whether its run gave a row or not. *)
Theorem live_rows_follow_matrix `{Platform} (total : Z) (ws : list string) (os : list Z)
    (ss : list (Z * Z)) (st st1 : state) (results : list dict) (n : Z) :
  run_matrix.run_all total ws os ss st = (inr (results, n), st1) ->
  n = Z.of_nat (length ws * length os * length ss)
  /\ (length results <= length ws * length os * length ss)%nat
  /\ exists qs,
       sublist qs (run_matrix.matrix ws os ss)
       /\ Forall2 run_matrix.row_of qs results.
Proof.
  intros Hall. pose proof (run_all_order total ws os ss st) as Hrows.
  rewrite Hall in Hrows. destruct Hrows as (-> & qs & Hsub & Hrows & _).
  split; [done|]. split; [|by exists qs].
  rewrite <- (Forall2_length _ _ _ Hrows), <- length_matrix.
  by apply sublist_length.
Qed.

(** X4 on [Toy.flaky]: the rows are those of the first and of the third
    parameter set. *)
Lemma live_rows_follow_matrix_flaky :
  exists qs,
    sublist qs (run_matrix.matrix ["rpc"] [1; 8; 32] [(256, 256)])
    /\ Forall2 run_matrix.row_of qs flaky_results.
Proof.
  destruct (live_rows_follow_matrix (H := Toy.flaky) 3 ["rpc"] [1; 8; 32] [(256, 256)]
              (run_matrix.started (H := Toy.flaky) ["rpc"] [1; 8; 32] [(256, 256)]
                 (Toy.start Toy.flaky tt))
              (snd flaky_run) flaky_results 3) as (_ & _ & Hqs).
  - vm_compute. reflexivity.
  - exact Hqs.
Defined.

(** X5.  With a dimension list that is empty there is nothing to run:
    [main] announces 0 runs, calls the engine not once, prints that no
    run succeeded and exits with status 1. *)
Theorem empty_dimension_exits `{Platform} (ws : list string) (os : list Z)
    (ss : list (Z * Z)) (st : state) :
  ws = [] \/ os = [] \/ ss = [] ->
  run_matrix.main_with ws os ss st
  = (inl (SystemExit 1),
     State (world st)
       (trace st
        ++ [ Print MsgBanner;
             Print (MsgTotalRuns 0);
             Print (MsgDimensions ws os ss);
             MakeDirs run_matrix.OUT_DIR;
             Print MsgNoSuccess ])).
Proof.
  intros Hempty. rewrite main_with_started. unfold bind at 1, run_matrix.run_all.
  rewrite main_loops_matrix, (matrix_empty ws os ss Hempty). cbn [for_ ret].
  rewrite finish_empty. unfold run_matrix.started. cbn [world trace].
  assert (Z.of_nat (length ws) * Z.of_nat (length os) * Z.of_nat (length ss) = 0) as ->.
  { destruct Hempty as [->|[->| ->]]; cbn [length]; lia. }
  by rewrite <- app_assoc.
Qed.

(** X5 with no level of outstanding requests, on a platform whose engine
    could not be started anyway. *)
Lemma empty_dimension_exits_no_outstanding :
  exit_status (fst (run_matrix.main_with (H := Toy.idle) ["rpc"] [] [(256, 256)]
                      (Toy.start Toy.idle tt))) = 1.
Proof.
  rewrite (empty_dimension_exits (H := Toy.idle) ["rpc"] [] [(256, 256)]
             (Toy.start Toy.idle tt)); [reflexivity|].
  right. left. reflexivity.
Defined.

(** X6.  Live mode writes a manifest if and only if it exits with status
    0: an execution either writes exactly one manifest, which has at
    least one data row, and exits with 0, or writes none and exits with
    1.  It never leaves a manifest that holds the header only. *)
Theorem live_manifest_iff_exit_zero `{Platform} (ws : list string) (os : list Z)
    (ss : list (Z * Z)) (st : state) :
  exists tail,
    trace (snd (run_matrix.main_with ws os ss st)) = trace st ++ tail
    /\ ((exit_status (fst (run_matrix.main_with ws os ss st)) = 0
         /\ exists before path mf after,
              tail = before ++ [WriteCsv path mf] ++ after
              /\ Forall quiet_event before /\ Forall quiet_event after
              /\ rows mf <> [])
        \/ (exit_status (fst (run_matrix.main_with ws os ss st)) = 1
            /\ Forall quiet_event tail)).
Proof.
  pose proof (run_all_order
    (Z.of_nat (length ws) * Z.of_nat (length os) * Z.of_nat (length ss)) ws os ss
    (run_matrix.started ws os ss st)) as Hrows.
  destruct (emits_run_all_quiet
    (Z.of_nat (length ws) * Z.of_nat (length os) * Z.of_nat (length ss)) ws os ss
    (run_matrix.started ws os ss st)) as (loop & E & F).
  rewrite main_with_started.
  destruct (run_matrix.run_all _ ws os ss _) as [[e|[results n]] st1] eqn:Hall;
    cbn [snd] in E; unfold bind; rewrite Hall.
  - rewrite Hrows. eexists. split; [cbn [snd]; rewrite E; unfold run_matrix.started; cbn [trace];
                              rewrite <- app_assoc; reflexivity|].
    right. split; [reflexivity|]. apply Forall_app. split; [by repeat constructor|done].
  - destruct Hrows as (_ & qs & _ & _ & Hlive). destruct results as [|r rs].
    + rewrite finish_empty. eexists.
      split; [cbn [snd trace]; rewrite E; unfold run_matrix.started; cbn [trace];
              rewrite <- !app_assoc; reflexivity|].
      right. split; [reflexivity|].
      apply Forall_app. split; [by repeat constructor|].
      apply Forall_app. split; [done|by repeat constructor].
    + rewrite (finish_rows _ (r :: rs) st1 ltac:(done) Hlive). eexists.
      split; [cbn [snd trace]; rewrite E; unfold run_matrix.started; cbn [trace];
              rewrite <- !app_assoc; reflexivity|].
      left. split; [reflexivity|].
      eexists (_ :: _ :: _ :: _ :: loop), _, _, _. split; [cbn [app]; reflexivity|].
      split; [by repeat constructor|]. split; [|done].
      repeat constructor. apply Forall_app. split; [|by repeat constructor].
      apply Forall_forall. intros ev (r' & -> & _)%list_elem_of_fmap. done.
Qed.

(** ** Live mode: the calls of the engine *)
Section EngineCalls.
Context `{Platform}.
Import run_matrix.

Lemma engine_calls_app l1 l2 : engine_calls (l1 ++ l2) = engine_calls l1 ++ engine_calls l2.
Proof. apply omap_app. Qed.

Lemma engine_calls_prints l :
  Forall (fun ev => match ev with Exec _ _ => False | _ => True end) l ->
  engine_calls l = [].
Proof. induction 1 as [|ev l Hev _ IH]; [done|]. by destruct ev. Qed.

Lemma run_experiment_calls p n t st :
  exists tail,
    trace (snd (run_experiment p n t st)) = trace st ++ tail
    /\ engine_calls tail = [(build_cmd p, NS3_ROOT +:+ "/..")].
Proof.
  destruct (subprocess_run (build_cmd p) (NS3_ROOT +:+ "/..") (world st))
    as [[rc out err elapsed|] w'] eqn:Hrun.
  2:{ rewrite (run_experiment_not_started p n t st w' Hrun). by eexists. }
  destruct (decide (rc = 0)) as [->|Hrc].
  2:{ rewrite (run_experiment_failed p n t st rc out err elapsed w' Hrun Hrc). by eexists. }
  destruct (scan_lines_total (Py.split out (String "010" EmptyString)) (None, None))
    as [[run_id out_path] Hscan].
  destruct (falsy run_id || falsy out_path) eqn:Hf.
  { rewrite (run_experiment_no_markers p n t st out err elapsed w' _ _ Hrun Hscan Hf).
    by eexists. }
  apply orb_false_iff in Hf as [Hf1 Hf2].
  destruct run_id as [run_id|]; [|done]. destruct out_path as [out_path|]; [|done].
  cbn in Hf1, Hf2. apply String.eqb_neq in Hf1, Hf2.
  destruct (run_experiment_completed p n t st out err elapsed w' run_id out_path)
    as (a & b & c & d & st' & Hstats & E); try done.
  rewrite E. cbn [snd].
  match type of Hstats with extract_stats ?path ?s = _ =>
    destruct (emits_extract_stats
                (fun ev => match ev with Exec _ _ => False | _ => True end)
                ltac:(done) path s) as (tail & Et & Ft)
  end.
  rewrite Hstats in Et. cbn [snd trace] in Et. rewrite Et, <- app_assoc.
  eexists. split; [reflexivity|].
  rewrite engine_calls_app, (engine_calls_prints tail Ft). reflexivity.
Qed.

Lemma run_one_calls t p loc st :
  exists tail,
    trace (snd (run_one t p loc st)) = trace st ++ tail
    /\ engine_calls tail = [(build_cmd p, NS3_ROOT +:+ "/..")].
Proof.
  destruct loc as [results n]. unfold run_one, bind.
  destruct (run_experiment_calls p (n + 1) t st) as (tail & E & Hc).
  destruct (run_experiment p (n + 1) t st) as [[e|[r|]] st']; cbn [snd] in *.
  - by exists tail.
  - by exists tail.
  - exists (tail ++ [Print (MsgRunSkipped (n + 1))]).
    cbv [print emit ret]. cbn [snd trace].
    rewrite E, <- app_assoc, engine_calls_app, Hc. done.
Qed.

(** The loop calls the engine once for each parameter set it gets to,
    in their order; it gets to all of them unless an exception stopped
    it. *)
Lemma run_loop_calls t ps loc st :
  exists tail k,
    trace (snd (for_ ps (run_one t) loc st)) = trace st ++ tail
    /\ engine_calls tail = map (fun p => (build_cmd p, NS3_ROOT +:+ "/..")) (take k ps)
    /\ (k <= length ps)%nat
    /\ (forall r, fst (for_ ps (run_one t) loc st) = inr r -> k = length ps).
Proof.
  revert loc st. induction ps as [|p ps IH]; intros loc st.
  { exists [], O. cbn. by rewrite app_nil_r. }
  cbn [for_]. unfold bind.
  destruct (run_one_calls t p loc st) as (tail1 & E1 & C1).
  destruct (run_one t p loc st) as [[e|loc1] st1]; cbn [snd] in E1.
  - exists tail1, 1%nat. cbn [take map length fst snd]. rewrite take_0.
    repeat split; [done|done|lia|done].
  - destruct (IH loc1 st1) as (tail2 & k & E2 & C2 & Hk & Hall).
    exists (tail1 ++ tail2), (S k). cbn [take map length].
    rewrite E2, E1, <- app_assoc, engine_calls_app, C1, C2.
    repeat split; [lia|]. intros r Hr. f_equal. by eapply Hall.
Qed.

Lemma emits_finish (P : event -> Prop) t results :
  (forall m, P (Print m)) -> (forall path mf, P (WriteCsv path mf)) ->
  emits P (finish t results).
Proof.
  intros Hp Hw. unfold finish, write_manifest, write_csv.
  destruct results as [|r rs]; [emits_tac; apply Hp|].
  destruct (writerows fieldnames (r :: rs)) as [written e].
  emits_tac; first [apply Hp | apply Hw | by apply emits_print_table].
Qed.

Lemma fmap_inj_NoDup {A B} (f : A -> B) (l : list A) :
  (forall x y, f x = f y -> x = y) -> NoDup l -> NoDup (map f l).
Proof.
  intros Hf. induction 1 as [|x l Hx _ IH]; cbn; constructor; [|done].
  intros (y & Hxy & Hy)%list_elem_of_fmap. apply Hf in Hxy. by subst.
Qed.

Lemma NoDup_take {A} (l : list A) k : NoDup l -> NoDup (take k l).
Proof.
  intros Hl. rewrite <- (take_drop k l) in Hl. by apply NoDup_app in Hl as [? _].
Qed.

End EngineCalls.

(** The calls of the engine over one execution of [main]. *)
Lemma main_with_calls `{Platform} (ws : list string) (os : list Z)
    (ss : list (Z * Z)) (st : state) :
  exists tail k,
    trace (snd (run_matrix.main_with ws os ss st)) = trace st ++ tail
    /\ engine_calls tail
       = map (fun p => (run_matrix.build_cmd p, run_matrix.NS3_ROOT +:+ "/.."))
             (take k (run_matrix.matrix ws os ss))
    /\ (k <= length (run_matrix.matrix ws os ss))%nat
    /\ (fst (run_matrix.main_with ws os ss st) <> inl OSError ->
        k = length (run_matrix.matrix ws os ss)).
Proof.
  rewrite main_with_started. unfold bind, run_matrix.run_all. rewrite main_loops_matrix.
  destruct (run_loop_calls
              (Z.of_nat (length ws) * Z.of_nat (length os) * Z.of_nat (length ss))
              (run_matrix.matrix ws os ss) ([], 0) (run_matrix.started ws os ss st))
    as (tail & k & E & C & Hk & Hall).
  pose proof (run_loop_order
              (Z.of_nat (length ws) * Z.of_nat (length os) * Z.of_nat (length ss))
              (run_matrix.matrix ws os ss) [] 0 (run_matrix.started ws os ss st)) as Hloop.
  destruct (for_ (run_matrix.matrix ws os ss) _ _ _) as [[e|[results n]] st1];
    cbn [fst snd] in *.
  - subst e. eexists _, k. unfold run_matrix.started in E. cbn [trace] in E.
    rewrite E, <- app_assoc. split; [reflexivity|].
    rewrite engine_calls_app, C. by repeat split.
  - destruct (emits_finish (fun ev => match ev with Exec _ _ => False | _ => True end)
                (Z.of_nat (length ws) * Z.of_nat (length os) * Z.of_nat (length ss))
                results ltac:(done) ltac:(done) st1) as (tail2 & E2 & F2).
    eexists _, k. unfold run_matrix.started in E. cbn [trace] in E.
    rewrite E2, E, <- !app_assoc. split; [reflexivity|].
    rewrite !engine_calls_app, C, (engine_calls_prints tail2 F2), app_nil_r.
    repeat split; [done|]. intros _. by eapply Hall.
Qed.

(** X7.  Live mode calls the engine once for each parameter set it gets
    to, in the order of the matrix, with the command line of that
    parameter set and the directory above the script as working
    directory, and calls nothing else.  It gets to every parameter set
    unless a run could not be started. *)
Theorem engine_calls_follow_matrix `{Platform} (ws : list string) (os : list Z)
    (ss : list (Z * Z)) (st : state) :
  exists tail k,
    trace (snd (run_matrix.main_with ws os ss st)) = trace st ++ tail
    /\ engine_calls tail
       = map (fun p => (run_matrix.build_cmd p, run_matrix.NS3_ROOT +:+ "/.."))
             (take k (run_matrix.matrix ws os ss))
    /\ (k <= length (run_matrix.matrix ws os ss))%nat
    /\ (fst (run_matrix.main_with ws os ss st) <> inl OSError ->
        k = length (run_matrix.matrix ws os ss)).
Proof. apply main_with_calls. Qed.

(** X8.  When no dimension list names a level twice, live mode never
    runs the same command twice. *)
Theorem no_command_twice `{Platform} (ws : list string) (os : list Z)
    (ss : list (Z * Z)) (st : state) :
  NoDup ws -> NoDup os -> NoDup ss ->
  exists tail,
    trace (snd (run_matrix.main_with ws os ss st)) = trace st ++ tail
    /\ NoDup (engine_calls tail).
Proof.
  intros Hw Ho Hs.
  destruct (main_with_calls ws os ss st) as (tail & k & E & C & _).
  exists tail. split; [done|]. rewrite C.
  apply fmap_inj_NoDup.
  - intros p q Hpq. apply build_cmd_inj. exact (f_equal fst Hpq).
  - apply NoDup_take. by apply NoDup_matrix.
Qed.

(** X8 on the baseline matrix with the engine of [Toy.failing]: 18
    calls, all different. *)
Lemma no_command_twice_baseline :
  length (engine_calls
            (trace (snd (run_matrix.main (H := Toy.failing) (Toy.start Toy.failing tt)))))
  = 18%nat
  /\ NoDup (engine_calls
              (trace (snd (run_matrix.main (H := Toy.failing) (Toy.start Toy.failing tt))))).
Proof.
  split; [vm_compute; reflexivity|].
  destruct (no_command_twice (H := Toy.failing)
              run_matrix.WORKLOADS run_matrix.OUTSTANDING run_matrix.SIZES
              (Toy.start Toy.failing tt)) as (tail & E & Hnd).
  - apply (bool_decide_unpack _). vm_compute. reflexivity.
  - apply (bool_decide_unpack _). vm_compute. reflexivity.
  - apply (bool_decide_unpack _). vm_compute. reflexivity.
  - unfold run_matrix.main. rewrite E. exact Hnd.
Defined.

(** X9.  In live mode a run that completed counts as successful also
    when its summary cannot be read: the row is built all the same, with
    0 for the three percentiles and for the count, after a warning. *)
Theorem live_unreadable_summary_row `{Platform} (p : run_matrix.ParameterSet) (n t : Z)
    (st : state) (out err elapsed : string) (w' : World) (run_id out_path : string) :
  subprocess_run (run_matrix.build_cmd p) (run_matrix.NS3_ROOT +:+ "/..") (world st)
  = (Exited 0 out err elapsed, w') ->
  run_matrix.scan_stdout out = inr (Some run_id, Some out_path) ->
  run_id <> "" -> out_path <> "" ->
  read_text (Py.path_join out_path "summary.txt") w' = None ->
  run_matrix.run_experiment p n t st
  = (inr (Some
       [ ("run_id", PStr run_id);
         ("workload", PStr (run_matrix.workload p));
         ("outstanding", PInt (run_matrix.outstanding p));
         ("req_bytes", PInt (run_matrix.req_bytes p));
         ("rsp_bytes", PInt (run_matrix.rsp_bytes p));
         ("linkRate", PStr run_matrix.LINK_RATE);
         ("linkDelay", PStr run_matrix.LINK_DELAY);
         ("mtu", PInt run_matrix.MTU);
         ("qdisc", PStr run_matrix.QDISC);
         ("p50_ns", PInt 0);
         ("p95_ns", PInt 0);
         ("p99_ns", PInt 0);
         ("completed", PInt 0);
         ("out_dir", PStr out_path);
         ("elapsed_s", PStr elapsed) ]),
     State w'
       (trace st
        ++ [ Print (MsgRunHeader n t (run_matrix.workload p) (run_matrix.outstanding p)
                      (run_matrix.req_bytes p));
             Print (MsgCommand (run_matrix.build_cmd p));
             Exec (run_matrix.build_cmd p) (run_matrix.NS3_ROOT +:+ "/..");
             Print (MsgRunCompleted elapsed run_id out_path);
             Print (MsgSummaryWarning OSError) ])).
Proof.
  intros Hrun Hscan Hid Hout Hread.
  destruct (run_experiment_completed p n t st out err elapsed w' run_id out_path)
    as (a & b & c & d & st' & Hstats & E); try done.
  rewrite extract_stats_unreadable in Hstats by done.
  injection Hstats as <- <- <- <- <-. rewrite E. cbn [world trace].
  by rewrite <- app_assoc.
Qed.

(** X9 on an engine whose result directory holds nothing. *)
Lemma live_unreadable_summary_row_no_artifacts :
  option_map (fun r => (dict_get "p50_ns" r, dict_get "completed" r, dict_get "out_dir" r))
    (match fst (run_matrix.run_experiment (H := no_artifacts)
                  (run_matrix.Params "rpc" 8 256 256) 1 18 (Toy.start no_artifacts tt)) with
     | inr r => r
     | inl _ => None
     end)
  = Some (Some (PInt 0), Some (PInt 0), Some (PStr "out/sim/r1")).
Proof.
  rewrite (live_unreadable_summary_row (H := no_artifacts)
             (run_matrix.Params "rpc" 8 256 256) 1 18 (Toy.start no_artifacts tt)
             ("Run ID: r1" +:+ Toy.nl +:+ "Results written to: out/sim/r1" +:+ Toy.nl)
             "" "0.2" tt "r1" "out/sim/r1");
    [reflexivity|reflexivity|vm_compute; reflexivity|discriminate|discriminate|reflexivity].
Defined.

(** ** The summary parser: sections and counts *)
Section SummaryEdges.
Import Summary.

Lemma completed_loop_reads lines s :
  forallb count_reads lines = true ->
  exists c, for_lines completed_line lines s = (Stats (p50 s) (p95 s) (p99 s) c, None).
Proof.
  revert s. induction lines as [|l ls IH]; intros s Hall.
  { exists (completed s). by destruct s. }
  cbn in Hall. apply andb_true_iff in Hall as [Hl Hls].
  cbn [for_lines]. unfold completed_line, count_reads in *.
  destruct (Py.contains "Completed:" l).
  - destruct (completed_field l) as [e|n]; [done|].
    destruct (IH (Stats (p50 s) (p95 s) (p99 s) n) Hls) as [c E]. by exists c.
  - by apply IH.
Qed.

Lemma completed_loop_stops c before line after s e :
  forallb (completed_ok c) before = true ->
  Py.contains "Completed:" line = true ->
  completed_field line = inl e ->
  for_lines completed_line (before ++ line :: after) s
  = (Stats (p50 s) (p95 s) (p99 s)
       (if existsb (Py.contains "Completed:") before then c else completed s), Some e).
Proof.
  intros Hb Hl He. rewrite for_lines_app, (completed_loop c) by done.
  cbn [for_lines]. unfold completed_line. by rewrite Hl, He.
Qed.

Lemma scan_without_ns_header content :
  absent ns_header content = true ->
  scan content
  = (let r := for_lines completed_line (Py.split content (String "010" EmptyString)) zero in
     (Stats 0 0 0 (completed (fst r)), snd r)).
Proof.
  intros Ha. unfold scan, absent in *. cbv zeta.
  pose proof (completed_loop_keeps (Py.split content (String "010" EmptyString)) zero)
    as (K1 & K2 & K3). cbv zeta in *.
  destruct (for_lines completed_line _ zero) as [s1 [e|]]; cbn [fst snd] in *.
  - destruct s1; cbn in *. by subst.
  - rewrite latency_outside by done. destruct s1; cbn in *. by subst.
Qed.

Lemma scan_last_count content before line after c :
  Py.split content (String "010" EmptyString) = before ++ line :: after ->
  forallb count_reads before = true ->
  Py.contains "Completed:" line = true ->
  completed_field line = inr c ->
  forallb (fun l => negb (Py.contains "Completed:" l)) after = true ->
  completed (fst (scan content)) = c.
Proof.
  intros Hlines Hb Hl Hc Ha. unfold scan. cbv zeta. rewrite Hlines.
  rewrite for_lines_app.
  destruct (completed_loop_reads before zero Hb) as [c0 ->].
  cbn [for_lines]. unfold completed_line at 1. rewrite Hl, Hc.
  rewrite completed_loop_absent by done.
  match goal with |- context [for_lines latency_line ?l ?fs] =>
    pose proof (latency_loop_keeps_completed l fs) as K;
    destruct (for_lines latency_line l fs) as [[f s2] r]
  end.
  exact K.
Qed.

End SummaryEdges.

(** X10.  The percentiles are read in the nanosecond section only: from
    an artifact in which no line contains [Latency (ns):] both parsers
    get 0 for the three of them, whatever its [p50:], [p95:] and [p99:]
    lines say, and only a [Completed:] line can make them fail.  When
    every such line carries the count [c] they return (0, 0, 0, [c]) and
    print nothing. *)
Theorem percentiles_need_ns_header `{Platform} (path : string) (st : state)
    (content : string) :
  read_text path (world st) = Some content ->
  Summary.absent Summary.ns_header content = true ->
  (exists c,
     fst (run_matrix.extract_stats path st) = inr (0, 0, 0, c)
     /\ forall t, fst (generate_manifest.parse_summary path st) = inr t -> t = (0, 0, 0, c))
  /\ (forall c,
        forallb (Summary.completed_ok c) (Py.split content (String "010" EmptyString))
        = true ->
        run_matrix.extract_stats path st
        = (inr (0, 0, 0,
                if existsb (Py.contains "Completed:")
                     (Py.split content (String "010" EmptyString)) then c else 0), st)
        /\ generate_manifest.parse_summary path st
           = (inr (0, 0, 0,
                   if existsb (Py.contains "Completed:")
                        (Py.split content (String "010" EmptyString)) then c else 0), st)).
Proof.
  intros Hread Ha. pose proof (scan_without_ns_header content Ha) as Hscan.
  cbv zeta in Hscan. split.
  - destruct (Summary.for_lines Summary.completed_line _ Summary.zero) as [s1 [e|]];
      cbn [fst snd] in Hscan.
    + exists (Summary.completed s1). split.
      * by rewrite (extract_stats_recovers path st content _ e Hread Hscan).
      * rewrite (parse_summary_raises path st content _ e Hread Hscan). done.
    + exists (Summary.completed s1). split.
      * by rewrite (extract_stats_returns path st content _ Hread Hscan).
      * rewrite (parse_summary_returns path st content _ Hread Hscan).
        by intros t [= <-].
  - intros c Hc. rewrite (completed_loop c) in Hscan by done. cbn [fst snd] in Hscan.
    split.
    + by rewrite (extract_stats_returns path st content _ Hread Hscan).
    + by rewrite (parse_summary_returns path st content _ Hread Hscan).
Qed.

(** X10 on an artifact with a microsecond section only. *)
Lemma percentiles_need_ns_header_us_only :
  run_matrix.extract_stats (H := Toy.one_summary summary_us_only) "out/sim/r7/summary.txt"
    (Toy.start (Toy.one_summary summary_us_only) tt)
  = (inr (0, 0, 0, 7), Toy.start (Toy.one_summary summary_us_only) tt)
  /\ generate_manifest.parse_summary (H := Toy.one_summary summary_us_only)
       "out/sim/r7/summary.txt" (Toy.start (Toy.one_summary summary_us_only) tt)
     = (inr (0, 0, 0, 7), Toy.start (Toy.one_summary summary_us_only) tt).
Proof.
  destruct (percentiles_need_ns_header (H := Toy.one_summary summary_us_only)
              "out/sim/r7/summary.txt" (Toy.start (Toy.one_summary summary_us_only) tt)
              summary_us_only) as [_ Hc].
  - reflexivity.
  - vm_compute. reflexivity.
  - apply (Hc 7). vm_compute. reflexivity.
Defined.

(** X11.  The count is that of the last line that contains [Completed:]:
    when the lines with that label before it can be read and none
    follows, the count both parsers end with is the one of that line,
    whatever happens to the percentiles. *)
Theorem last_completed_wins `{Platform} (path : string) (st : state) (content : string)
    (before : list string) (line : string) (after : list string) (c : Z) :
  read_text path (world st) = Some content ->
  Py.split content (String "010" EmptyString) = before ++ line :: after ->
  forallb count_reads before = true ->
  Py.contains "Completed:" line = true ->
  Summary.completed_field line = inr c ->
  forallb (fun l => negb (Py.contains "Completed:" l)) after = true ->
  exists v50 v95 v99,
    fst (run_matrix.extract_stats path st) = inr (v50, v95, v99, c)
    /\ forall t, fst (generate_manifest.parse_summary path st) = inr t
                 -> t = (v50, v95, v99, c).
Proof.
  intros Hread Hlines Hb Hl Hc Ha.
  pose proof (scan_last_count content before line after c Hlines Hb Hl Hc Ha) as Hlast.
  destruct (Summary.scan content) as [s [e|]] eqn:Hscan; cbn [fst] in Hlast; subst c.
  - exists (Summary.p50 s), (Summary.p95 s), (Summary.p99 s). split.
    + by rewrite (extract_stats_recovers path st content s e Hread Hscan).
    + by rewrite (parse_summary_raises path st content s e Hread Hscan).
  - exists (Summary.p50 s), (Summary.p95 s), (Summary.p99 s). split.
    + by rewrite (extract_stats_returns path st content s Hread Hscan).
    + rewrite (parse_summary_returns path st content s Hread Hscan). by intros t [= <-].
Qed.

(** X11 on an artifact that reports progress twice. *)
Lemma last_completed_wins_progress :
  exists v50 v95 v99,
    fst (run_matrix.extract_stats (H := Toy.one_summary summary_progress)
           "out/sim/r7/summary.txt" (Toy.start (Toy.one_summary summary_progress) tt))
    = inr (v50, v95, v99, 9000)
    /\ forall t,
         fst (generate_manifest.parse_summary (H := Toy.one_summary summary_progress)
                "out/sim/r7/summary.txt" (Toy.start (Toy.one_summary summary_progress) tt))
         = inr t -> t = (v50, v95, v99, 9000).
Proof.
  apply (last_completed_wins (H := Toy.one_summary summary_progress)
           "out/sim/r7/summary.txt" (Toy.start (Toy.one_summary summary_progress) tt)
           summary_progress ["Completed: 400/10000"] "Completed: 9000/10000"
           ["Latency (ns):"; "p50: 1234.0"; ""]); vm_compute; reflexivity.
Defined.

(** X12.  A [Completed:] line whose field cannot be read stops the scan
    in its first loop, before any percentile is looked at.  Live mode
    then warns and records 0 for the three percentiles, with the count
    of the lines before, even if the nanosecond section is well formed;
    rescan mode gets the exception. *)
Theorem malformed_count_stops_scan `{Platform} (path : string) (st : state)
    (content : string) (before : list string) (line : string) (after : list string)
    (c : Z) (e : exn) :
  read_text path (world st) = Some content ->
  Py.split content (String "010" EmptyString) = before ++ line :: after ->
  forallb (Summary.completed_ok c) before = true ->
  Py.contains "Completed:" line = true ->
  Summary.completed_field line = inl e ->
  run_matrix.extract_stats path st
  = (inr (0, 0, 0, if existsb (Py.contains "Completed:") before then c else 0),
     State (world st) (trace st ++ [Print (MsgSummaryWarning e)]))
  /\ generate_manifest.parse_summary path st = (inl e, st).
Proof.
  intros Hread Hlines Hb Hl He.
  assert (Summary.scan content
          = (Summary.Stats 0 0 0
               (if existsb (Py.contains "Completed:") before then c else 0), Some e))
    as Hscan.
  { unfold Summary.scan. cbv zeta.
    by rewrite Hlines, (completed_loop_stops c before line after _ e Hb Hl He). }
  split.
  - by rewrite (extract_stats_recovers path st content _ e Hread Hscan).
  - by rewrite (parse_summary_raises path st content _ e Hread Hscan).
Qed.

(** X12 on an artifact whose count is [n/a]. *)
Lemma malformed_count_stops_scan_bad_count :
  run_matrix.extract_stats (H := Toy.one_summary summary_bad_count)
    "out/sim/r7/summary.txt" (Toy.start (Toy.one_summary summary_bad_count) tt)
  = (inr (0, 0, 0, 0),
     @State (Toy.one_summary summary_bad_count) tt [Print (MsgSummaryWarning ValueError)])
  /\ generate_manifest.parse_summary (H := Toy.one_summary summary_bad_count)
       "out/sim/r7/summary.txt" (Toy.start (Toy.one_summary summary_bad_count) tt)
     = (inl ValueError, Toy.start (Toy.one_summary summary_bad_count) tt).
Proof.
  apply (malformed_count_stops_scan (H := Toy.one_summary summary_bad_count)
           "out/sim/r7/summary.txt" (Toy.start (Toy.one_summary summary_bad_count) tt)
           summary_bad_count [] "Completed: n/a" ["Latency (ns):"; "p50: 1234.0"; ""]
           0 ValueError); vm_compute; reflexivity.
Defined.

(** ** Rescan mode: configs, rows and the table *)
Section RescanRows.
Context `{Platform}.
Import generate_manifest.

Lemma sorted_perm (names names' : list string) :
  names ≡ₚ names' -> sorted names = sorted names'.
Proof.
  intros Hperm. apply (Sorted_unique str_le); [apply sorted_Sorted..|].
  by rewrite !sorted_Permutation.
Qed.

Lemma build_row_config_error config stats run_path e :
  config_error config = Some e -> build_row config stats run_path = inl e.
Proof.
  destruct stats as [[[a b] c] d]. unfold config_error, build_row.
  destruct config as [| | | | | |items]; try (by intros [= <-]).
  unfold config_keys. cbn [forallb getitem].
  repeat (match goal with
          | |- context [dict_get ?k items] =>
              destruct (dict_get k items); cbn [andb and_then]; [|by intros [= <-]]
          end).
  done.
Qed.

Lemma build_row_shape config stats run_path row :
  build_row config stats run_path = inr row -> rescanned_row row.
Proof.
  unfold build_row. destruct stats as [[[a b] c] d]. intros Hr.
  repeat (apply and_then_inr in Hr as (? & _ & Hr)).
  injection Hr as <-. unfold rescanned_row. by repeat eexists.
Qed.

Lemma build_row_config_ok config stats run_path :
  config_error config = None ->
  exists row, build_row config stats run_path = inr row.
Proof.
  destruct stats as [[[a b] c] d]. unfold config_error, build_row.
  destruct config as [| | | | | |items]; try done.
  unfold config_keys. cbn [forallb getitem].
  repeat (match goal with
          | |- context [dict_get ?k items] =>
              destruct (dict_get k items); cbn [andb and_then]; [|done]
          end).
  intros _. by eexists.
Qed.

Lemma processed_shape w run_dir row :
  processed w run_dir = Some row -> rescanned_row row.
Proof.
  unfold processed, load. destruct (complete w run_dir); [|done].
  destruct (read_text _ w) as [text|]; [|done].
  destruct (json_loads text) as [config|]; [|done].
  destruct (read_text _ w) as [content|]; [|done].
  destruct (Summary.scan content) as [s [e'|]]; [done|].
  destruct (build_row _ _ _) as [e|r] eqn:Hb; [done|]. intros [= <-].
  by eapply build_row_shape.
Qed.

Lemma processed_rows_shape w (entries : list string) :
  Forall rescanned_row (omap (processed w) entries).
Proof.
  induction entries as [|d ds IH]; [constructor|].
  cbn [omap list_omap]. change (list_omap ?f ?l) with (omap f l).
  destruct (processed w d) as [row|] eqn:Hp; [|done].
  constructor; [by eapply processed_shape|done].
Qed.

Lemma omap_sublist {A B} (f : A -> option B) (l : list A) :
  exists k, sublist k l /\ Forall2 (fun x y => f x = Some y) k (omap f l).
Proof.
  induction l as [|x l (k & Hk & Hf)]; [by exists []|].
  cbn [omap list_omap]. change (list_omap ?f ?l) with (omap f l).
  destruct (f x) as [y|] eqn:E.
  - exists (x :: k). split; by constructor.
  - exists k. split; [by constructor|done].
Qed.

Lemma omap_length_le {A B} (f : A -> option B) (l : list A) :
  (length (omap f l) <= length l)%nat.
Proof.
  induction l as [|x l IH]; [done|].
  cbn [omap list_omap]. change (list_omap ?f ?l) with (omap f l).
  destruct (f x); cbn [length]; lia.
Qed.

(** The line of the table for a row of rescan mode is printed if the
    workload and the number of outstanding requests can be laid out;
    if not, [TypeError] is raised and nothing is printed. *)
Lemma rescanned_row_table r st :
  rescanned_row r ->
  table_row r st
  = if printable r
    then (inr tt, State (world st) (trace st ++ [table_line r]))
    else (inl TypeError, st).
Proof.
  intros (?&w&o&?&?&?&?&?&?&?&?&?&?&?& ->).
  unfold printable, value, table_line, value. cbn [dict_get String.eqb Ascii.eqb Bool.eqb default].
  unfold table_row, lift, bind, require. cbn [getitem dict_get String.eqb Ascii.eqb Bool.eqb ret number].
  unfold id. destruct (format_ok w); [|done]. by destruct (format_ok o).
Qed.

Lemma table_stops (pre : list dict) (r : dict) (post : list dict) st :
  Forall rescanned_row (pre ++ r :: post) ->
  forallb printable pre = true -> printable r = false ->
  print_table (pre ++ r :: post) st
  = (inl TypeError,
     State (world st) (trace st ++ [Print MsgTableHeader] ++ map table_line pre)).
Proof.
  intros Hshape Hpre Hr. apply Forall_app in Hshape as [Hs1 Hs2].
  apply Forall_cons in Hs2 as [Hsr _].
  unfold print_table, print. rewrite bind_emit. unfold bind.
  rewrite for_app. unfold bind. rewrite table_rows_printed.
  - cbn [for_]. unfold bind. rewrite (rescanned_row_table r _ Hsr), Hr.
    cbn [world trace]. by rewrite <- app_assoc.
  - apply Forall_forall. intros x Hx st'.
    rewrite (rescanned_row_table x st'); [|by eapply Forall_forall in Hs1].
    apply (proj1 (forallb_forall _ _)) with (x := x) in Hpre; [by rewrite Hpre|].
    by apply list_elem_of_In.
Qed.

Lemma table_complete (results : list dict) st :
  Forall rescanned_row results -> forallb printable results = true ->
  print_table results st
  = (inr tt,
     State (world st)
       (trace st ++ [Print MsgTableHeader] ++ map table_line results ++ [Print MsgTableEnd])).
Proof.
  intros Hshape Hall. unfold print_table, print. rewrite bind_emit. unfold bind.
  rewrite table_rows_printed.
  - cbv [emit]. cbn [world trace]. by rewrite <- !app_assoc.
  - apply Forall_forall. intros x Hx st'.
    rewrite (rescanned_row_table x st'); [|by eapply Forall_forall in Hshape].
    apply (proj1 (forallb_forall _ _)) with (x := x) in Hall; [by rewrite Hall|].
    by apply list_elem_of_In.
Qed.

End RescanRows.

(** X13.  The loop over the directory entries does not depend on the
    order in which the result root lists them: two listings of the same
    entries give the same rows, in the same order, and the same lines
    printed. *)
Theorem listing_order_irrelevant `{Platform} (names names' : list string)
    (results : list dict) (st : state) :
  names ≡ₚ names' ->
  for_ (generate_manifest.sorted names) generate_manifest.process_entry results st
  = for_ (generate_manifest.sorted names') generate_manifest.process_entry results st.
Proof. intros Hperm. by rewrite (sorted_perm names names' Hperm). Qed.

(** X13 on [Toy.result_root], listed in two ways. *)
Lemma listing_order_irrelevant_result_root :
  for_ (H := Toy.result_root)
    (generate_manifest.sorted ["m"; "c"; "manifest.csv"; "a"; "b"])
    generate_manifest.process_entry [] (Toy.start Toy.result_root tt)
  = for_ (H := Toy.result_root)
      (generate_manifest.sorted ["c"; "m"; "manifest.csv"; "b"; "a"])
      generate_manifest.process_entry [] (Toy.start Toy.result_root tt).
Proof.
  apply (listing_order_irrelevant (H := Toy.result_root)).
  etrans; [apply perm_swap|]. apply perm_skip, perm_skip, perm_skip, perm_swap.
Defined.

(** X14.  A row needs a config that is a dict with the nine keys.  When
    the config of a run directory is something else, the subscripts
    raise [TypeError] (not a dict) or [KeyError] (a key is missing), after
    both artifacts have been read; the directory gets a line that reports
    the error and no row. *)
Theorem bad_config_skipped `{Platform} (run_dir : string) (results : list dict)
    (st : state) (text : string) (config : pyobj) (content : string)
    (s : Summary.stats) (e : exn) :
  generate_manifest.complete (world st) run_dir = true ->
  read_text (Py.path_join (Py.path_join generate_manifest.OUT_DIR run_dir) "config.json")
            (world st) = Some text ->
  json_loads text = Some config ->
  read_text (Py.path_join (Py.path_join generate_manifest.OUT_DIR run_dir) "summary.txt")
            (world st) = Some content ->
  Summary.scan content = (s, None) ->
  config_error config = Some e ->
  (e = KeyError \/ e = TypeError)
  /\ generate_manifest.build_row config (Summary.tuple s)
       (Py.path_join generate_manifest.OUT_DIR run_dir) = inl e
  /\ generate_manifest.process_entry run_dir results st
     = (inr results,
        State (world st) (trace st ++ [Print (MsgErrorProcessing run_dir e)])).
Proof.
  intros Hc Ht Hj Hr Hscan He.
  pose proof (build_row_config_error config (Summary.tuple s)
                (Py.path_join generate_manifest.OUT_DIR run_dir) e He) as Hrow.
  split; [|split; [exact Hrow|]].
  - unfold config_error in He. destruct config; try (injection He as <-; by right).
    destruct (forallb _ _); [done|]. injection He as <-. by left.
  - rewrite process_entry_outcome.
    unfold generate_manifest.processed, generate_manifest.entry_events.
    rewrite Hc.
    assert (generate_manifest.load (world st) run_dir = inl e) as ->.
    { unfold generate_manifest.load. cbv zeta. by rewrite Ht, Hj, Hr, Hscan. }
    assert (isdir (Py.path_join generate_manifest.OUT_DIR run_dir) (world st) = true) as ->.
    { unfold generate_manifest.complete in Hc. cbv zeta in Hc.
      by apply andb_true_iff in Hc as [[? _]%andb_true_iff _]. }
    cbn. by rewrite app_nil_r.
Qed.

(** X14 on a run directory whose config has no [qdisc]. *)
Lemma bad_config_skipped_no_qdisc :
  generate_manifest.process_entry (H := no_qdisc_root) "a" [] (Toy.start no_qdisc_root tt)
  = (inr [], @State no_qdisc_root tt [Print (MsgErrorProcessing "a" KeyError)]).
Proof.
  destruct (bad_config_skipped (H := no_qdisc_root) "a" [] (Toy.start no_qdisc_root tt)
              no_qdisc_text no_qdisc_value Toy.summary_full
              (Summary.Stats 1234 5678 9999 9000) KeyError) as (_ & _ & Hskip);
    [vm_compute; reflexivity..|exact Hskip].
Defined.

(** X15.  Rescan mode lays out the table after the manifest is written.
    When the rows of the directories are [pre ++ r :: post] and [r] is
    the first whose workload or number of outstanding requests is
    [null], a list or an object, [main] writes the manifest with all the
    rows, prints the table lines of [pre] and ends with [TypeError]:
    status 1, the manifest complete. *)
Theorem rescan_table_type_error `{Platform} (st : state) (names : list string)
    (pre : list dict) (r : dict) (post : list dict) :
  listdir generate_manifest.OUT_DIR (world st) = Some names ->
  omap (generate_manifest.processed (world st)) (generate_manifest.sorted names)
  = pre ++ r :: post ->
  forallb printable pre = true ->
  printable r = false ->
  generate_manifest.main st
  = (inl TypeError,
     State (world st)
       (trace st
        ++ flat_map (generate_manifest.entry_events (world st))
             (generate_manifest.sorted names)
        ++ [ WriteCsv (Py.path_join generate_manifest.OUT_DIR "manifest.csv")
               (Manifest generate_manifest.fieldnames
                  (map (map snd) (pre ++ r :: post)));
             Print (MsgManifestWritten
                      (Py.path_join generate_manifest.OUT_DIR "manifest.csv"));
             Print (MsgTotal (Z.of_nat (length (pre ++ r :: post))));
             Print MsgTableHeader ]
        ++ map table_line pre))
  /\ exit_status (fst (generate_manifest.main st)) = 1.
Proof.
  intros Hls Hrows Hpre Hr.
  pose proof (processed_rows_shape (world st) (generate_manifest.sorted names)) as Hshape.
  rewrite Hrows in Hshape.
  assert (generate_manifest.main st
          = (inl TypeError,
             State (world st)
               (trace st
                ++ flat_map (generate_manifest.entry_events (world st))
                     (generate_manifest.sorted names)
                ++ [ WriteCsv (Py.path_join generate_manifest.OUT_DIR "manifest.csv")
                       (Manifest generate_manifest.fieldnames
                          (map (map snd) (pre ++ r :: post)));
                     Print (MsgManifestWritten
                              (Py.path_join generate_manifest.OUT_DIR "manifest.csv"));
                     Print (MsgTotal (Z.of_nat (length (pre ++ r :: post))));
                     Print MsgTableHeader ]
                ++ map table_line pre))) as Hmain.
  { rewrite (rescan_main st names Hls), Hrows.
    rewrite (table_stops pre r post _ Hshape Hpre Hr). cbn [world trace].
    by rewrite <- !app_assoc. }
  split; [exact Hmain|by rewrite Hmain].
Qed.

(** X15 on [null_workload_root]: the manifest has the rows of [a] and of
    [b], the table stops after the line of [a]. *)
Lemma rescan_table_type_error_null_workload :
  exit_status (fst (generate_manifest.main (H := null_workload_root)
                      (Toy.start null_workload_root tt))) = 1
  /\ map (fun mf => length (rows mf))
       (Toy.manifests
          (trace (snd (generate_manifest.main (H := null_workload_root)
                         (Toy.start null_workload_root tt)))))
     = [2%nat].
Proof.
  destruct (rescan_table_type_error (H := null_workload_root)
              (Toy.start null_workload_root tt) ["b"; "a"]
              [Toy.rescan_row] null_workload_row []) as [Hmain Hexit];
    [vm_compute; reflexivity..|].
  split; [exact Hexit|]. rewrite Hmain. vm_compute. reflexivity.
Defined.

(** X16.  When the rows of the directories can all be laid out, rescan
    mode writes them to the manifest, one row of fourteen values for
    each directory that yields one, in the sorted order of the names,
    reports their number, prints one table line for each and returns:
    status 0. *)
Theorem rescan_rows_and_table `{Platform} (st : state) (names : list string) :
  listdir generate_manifest.OUT_DIR (world st) = Some names ->
  forallb printable
    (omap (generate_manifest.processed (world st)) (generate_manifest.sorted names))
  = true ->
  generate_manifest.main st
  = (inr tt,
     State (world st)
       (trace st
        ++ flat_map (generate_manifest.entry_events (world st))
             (generate_manifest.sorted names)
        ++ [ WriteCsv (Py.path_join generate_manifest.OUT_DIR "manifest.csv")
               (Manifest generate_manifest.fieldnames
                  (map (map snd)
                     (omap (generate_manifest.processed (world st))
                        (generate_manifest.sorted names))));
             Print (MsgManifestWritten
                      (Py.path_join generate_manifest.OUT_DIR "manifest.csv"));
             Print (MsgTotal
                      (Z.of_nat
                         (length (omap (generate_manifest.processed (world st))
                                    (generate_manifest.sorted names)))));
             Print MsgTableHeader ]
        ++ map table_line
             (omap (generate_manifest.processed (world st))
                (generate_manifest.sorted names))
        ++ [Print MsgTableEnd]))
  /\ exit_status (fst (generate_manifest.main st)) = 0
  /\ Forall rescanned_row
       (omap (generate_manifest.processed (world st)) (generate_manifest.sorted names))
  /\ (length (omap (generate_manifest.processed (world st))
                (generate_manifest.sorted names)) <= length names)%nat
  /\ exists dirs,
       sublist dirs (generate_manifest.sorted names)
       /\ Forall2 (fun d row => generate_manifest.processed (world st) d = Some row
                                /\ dict_get "out_dir" row
                                   = Some (PStr (Py.path_join generate_manifest.OUT_DIR d)))
            dirs
            (omap (generate_manifest.processed (world st))
               (generate_manifest.sorted names)).
Proof.
  intros Hls Hall.
  pose proof (processed_rows_shape (world st) (generate_manifest.sorted names)) as Hshape.
  assert (generate_manifest.main st
          = (inr tt,
     State (world st)
       (trace st
        ++ flat_map (generate_manifest.entry_events (world st))
             (generate_manifest.sorted names)
        ++ [ WriteCsv (Py.path_join generate_manifest.OUT_DIR "manifest.csv")
               (Manifest generate_manifest.fieldnames
                  (map (map snd)
                     (omap (generate_manifest.processed (world st))
                        (generate_manifest.sorted names))));
             Print (MsgManifestWritten
                      (Py.path_join generate_manifest.OUT_DIR "manifest.csv"));
             Print (MsgTotal
                      (Z.of_nat
                         (length (omap (generate_manifest.processed (world st))
                                    (generate_manifest.sorted names)))));
             Print MsgTableHeader ]
        ++ map table_line
             (omap (generate_manifest.processed (world st))
                (generate_manifest.sorted names))
        ++ [Print MsgTableEnd]))) as Hmain.
  { rewrite (rescan_main st names Hls).
    rewrite (table_complete _ _ Hshape Hall). cbn [world trace].
    by rewrite <- !app_assoc. }
  split; [exact Hmain|]. split; [by rewrite Hmain|]. split; [exact Hshape|].
  split.
  { rewrite <- (Permutation_length (sorted_Permutation names)). apply omap_length_le. }
  destruct (omap_sublist (generate_manifest.processed (world st))
              (generate_manifest.sorted names)) as (dirs & Hsub & Hrows).
  exists dirs. split; [done|].
  eapply Forall2_impl; [exact Hrows|]. intros d row Hp. split; [done|].
  by apply processed_cells in Hp as [_ ?].
Qed.

(** X16 on [Toy.result_root]: three rows, status 0. *)
Lemma rescan_rows_and_table_result_root :
  exit_status (fst (generate_manifest.main (H := Toy.result_root)
                      (Toy.start Toy.result_root tt))) = 0
  /\ length (omap (generate_manifest.processed (H := Toy.result_root) tt)
               (generate_manifest.sorted ["m"; "c"; "manifest.csv"; "a"; "b"])) = 3%nat.
Proof.
  destruct (rescan_rows_and_table (H := Toy.result_root) (Toy.start Toy.result_root tt)
              ["m"; "c"; "manifest.csv"; "a"; "b"]) as (_ & Hexit & _);
    [vm_compute; reflexivity..|].
  split; [exact Hexit|vm_compute; reflexivity].
Defined.

(** ** Rescan mode: what it leaves alone *)
Section SteadyFacts.
Context `{Platform}.

Lemma steady_ret {A} P (a : A) : steady P (ret a).
Proof. intros st. exists []. cbn. rewrite app_nil_r. by destruct st. Qed.

Lemma steady_raise {A} P (e : exn) : steady P (@raise _ A e).
Proof. intros st. exists []. cbn. rewrite app_nil_r. by destruct st. Qed.

Lemma steady_lift {A} P (r : exn + A) : steady P (lift r).
Proof. destruct r; [apply steady_raise|apply steady_ret]. Qed.

Lemma steady_emit (P : event -> Prop) (ev : event) : P ev -> steady P (emit ev).
Proof. intros Hev st. exists [ev]. split; [done|]. by constructor. Qed.

Lemma steady_bind {A B} P (m : M A) (k : A -> M B) :
  steady P m -> (forall a, steady P (k a)) -> steady P (bind m k).
Proof.
  intros Hm Hk st. unfold bind. destruct (Hm st) as (t1 & E1 & F1).
  destruct (m st) as [[e|a] st']; cbn [snd] in *; [by exists t1|].
  destruct (Hk a st') as (t2 & E2 & F2). exists (t1 ++ t2).
  split; [|by apply Forall_app]. rewrite E2, E1. cbn [world trace].
  by rewrite app_assoc.
Qed.

Lemma steady_for {A S} P (l : list A) (body : A -> S -> M S) :
  (forall x s, steady P (body x s)) -> forall s, steady P (for_ l body s).
Proof.
  intros Hb. induction l as [|x l IH]; intros s; cbn [for_].
  - apply steady_ret.
  - apply steady_bind; [apply Hb|apply IH].
Qed.

Lemma steady_print_table results : steady printed (print_table results).
Proof.
  unfold print_table, table_row, require, print.
  repeat first
    [ apply steady_bind | apply steady_for | apply steady_ret | apply steady_raise
    | apply steady_lift | by apply steady_emit
    | match goal with
      | |- steady _ (if ?b then _ else _) => destruct b
      | |- forall _, _ => intro
      end ].
Qed.

Lemma printed_passive l : Forall printed l -> Forall passive_event l.
Proof. intros Hl. eapply Forall_impl; [exact Hl|]. by intros []. Qed.

Lemma printed_no_manifest l : Forall printed l -> Toy.manifests l = [].
Proof. induction 1 as [|ev l Hev _ IH]; [done|]. by destruct ev. Qed.

Lemma entry_events_printed w run_dir :
  Forall printed (generate_manifest.entry_events w run_dir).
Proof.
  unfold generate_manifest.entry_events. destruct (negb _); [constructor|].
  destruct (generate_manifest.complete w run_dir); [|by repeat constructor].
  destruct (generate_manifest.load w run_dir); by repeat constructor.
Qed.

Lemma flat_map_printed w (entries : list string) :
  Forall printed (flat_map (generate_manifest.entry_events w) entries).
Proof.
  induction entries as [|d ds IH]; [constructor|].
  cbn. apply Forall_app. split; [apply entry_events_printed|done].
Qed.

Lemma manifests_app l1 l2 : Toy.manifests (l1 ++ l2) = Toy.manifests l1 ++ Toy.manifests l2.
Proof. apply omap_app. Qed.

End SteadyFacts.

(** X17.  Rescan mode only reads and reports: it never calls the engine
    and never makes a directory, so that the state of the platform,
    which only the engine changes, is the one it started from.  All it
    adds to the trace are printed lines and one manifest, or no manifest
    when the result root cannot be listed. *)
Theorem rescan_is_passive `{Platform} (st : state) :
  exists tail,
    snd (generate_manifest.main st) = State (world st) (trace st ++ tail)
    /\ Forall passive_event tail
    /\ engine_calls tail = []
    /\ length (Toy.manifests tail)
       = match listdir generate_manifest.OUT_DIR (world st) with
         | Some _ => 1%nat
         | None => 0%nat
         end.
Proof.
  destruct (listdir generate_manifest.OUT_DIR (world st)) as [names|] eqn:Hls.
  2:{ exists []. rewrite (main_unlistable st Hls). cbn. rewrite app_nil_r.
      by destruct st. }
  rewrite (rescan_main st names Hls).
  match goal with |- context [print_table ?rows ?s] =>
    destruct (steady_print_table rows s) as (tail & E & F)
  end.
  rewrite E. cbn [world trace]. eexists. split; [by rewrite <- !app_assoc|].
  pose proof (flat_map_printed (world st) (generate_manifest.sorted names)) as Hentries.
  split; [|split].
  - apply Forall_app. split; [by apply printed_passive|].
    repeat (apply Forall_cons; split; [done|]). by apply printed_passive.
  - apply engine_calls_prints. apply Forall_app. split.
    + eapply Forall_impl; [exact Hentries|]. by intros [].
    + repeat (apply Forall_cons; split; [done|]).
      eapply Forall_impl; [exact F|]. by intros [].
  - rewrite manifests_app, (printed_no_manifest _ Hentries). cbn [app].
    change (?a :: ?b :: ?c :: tail) with ([a; b; c] ++ tail).
    rewrite manifests_app, (printed_no_manifest tail F). reflexivity.
Qed.

(** ** Live mode: the numbering of the runs *)
Section RunHeaders.
Context `{Platform}.
Import run_matrix.

Lemma run_headers_app l1 l2 : run_headers (l1 ++ l2) = run_headers l1 ++ run_headers l2.
Proof. apply omap_app. Qed.

Lemma extract_stats_headers path st :
  exists tail,
    trace (snd (extract_stats path st)) = trace st ++ tail /\ run_headers tail = [].
Proof.
  destruct (read_text path (world st)) as [content|] eqn:Hr.
  - destruct (Summary.scan content) as [s [e|]] eqn:Hs.
    + rewrite (extract_stats_recovers path st content s e Hr Hs). by eexists.
    + rewrite (extract_stats_returns path st content s Hr Hs). exists [].
      by rewrite app_nil_r.
  - rewrite (extract_stats_unreadable path st Hr). by eexists.
Qed.

Lemma run_experiment_headers p n t st :
  exists tail,
    trace (snd (run_experiment p n t st)) = trace st ++ tail
    /\ run_headers tail = [(n, t, workload p, outstanding p, req_bytes p)].
Proof.
  destruct (subprocess_run (build_cmd p) (NS3_ROOT +:+ "/..") (world st))
    as [[rc out err elapsed|] w'] eqn:Hrun.
  2:{ rewrite (run_experiment_not_started p n t st w' Hrun). by eexists. }
  destruct (decide (rc = 0)) as [->|Hrc].
  2:{ rewrite (run_experiment_failed p n t st rc out err elapsed w' Hrun Hrc). by eexists. }
  destruct (scan_lines_total (Py.split out (String "010" EmptyString)) (None, None))
    as [[run_id out_path] Hscan].
  destruct (falsy run_id || falsy out_path) eqn:Hf.
  { rewrite (run_experiment_no_markers p n t st out err elapsed w' _ _ Hrun Hscan Hf).
    by eexists. }
  apply orb_false_iff in Hf as [Hf1 Hf2].
  destruct run_id as [run_id|]; [|done]. destruct out_path as [out_path|]; [|done].
  cbn in Hf1, Hf2. apply String.eqb_neq in Hf1, Hf2.
  destruct (run_experiment_completed p n t st out err elapsed w' run_id out_path)
    as (a & b & c & d & st' & Hstats & E); try done.
  rewrite E. cbn [snd].
  match type of Hstats with extract_stats ?path ?s = _ =>
    destruct (extract_stats_headers path s) as (tail & Et & Ft)
  end.
  rewrite Hstats in Et. cbn [snd trace] in Et. rewrite Et, <- app_assoc.
  eexists. split; [reflexivity|].
  rewrite run_headers_app, Ft. reflexivity.
Qed.

Lemma run_one_headers t p results n st :
  exists tail,
    trace (snd (run_one t p (results, n) st)) = trace st ++ tail
    /\ run_headers tail = [header_of n t 0 p]
    /\ forall results' n' , fst (run_one t p (results, n) st) = inr (results', n') ->
                            n' = n + 1.
Proof.
  unfold run_one, bind, header_of.
  destruct (run_experiment_headers p (n + 1) t st) as (tail & E & Hc).
  replace (n + Z.of_nat 0 + 1) with (n + 1) by lia.
  destruct (run_experiment p (n + 1) t st) as [[e|[r|]] st']; cbn [snd] in *.
  - by exists tail.
  - exists tail. repeat split; [done..|]. by intros ? ? [= _ <-].
  - exists (tail ++ [Print (MsgRunSkipped (n + 1))]).
    cbv [print emit ret]. cbn [fst snd trace].
    rewrite E, <- app_assoc, run_headers_app, Hc. repeat split. by intros ? ? [= _ <-].
Qed.

(** Round the loop the runs are numbered one by one from the number
    the loop starts after. *)
Lemma run_loop_headers t ps results n st :
  exists tail k,
    trace (snd (for_ ps (run_one t) (results, n) st)) = trace st ++ tail
    /\ run_headers tail = imap (header_of n t) (take k ps)
    /\ (forall r, fst (for_ ps (run_one t) (results, n) st) = inr r -> k = length ps).
Proof.
  revert results n st. induction ps as [|p ps IH]; intros results n st.
  { exists [], O. cbn. by rewrite app_nil_r. }
  cbn [for_]. unfold bind.
  destruct (run_one_headers t p results n st) as (tail1 & E1 & C1 & Hn).
  destruct (run_one t p (results, n) st) as [[e|[results1 n1]] st1]; cbn [fst snd] in *.
  - exists tail1, 1%nat. cbn [take]. rewrite take_0. by repeat split.
  - rewrite (Hn results1 n1 eq_refl).
    destruct (IH results1 (n + 1) st1) as (tail2 & k & E2 & C2 & Hall).
    exists (tail1 ++ tail2), (S k). cbn [take].
    rewrite E2, E1, <- app_assoc, run_headers_app, C1, C2, imap_cons.
    repeat split.
    + f_equal. apply imap_ext. intros i q _. unfold compose, header_of.
      replace (n + Z.of_nat (S i) + 1) with (n + 1 + Z.of_nat i + 1) by lia.
      reflexivity.
    + intros r Hr. cbn [length]. f_equal. by eapply Hall.
Qed.

Lemma table_lines_headers (results : list dict) : run_headers (map table_line results) = [].
Proof. by induction results. Qed.

End RunHeaders.

(** X18.  The runs are numbered from 1, one by one, in the order of the
    matrix, whether they succeed or not, and each is announced with its
    number, the number of runs computed from the dimension lists, and
    its own workload, outstanding requests and request size. *)
Theorem run_headers_numbered `{Platform} (ws : list string) (os : list Z)
    (ss : list (Z * Z)) (st : state) :
  exists tail k,
    trace (snd (run_matrix.main_with ws os ss st)) = trace st ++ tail
    /\ run_headers tail
       = imap (header_of 0
                 (Z.of_nat (length ws) * Z.of_nat (length os) * Z.of_nat (length ss)))
              (take k (run_matrix.matrix ws os ss))
    /\ (fst (run_matrix.main_with ws os ss st) <> inl OSError ->
        k = length (run_matrix.matrix ws os ss)).
Proof.
  rewrite main_with_started. unfold bind, run_matrix.run_all. rewrite main_loops_matrix.
  destruct (run_loop_headers
              (Z.of_nat (length ws) * Z.of_nat (length os) * Z.of_nat (length ss))
              (run_matrix.matrix ws os ss) [] 0 (run_matrix.started ws os ss st))
    as (tail & k & E & C & Hall).
  pose proof (run_loop_order
              (Z.of_nat (length ws) * Z.of_nat (length os) * Z.of_nat (length ss))
              (run_matrix.matrix ws os ss) [] 0 (run_matrix.started ws os ss st)) as Hloop.
  destruct (for_ (run_matrix.matrix ws os ss) _ _ _) as [[e|[results n]] st1];
    cbn [fst snd] in *.
  - subst e. eexists _, k. unfold run_matrix.started in E. cbn [trace] in E.
    rewrite E, <- app_assoc. split; [reflexivity|].
    rewrite run_headers_app, C. by repeat split.
  - destruct Hloop as (_ & qs & more & Hres & _ & _ & Hlive). cbn [app] in Hres. subst more.
    unfold run_matrix.started in E. cbn [trace] in E.
    destruct results as [|r rs].
    + rewrite finish_empty. cbn [fst snd trace]. eexists _, k.
      rewrite E, <- !app_assoc. split; [reflexivity|].
      rewrite !run_headers_app, C. cbn. rewrite app_nil_r.
      split; [done|]. intros _. by eapply Hall.
    + rewrite (finish_rows _ (r :: rs) st1 ltac:(done) Hlive). cbn [fst snd trace].
      eexists _, k. rewrite E, <- !app_assoc. split; [reflexivity|].
      rewrite !run_headers_app, C, table_lines_headers. cbn. rewrite app_nil_r.
      split; [done|]. intros _. by eapply Hall.
Qed.

(** X19.  A run whose engine exits with status 0 and names a run
    identifier and a result directory gets a row made of the two names,
    the parameters of the run, the four constants of the network, the
    elapsed time, and the four numbers scanned from the summary found in
    that directory once the engine has finished; nothing else is read,
    and the run prints its header, its command and its completion. *)
Theorem live_run_row `{Platform} (p : run_matrix.ParameterSet) (n t : Z)
    (st : state) (out err elapsed : string) (w' : World) (run_id out_path : string)
    (content : string) (s : Summary.stats) :
  subprocess_run (run_matrix.build_cmd p) (run_matrix.NS3_ROOT +:+ "/..") (world st)
  = (Exited 0 out err elapsed, w') ->
  run_matrix.scan_stdout out = inr (Some run_id, Some out_path) ->
  run_id <> "" -> out_path <> "" ->
  read_text (Py.path_join out_path "summary.txt") w' = Some content ->
  Summary.scan content = (s, None) ->
  run_matrix.run_experiment p n t st
  = (inr (Some
       [ ("run_id", PStr run_id);
         ("workload", PStr (run_matrix.workload p));
         ("outstanding", PInt (run_matrix.outstanding p));
         ("req_bytes", PInt (run_matrix.req_bytes p));
         ("rsp_bytes", PInt (run_matrix.rsp_bytes p));
         ("linkRate", PStr run_matrix.LINK_RATE);
         ("linkDelay", PStr run_matrix.LINK_DELAY);
         ("mtu", PInt run_matrix.MTU);
         ("qdisc", PStr run_matrix.QDISC);
         ("p50_ns", PInt (Summary.p50 s));
         ("p95_ns", PInt (Summary.p95 s));
         ("p99_ns", PInt (Summary.p99 s));
         ("completed", PInt (Summary.completed s));
         ("out_dir", PStr out_path);
         ("elapsed_s", PStr elapsed) ]),
     State w'
       (trace st
        ++ [ Print (MsgRunHeader n t (run_matrix.workload p) (run_matrix.outstanding p)
                      (run_matrix.req_bytes p));
             Print (MsgCommand (run_matrix.build_cmd p));
             Exec (run_matrix.build_cmd p) (run_matrix.NS3_ROOT +:+ "/..");
             Print (MsgRunCompleted elapsed run_id out_path) ])).
Proof.
  intros Hrun Hscan Hid Hout Hread Hsum.
  destruct (run_experiment_completed p n t st out err elapsed w' run_id out_path)
    as (a & b & c & d & st' & Hstats & E); try done.
  rewrite (extract_stats_returns _ _ content s) in Hstats by done.
  injection Hstats as <- <- <- <- <-. by rewrite E.
Qed.

(** X19 on the first run of [Toy.flaky]. *)
Lemma live_run_row_flaky :
  fst (run_matrix.run_experiment (H := Toy.flaky) (run_matrix.Params "rpc" 1 256 256) 1 3
         (Toy.start Toy.flaky tt))
  = inr (head Toy.flaky_first).
Proof.
  rewrite (live_run_row (H := Toy.flaky) (run_matrix.Params "rpc" 1 256 256) 1 3
             (Toy.start Toy.flaky tt)
             ("Run ID: r7" +:+ Toy.nl +:+ "Results written to: out/sim/r7" +:+ Toy.nl)
             "" "0.3" tt "r7" "out/sim/r7" Toy.summary_full
             (Summary.Stats 1234 5678 9999 9000));
    [reflexivity|reflexivity|vm_compute; reflexivity|discriminate|discriminate
    |reflexivity|vm_compute; reflexivity].
Defined.

(** ** Live mode: every run is accounted for *)
Section Accounts.
Context `{Platform}.
Import run_matrix.

Lemma skipped_runs_app l1 l2 : skipped_runs (l1 ++ l2) = skipped_runs l1 ++ skipped_runs l2.
Proof. apply omap_app. Qed.

Lemma run_report_skipped l : Forall run_report l -> skipped_runs l = [].
Proof. induction 1 as [|ev l Hev _ IH]; [done|]. by destruct ev as [[]| | |]. Qed.

Lemma extract_stats_report path st :
  exists tail,
    trace (snd (extract_stats path st)) = trace st ++ tail /\ Forall run_report tail.
Proof.
  destruct (read_text path (world st)) as [content|] eqn:Hr.
  - destruct (Summary.scan content) as [s [e|]] eqn:Hs.
    + rewrite (extract_stats_recovers path st content s e Hr Hs).
      eexists. split; [done|]. by repeat constructor.
    + rewrite (extract_stats_returns path st content s Hr Hs). exists [].
      by rewrite app_nil_r.
  - rewrite (extract_stats_unreadable path st Hr).
    eexists. split; [done|]. by repeat constructor.
Qed.

(** A run prints its header and its command, calls the engine, and
    then reports on itself. *)
Lemma run_experiment_report p n t st :
  exists rest,
    trace (snd (run_experiment p n t st))
    = trace st
      ++ [ Print (MsgRunHeader n t (workload p) (outstanding p) (req_bytes p));
           Print (MsgCommand (build_cmd p));
           Exec (build_cmd p) (NS3_ROOT +:+ "/..") ]
      ++ rest
    /\ Forall run_report rest.
Proof.
  destruct (subprocess_run (build_cmd p) (NS3_ROOT +:+ "/..") (world st))
    as [[rc out err elapsed|] w'] eqn:Hrun.
  2:{ rewrite (run_experiment_not_started p n t st w' Hrun). by exists []. }
  destruct (decide (rc = 0)) as [->|Hrc].
  2:{ rewrite (run_experiment_failed p n t st rc out err elapsed w' Hrun Hrc).
      eexists [_]. split; [done|]. by repeat constructor. }
  destruct (scan_lines_total (Py.split out (String "010" EmptyString)) (None, None))
    as [[run_id out_path] Hscan].
  destruct (falsy run_id || falsy out_path) eqn:Hf.
  { rewrite (run_experiment_no_markers p n t st out err elapsed w' _ _ Hrun Hscan Hf).
    eexists [_]. split; [done|]. by repeat constructor. }
  apply orb_false_iff in Hf as [Hf1 Hf2].
  destruct run_id as [run_id|]; [|done]. destruct out_path as [out_path|]; [|done].
  cbn in Hf1, Hf2. apply String.eqb_neq in Hf1, Hf2.
  destruct (run_experiment_completed p n t st out err elapsed w' run_id out_path)
    as (a & b & c & d & st' & Hstats & E); try done.
  rewrite E. cbn [snd].
  match type of Hstats with extract_stats ?path ?s = _ =>
    destruct (extract_stats_report path s) as (tail & Et & Ft)
  end.
  rewrite Hstats in Et. cbn [snd trace] in Et. rewrite Et, <- app_assoc.
  exists (Print (MsgRunCompleted elapsed run_id out_path) :: tail).
  split; [done|]. by constructor.
Qed.

Lemma run_one_accounts t p results n st results' n' st' :
  run_one t p (results, n) st = (inr (results', n'), st') ->
  exists tail,
    trace st' = trace st ++ tail
    /\ (length results' + length (skipped_runs tail) = length results + 1)%nat.
Proof.
  unfold run_one, bind.
  destruct (run_experiment_report p (n + 1) t st) as (rest & E & F).
  destruct (run_experiment p (n + 1) t st) as [[e|[r|]] st1]; cbn [snd] in E; [done| |].
  - intros [= <- <- <-]. eexists. split; [exact E|].
    rewrite skipped_runs_app, (run_report_skipped rest F), length_app. cbn. lia.
  - cbv [print emit ret]. intros [= <- <- <-]. cbn [trace].
    rewrite E, <- !app_assoc. eexists. split; [reflexivity|].
    rewrite !skipped_runs_app, (run_report_skipped rest F). cbn. lia.
Qed.

Lemma run_loop_accounts t ps results n st results' n' st' :
  for_ ps (run_one t) (results, n) st = (inr (results', n'), st') ->
  exists tail,
    trace st' = trace st ++ tail
    /\ (length results' + length (skipped_runs tail) = length results + length ps)%nat.
Proof.
  revert results n st. induction ps as [|p ps IH]; intros results n st.
  { cbn. intros [= <- <- <-]. exists []. rewrite app_nil_r. cbn. split; [done|lia]. }
  cbn [for_]. unfold bind.
  destruct (run_one t p (results, n) st) as [[e|[results1 n1]] st1] eqn:E1; [done|].
  intros E2. apply run_one_accounts in E1 as (tail1 & T1 & L1).
  apply IH in E2 as (tail2 & T2 & L2).
  exists (tail1 ++ tail2). rewrite T2, T1, <- app_assoc. split; [done|].
  rewrite skipped_runs_app, length_app. cbn [length]. lia.
Qed.

End Accounts.

(** X20.  When the loops of live mode come to their end, every
    parameter set is accounted for: it has given a row or it has been
    reported as skipped, so that the number of rows and the number of
    runs reported as skipped add up to the size of the matrix. *)
Theorem runs_accounted_for `{Platform} (total : Z) (ws : list string) (os : list Z)
    (ss : list (Z * Z)) (st st1 : state) (results : list dict) (n : Z) :
  run_matrix.run_all total ws os ss st = (inr (results, n), st1) ->
  exists tail,
    trace st1 = trace st ++ tail
    /\ (length results + length (skipped_runs tail)
        = length ws * length os * length ss)%nat.
Proof.
  unfold run_matrix.run_all. rewrite main_loops_matrix. intros Hloop.
  apply run_loop_accounts in Hloop as (tail & E & L).
  exists tail. split; [done|]. rewrite L, length_matrix. cbn [length]. lia.
Qed.

(** X20 on [Toy.flaky]: two rows and one run skipped, the second. *)
Lemma runs_accounted_for_flaky :
  length flaky_results = 2%nat
  /\ skipped_runs (trace (snd flaky_run)) = [2]
  /\ exists tail,
       trace (snd flaky_run)
       = trace (run_matrix.started (H := Toy.flaky) ["rpc"] [1; 8; 32] [(256, 256)]
                  (Toy.start Toy.flaky tt)) ++ tail
       /\ (length flaky_results + length (skipped_runs tail) = 1 * 3 * 1)%nat.
Proof.
  split; [vm_compute; reflexivity|]. split; [vm_compute; reflexivity|].
  apply (runs_accounted_for (H := Toy.flaky) 3 ["rpc"] [1; 8; 32] [(256, 256)]
           (run_matrix.started (H := Toy.flaky) ["rpc"] [1; 8; 32] [(256, 256)]
              (Toy.start Toy.flaky tt))
           (snd flaky_run) flaky_results 3).
  vm_compute. reflexivity.
Defined.

(** X21.  One turn of the loop of rescan mode never raises and comes to
    one of four ends.  An entry that is not a directory is passed over
    in silence.  A directory without [config.json] or without
    [summary.txt] is reported as skipped.  A directory with both gets a
    row at the end of [results] and a line that reports it when the
    [try] block comes through, and an error line and no row when it
    does not. *)
Theorem entry_outcomes `{Platform} (run_dir : string) (results : list dict) (st : state) :
  (isdir (Py.path_join generate_manifest.OUT_DIR run_dir) (world st) = false ->
   generate_manifest.process_entry run_dir results st = (inr results, st))
  /\ (isdir (Py.path_join generate_manifest.OUT_DIR run_dir) (world st) = true ->
      path_exists
        (Py.path_join (Py.path_join generate_manifest.OUT_DIR run_dir) "config.json")
        (world st) = false
      \/ path_exists
           (Py.path_join (Py.path_join generate_manifest.OUT_DIR run_dir) "summary.txt")
           (world st) = false ->
      generate_manifest.process_entry run_dir results st
      = (inr results, State (world st) (trace st ++ [Print (MsgSkipping run_dir)])))
  /\ (generate_manifest.complete (world st) run_dir = true ->
      match generate_manifest.load (world st) run_dir with
      | inr row =>
          generate_manifest.process_entry run_dir results st
          = (inr (results ++ [row]),
             State (world st) (trace st ++ [Print (MsgProcessed run_dir)]))
      | inl e =>
          generate_manifest.process_entry run_dir results st
          = (inr results,
             State (world st) (trace st ++ [Print (MsgErrorProcessing run_dir e)]))
      end).
Proof.
  rewrite process_entry_outcome.
  unfold generate_manifest.processed, generate_manifest.entry_events,
    generate_manifest.complete. cbv zeta.
  split; [|split].
  - intros ->. cbn. rewrite !app_nil_r. by destruct st.
  - intros -> [-> | ->]; cbn; rewrite ?andb_false_r; cbn; by rewrite app_nil_r.
  - intros Hc. rewrite Hc.
    apply andb_true_iff in Hc as [[-> _]%andb_true_iff _]. cbn [negb].
    destruct (generate_manifest.load (world st) run_dir); cbn; by rewrite ?app_nil_r.
Qed.

(** X21 on two entries of [Toy.result_root]: the earlier manifest, a
    file, and the directory [m], which has no summary. *)
Lemma entry_outcomes_result_root :
  generate_manifest.process_entry (H := Toy.result_root) "manifest.csv" []
    (Toy.start Toy.result_root tt)
  = (inr [], Toy.start Toy.result_root tt)
  /\ generate_manifest.process_entry (H := Toy.result_root) "m" []
       (Toy.start Toy.result_root tt)
     = (inr [], @State Toy.result_root tt [Print (MsgSkipping "m")]).
Proof.
  split.
  - apply (entry_outcomes (H := Toy.result_root) "manifest.csv" []
             (Toy.start Toy.result_root tt)). reflexivity.
  - apply (entry_outcomes (H := Toy.result_root) "m" [] (Toy.start Toy.result_root tt));
      [reflexivity|right; reflexivity].
Defined.

(** X22.  [int(float(...))] loses nothing on a percentile field whose
    literal, in whatever form (fraction, exponent, sign), denotes an
    integer below 2^53 in absolute value and other than 0: the field is
    read as that integer. *)
Theorem percentile_exact (line f : string) (neg : bool) (mant x N : Z) :
  subscript (Py.split line ":") 1 = inr f ->
  Py.read_float (Py.strip f) = Some (Py.FDec neg mant x) ->
  0 < N < 2 ^ 53 ->
  (if 0 <=? x then mant * 10 ^ x = N else mant = N * 10 ^ (- x)) ->
  Summary.percentile_field line = inr (if neg then - N else N).
Proof.
  intros Hf Hread HN Hval. unfold Summary.percentile_field. rewrite Hf.
  by eapply int_of_float_integer.
Qed.

(** X22 on three ways of writing 1234. *)
Lemma percentile_exact_forms :
  Summary.percentile_field "p50: 1234.000" = inr 1234
  /\ Summary.percentile_field "p95: 1.234e3" = inr 1234
  /\ Summary.percentile_field "p99: 12340E-1" = inr 1234.
Proof.
  split; [|split].
  - apply (percentile_exact "p50: 1234.000" " 1234.000" false 1234000 (-3) 1234);
      [reflexivity|vm_compute; reflexivity|lia|reflexivity].
  - apply (percentile_exact "p95: 1.234e3" " 1.234e3" false 1234 0 1234);
      [reflexivity|vm_compute; reflexivity|lia|reflexivity].
  - apply (percentile_exact "p99: 12340E-1" " 12340E-1" false 12340 (-1) 1234);
      [reflexivity|vm_compute; reflexivity|lia|reflexivity].
Defined.
